(** * FOS Survey Call Agent: the conversation state machine

    A shallow embedding of [backend/app/agent/session.py],
    [backend/app/agent/prompts.py], the response store of
    [backend/app/database.py] and [backend/app/agent/survey_agent.py],
    followed by the properties of the survey dialogue.

    Conventions.
    - A Python [str] is the list of its Unicode code points ([list N]).
    - A Python [int] is a [Z].
    - [Dict[int, str]] is a [gmap Z (list N)].
    - Methods that mutate [self] and may raise are computations in a small
      state-and-exception monad over the agent: the state reached when an
      exception leaves a method is kept, as it is in Python.
    - Logging has no effect on the state and is left out; so are the two
      wall-clock fields [started_at] and [completed_at]. *)

From Stdlib Require Import ZArith NArith QArith Ascii String DecimalString.
From stdpp Require Import base option list gmap.

Local Open Scope Z_scope.

(* ===================================================================== *)
(** ** Python strings *)
(* ===================================================================== *)

Module PyStr.

(** Decoder for the UTF-8 bytes of a source literal: [acc] holds the bits
    read so far of a multi-byte sequence, [k] the continuation bytes
    still expected. *)
Fixpoint utf8_go (bs : list N) (acc : N) (k : nat) : list N :=
  match bs with
  | [] => []
  | b :: bs' =>
      match k with
      | S k' =>
          let acc' := (acc * 64 + b mod 64)%N in
          match k' with
          | O => acc' :: utf8_go bs' 0%N O
          | S _ => utf8_go bs' acc' k'
          end
      | O =>
          if (b <? 128)%N then b :: utf8_go bs' 0%N O
          else if (b <? 224)%N then utf8_go bs' (b mod 32)%N 1%nat
          else if (b <? 240)%N then utf8_go bs' (b mod 16)%N 2%nat
          else utf8_go bs' (b mod 8)%N 3%nat
      end
  end.

(** [py "..."] is the Python string written by that literal. *)
Definition py (s : string) : list N :=
  utf8_go (List.map N_of_ascii (list_ascii_of_string s)) 0%N O.

(** [str.isspace] on one code point (CPython's [_PyUnicode_IsWhitespace]). *)
Definition is_space (c : N) : bool :=
  ((9 <=? c) && (c <=? 13) || (28 <=? c) && (c <=? 32)
   || (c =? 133) || (c =? 160) || (c =? 5760)
   || (8192 <=? c) && (c <=? 8202)
   || (c =? 8232) || (c =? 8233) || (c =? 8239) || (c =? 8287)
   || (c =? 12288))%N.

Fixpoint lstrip (s : list N) : list N :=
  match s with
  | [] => []
  | c :: s' => if is_space c then lstrip s' else s
  end.

Definition rstrip (s : list N) : list N := rev (lstrip (rev s)).

(** [s.strip()] *)
Definition strip (s : list N) : list N := rstrip (lstrip s).

(** [str(n)] for an [int]. *)
Definition str_of_int (n : Z) : list N :=
  py (NilZero.string_of_int (Z.to_int n)).

(** [a or b] on strings: the empty string is the only falsy one. *)
Definition or_ (a b : list N) : list N :=
  match a with
  | [] => b
  | _ :: _ => a
  end.

Definition nl : list N := [10%N].

(** [sub in s] *)
Definition contains (sub s : list N) : Prop :=
  ∃ pre post, s = pre ++ sub ++ post.

(** [s.startswith(pre)] *)
Fixpoint startswith (s pre : list N) : bool :=
  match pre, s with
  | [], _ => true
  | _ :: _, [] => false
  | p :: pre', c :: s' => (p =? c)%N && startswith s' pre'
  end.

(** [sub in s], as a test. *)
Fixpoint contains_b (sub s : list N) : bool :=
  startswith s sub
  || match s with
     | [] => false
     | _ :: s' => contains_b sub s'
     end.

End PyStr.

Import PyStr.

(* ===================================================================== *)
(** ** prompts.py *)
(* ===================================================================== *)

Module prompts.

Definition GREETING_head : list N := Eval vm_compute in
  py "السلام علیکم! میں FOS سروے سینٹر سے بول رہا ہوں۔" ++ nl ++ py "کیا آپ ".
Definition GREETING_tail : list N := Eval vm_compute in
  py " صاحب سے بات ہو رہی ہے؟".

Definition IDENTITY_CONFIRMED_head : list N := Eval vm_compute in py "شکریہ ".
Definition IDENTITY_CONFIRMED_tail : list N := Eval vm_compute in py " صاحب۔".

Definition SURVEY_INTRO : list N := Eval vm_compute in
  py "آج میں آپ سے کچھ سوالات پوچھنا چاہتا ہوں۔ " ++ nl
  ++ py "آپ کے جوابات مکمل طور پر رازدارانہ رہیں گے اور یہ ہماری کمپنی کو بہتر بنانے میں مدد کریں گے۔" ++ nl
  ++ py "آئیے شروع کرتے ہیں۔".

Definition ASK_QUESTION_head : list N := Eval vm_compute in py "سوال نمبر ".
Definition ASK_QUESTION_sep : list N := Eval vm_compute in py ": ".

Definition ACKNOWLEDGE_NEXT : list N := Eval vm_compute in
  py "شکریہ، اگلا سوال سنیں۔".

Definition REPEAT_REQUEST : list N := Eval vm_compute in
  py "براہ کرم دوبارہ بتائیں، مجھے آپ کی بات واضح نہیں سمجھ آئی۔".

Definition CLOSING : list N := Eval vm_compute in
  py "بہت شکریہ آپ کے وقت کا۔ آپ کے جوابات محفوظ ہو گئے ہیں۔" ++ nl
  ++ py "اگر کوئی شکایت ہو تو FOS ہیلپ لائن پر کال کریں: 0800-91299" ++ nl
  ++ py "اللہ حافظ!".

Definition SKIPPING : list N := Eval vm_compute in
  py "ٹھیک ہے، آگے بڑھتے ہیں۔".

Definition CALL_LATER : list N := Eval vm_compute in
  py "معذرت، ابھی آپ مصروف لگ رہے ہیں۔ ہم بعد میں دوبارہ رابطہ کریں گے۔" ++ nl
  ++ py "اللہ حافظ!".

Definition TECHNICAL_ERROR : list N := Eval vm_compute in
  py "معذرت، کچھ تکنیکی مسئلہ ہو گیا۔ ہم جلد دوبارہ رابطہ کریں گے۔" ++ nl
  ++ py "اللہ حافظ!".

(** [GREETING.format(employee_name=...)] *)
Definition format_greeting (employee_name : list N) : list N :=
  GREETING_head ++ employee_name ++ GREETING_tail.

(** [IDENTITY_CONFIRMED.format(employee_name=...)] *)
Definition format_identity_confirmed (employee_name : list N) : list N :=
  IDENTITY_CONFIRMED_head ++ employee_name ++ IDENTITY_CONFIRMED_tail.

(** [ASK_QUESTION.format(question_number=..., question_text=...)] *)
Definition format_question (question_number : Z) (question_text : list N)
  : list N :=
  ASK_QUESTION_head ++ str_of_int question_number
  ++ ASK_QUESTION_sep ++ question_text.

End prompts.

(** The prompts are kept folded while a method is evaluated symbolically. *)
#[global] Arguments prompts.SURVEY_INTRO : simpl never.
#[global] Arguments prompts.ACKNOWLEDGE_NEXT : simpl never.
#[global] Arguments prompts.REPEAT_REQUEST : simpl never.
#[global] Arguments prompts.CLOSING : simpl never.
#[global] Arguments prompts.SKIPPING : simpl never.
#[global] Arguments prompts.CALL_LATER : simpl never.
#[global] Arguments prompts.TECHNICAL_ERROR : simpl never.
#[global] Arguments prompts.format_greeting : simpl never.
#[global] Arguments prompts.format_identity_confirmed : simpl never.
#[global] Arguments prompts.format_question : simpl never.
#[global] Arguments strip : simpl never.
#[global] Arguments nl : simpl never.

(* ===================================================================== *)
(** ** Exceptions *)
(* ===================================================================== *)

(** The exceptions the modelled code can raise: attribute access on [None],
    a failing statement of the SQLite store, and a true division by zero. *)
Inductive exn : Set :=
| AttributeError
| OperationalError
| ZeroDivisionError.

Inductive result (A : Type) : Type :=
| Return (a : A)
| Raise (e : exn).

Arguments Return {A} a.
Arguments Raise {A} e.

(* ===================================================================== *)
(** ** database.py: the models and the response store *)
(* ===================================================================== *)

Module Survey.
Record t : Type := mk {
  id : Z;
  title : list N;
  title_ur : list N;
  description : list N;
  description_ur : list N
}.
End Survey.

Module Question.
Record t : Type := mk {
  id : Z;
  survey_id : Z;
  order : Z;
  text : list N;
  text_ur : list N;
  type : list N;
  required : bool;
  help_text : list N
}.
End Question.

Module Employee.
Record t : Type := mk {
  id : Z;
  name : list N;
  name_en : list N;
  designation : list N;
  branch : list N;
  phone : list N
}.
End Employee.

Module Database.

(** A row of table [responses] ([created_at] left out). *)
Record response_row : Type := mk_response {
  r_id : Z;
  r_survey_id : Z;
  r_question_id : Z;
  r_employee_id : Z;
  r_session_id : list N;
  r_answer_text : list N
}.

(** A row of table [sessions], keyed by its [id]. *)
Record session_row : Type := mk_session {
  s_survey_id : Z;
  s_employee_id : Z;
  s_status : list N
}.

(** The store as the agent sees it. [available] says whether the SQLite
    statements of the next call go through; when it is [false] they raise
    and leave the tables as they were. *)
Record t : Type := mk {
  responses : list response_row;
  sessions : gmap (list N) session_row;
  available : bool
}.

Definition set_available (b : bool) (d : t) : t :=
  mk (responses d) (sessions d) b.

(** [Database.save_response]: INSERT one row, return [lastrowid]. *)
Definition save_response (survey_id question_id employee_id : Z)
    (answer_text session_id : list N) (d : t) : result (t * Z) :=
  if available d then
    let rowid := Z.of_nat (length (responses d)) + 1 in
    Return (mk (responses d
                ++ [mk_response rowid survey_id question_id employee_id
                      session_id answer_text])
               (sessions d) (available d),
            rowid)
  else Raise OperationalError.

(** [Database.complete_session]: UPDATE ... WHERE id = ? *)
Definition complete_session (session_id : list N) (d : t)
  : result (t * unit) :=
  if available d then
    Return (mk (responses d)
               (alter (λ r, mk_session (s_survey_id r) (s_employee_id r)
                              (py "completed"))
                  session_id (sessions d))
               (available d),
            tt)
  else Raise OperationalError.

(** The two errors of [sqlite3] the session insert can end in. *)
Inductive sqlite_error : Set :=
| SqliteOperationalError
| SqliteIntegrityError.

(** [Database.create_session]: INSERT a row of [sessions]; the primary key
    [id] refuses a second row under the same identifier. *)
Definition create_session (session_id : list N) (survey_id employee_id : Z)
    (d : t) : sqlite_error + t :=
  if available d then
    match sessions d !! session_id with
    | Some _ => inl SqliteIntegrityError
    | None =>
        inr (mk (responses d)
                (<[session_id :=
                     mk_session survey_id employee_id (py "in_progress")]>
                   (sessions d))
                (available d))
    end
  else inl SqliteOperationalError.

End Database.

(* ===================================================================== *)
(** ** session.py *)
(* ===================================================================== *)

Module SessionState.
Inductive t : Set := CREATED | IN_PROGRESS | COMPLETED | ABANDONED | ERROR.

Definition eqb (a b : t) : bool :=
  match a, b with
  | CREATED, CREATED | IN_PROGRESS, IN_PROGRESS | COMPLETED, COMPLETED
  | ABANDONED, ABANDONED | ERROR, ERROR => true
  | _, _ => false
  end.

(** [state.value] *)
Definition value (a : t) : list N :=
  match a with
  | CREATED => py "created"
  | IN_PROGRESS => py "in_progress"
  | COMPLETED => py "completed"
  | ABANDONED => py "abandoned"
  | ERROR => py "error"
  end.
End SessionState.

Module SurveySession.

Record t : Type := mk {
  session_id : list N;
  survey_id : Z;
  employee_id : Z;
  survey : Survey.t;
  employee : Employee.t;
  questions : list Question.t;
  state : SessionState.t;
  current_question_index : Z;
  responses : gmap Z (list N);
  retry_count : Z;
  max_retries : Z
}.

Definition set_state (v : SessionState.t) (s : t) : t :=
  mk (session_id s) (survey_id s) (employee_id s) (survey s) (employee s)
     (questions s) v (current_question_index s) (responses s)
     (retry_count s) (max_retries s).

Definition set_current_question_index (v : Z) (s : t) : t :=
  mk (session_id s) (survey_id s) (employee_id s) (survey s) (employee s)
     (questions s) (state s) v (responses s) (retry_count s) (max_retries s).

Definition set_responses (v : gmap Z (list N)) (s : t) : t :=
  mk (session_id s) (survey_id s) (employee_id s) (survey s) (employee s)
     (questions s) (state s) (current_question_index s) v
     (retry_count s) (max_retries s).

Definition set_retry_count (v : Z) (s : t) : t :=
  mk (session_id s) (survey_id s) (employee_id s) (survey s) (employee s)
     (questions s) (state s) (current_question_index s) (responses s)
     v (max_retries s).

(** [len(self.questions)] *)
Definition len_questions (s : t) : Z := Z.of_nat (length (questions s)).

(** property [current_question] *)
Definition current_question (s : t) : option Question.t :=
  if (0 <=? current_question_index s)
     && (current_question_index s <? len_questions s)
  then questions s !! Z.to_nat (current_question_index s)
  else None.

(** property [is_complete] *)
Definition is_complete (s : t) : bool :=
  (current_question_index s >=? len_questions s)
  || SessionState.eqb (state s) SessionState.COMPLETED.

Definition record_response (question_id : Z) (answer : list N) (s : t) : t :=
  set_retry_count 0 (set_responses (<[question_id := answer]> (responses s)) s).

Definition advance_to_next_question (s : t) : t :=
  set_state SessionState.IN_PROGRESS
    (set_current_question_index (current_question_index s + 1) s).

(** Returns the session after the call and the method's result. *)
Definition increment_retry (s : t) : t * bool :=
  let s1 := set_retry_count (retry_count s + 1) s in
  if retry_count s1 >? max_retries s1
  then (set_state SessionState.ABANDONED s1, false)
  else (s1, true).

Definition complete (s : t) : t := set_state SessionState.COMPLETED s.

Definition abandon (s : t) : t := set_state SessionState.ABANDONED s.

End SurveySession.

Module SessionManager.

(** [SessionManager.create_session]; the fresh identifier
    [str(uuid.uuid4())[:8]] is an argument. Returns the registry with the
    session stored under that identifier, and the session. *)
Definition create_session (session_id : list N) (survey : Survey.t)
    (employee : Employee.t) (questions : list Question.t)
    (sessions : gmap (list N) SurveySession.t)
  : gmap (list N) SurveySession.t * SurveySession.t :=
  let session :=
    SurveySession.mk session_id (Survey.id survey) (Employee.id employee)
      survey employee questions SessionState.CREATED 0 ∅ 0 3 in
  (<[session_id := session]> sessions, session).

(** [SessionManager.get_session] *)
Definition get_session (session_id : list N)
    (sessions : gmap (list N) SurveySession.t) : option SurveySession.t :=
  sessions !! session_id.

(** [SessionManager.remove_session] *)
Definition remove_session (session_id : list N)
    (sessions : gmap (list N) SurveySession.t)
  : gmap (list N) SurveySession.t :=
  match sessions !! session_id with
  | Some _ => delete session_id sessions
  | None => sessions
  end.

(** The test of [SessionManager.get_active_sessions]. *)
Definition is_active (s : SurveySession.t) : bool :=
  match SurveySession.state s with
  | SessionState.CREATED | SessionState.IN_PROGRESS => true
  | _ => false
  end.

(** [SessionManager.get_active_sessions], as the registry restricted to
    the sessions it lists (the order of the list is left out). *)
Definition get_active_sessions (sessions : gmap (list N) SurveySession.t)
  : gmap (list N) SurveySession.t :=
  filter (λ ks, is_active ks.2 = true) sessions.

End SessionManager.

(* ===================================================================== *)
(** ** The process-wide singletons *)
(* ===================================================================== *)

(** The SELECTs of [Database.get_survey], [get_employee] and
    [get_questions], taken as given: what each returns for an id. *)
Module Catalog.
Record t : Type := mk {
  get_survey : Z → option Survey.t;
  get_employee : Z → option Employee.t;
  get_questions : Z → list Question.t
}.
End Catalog.

(** The global session manager and the global database, side by side. *)
Record world : Type := mk_world {
  registry : gmap (list N) SurveySession.t;
  store : Database.t
}.

(* ===================================================================== *)
(** ** survey_agent.py *)
(* ===================================================================== *)

Module ConversationPhase.
Inductive t : Set :=
| GREETING
| WAIT_IDENTITY
| CONFIRMED
| INTRO
| ASK_QUESTION
| WAIT_ANSWER
| ACKNOWLEDGE
| CLOSING
| DONE.
End ConversationPhase.

Module SurveyAgent.

Record t : Type := mk {
  session : SurveySession.t;
  db : Database.t;
  phase : ConversationPhase.t
}.

(** [SurveyAgent.__init__]; [get_db()] is the argument [db]. *)
Definition init (session : SurveySession.t) (db : Database.t) : t :=
  mk session db ConversationPhase.GREETING.

(** *** Methods as computations over the agent *)

Definition M (A : Type) : Type := t → t * result A.

Definition ret {A} (x : A) : M A := λ a, (a, Return x).

Definition raise {A} (e : exn) : M A := λ a, (a, Raise e).

Definition bind {A B} (c : M A) (k : A → M B) : M B := λ a,
  match c a with
  | (a', Return x) => k x a'
  | (a', Raise e) => (a', Raise e)
  end.

Declare Scope agent_scope.
Delimit Scope agent_scope with agent.
Notation "x <- c1 ;; c2" := (bind c1 (λ x, c2))
  (at level 100, c1 at next level, right associativity) : agent_scope.
Notation "c1 ;; c2" := (bind c1 (λ _, c2))
  (at level 100, right associativity) : agent_scope.

(** [self.session], [self.phase] *)
Definition get_session : M SurveySession.t := λ a, (a, Return (session a)).
Definition get_phase : M ConversationPhase.t := λ a, (a, Return (phase a)).

(** [self.phase = p] *)
Definition set_phase (p : ConversationPhase.t) : M unit := λ a,
  (mk (session a) (db a) p, Return tt).

(** A call of a session method that mutates the session. *)
Definition session_do (f : SurveySession.t → SurveySession.t) : M unit :=
  λ a, (mk (f (session a)) (db a) (phase a), Return tt).

Definition session_call {A} (f : SurveySession.t → SurveySession.t * A)
  : M A :=
  λ a, let '(s', x) := f (session a) in (mk s' (db a) (phase a), Return x).

(** A call of a method of [self.db]. *)
Definition db_call {A} (f : Database.t → result (Database.t * A)) : M A :=
  λ a, match f (db a) with
       | Return (d', x) => (mk (session a) d' (phase a), Return x)
       | Raise e => (a, Raise e)
       end.

(** Attribute access on an [Optional] value. *)
Definition deref {A} (o : option A) : M A :=
  match o with
  | Some x => ret x
  | None => raise AttributeError
  end.

(** [question.text_ur or question.text] *)
Definition spoken_text (q : Question.t) : list N :=
  or_ (Question.text_ur q) (Question.text q).

Local Open Scope agent_scope.

Definition get_next_utterance : M (list N) :=
  phase <- get_phase ;;
  match phase with
  | ConversationPhase.GREETING =>
      set_phase ConversationPhase.WAIT_IDENTITY ;;
      s <- get_session ;;
      ret (prompts.format_greeting (Employee.name (SurveySession.employee s)))
  | ConversationPhase.CONFIRMED =>
      set_phase ConversationPhase.INTRO ;;
      s <- get_session ;;
      ret (prompts.format_identity_confirmed
             (Employee.name (SurveySession.employee s)))
  | ConversationPhase.INTRO =>
      set_phase ConversationPhase.ASK_QUESTION ;;
      ret prompts.SURVEY_INTRO
  | ConversationPhase.ASK_QUESTION =>
      s <- get_session ;;
      match SurveySession.current_question s with
      | Some question =>
          set_phase ConversationPhase.WAIT_ANSWER ;;
          ret (prompts.format_question
                 (SurveySession.current_question_index s + 1)
                 (spoken_text question))
      | None =>
          set_phase ConversationPhase.CLOSING ;;
          ret prompts.CLOSING
      end
  | ConversationPhase.ACKNOWLEDGE =>
      s <- get_session ;;
      if SurveySession.current_question_index s
         >=? SurveySession.len_questions s
      then
        set_phase ConversationPhase.CLOSING ;;
        ret prompts.CLOSING
      else
        set_phase ConversationPhase.ASK_QUESTION ;;
        question <- deref (SurveySession.current_question s) ;;
        ret (prompts.ACKNOWLEDGE_NEXT ++ nl ++ nl
             ++ prompts.format_question
                  (SurveySession.current_question_index s + 1)
                  (spoken_text question))
  | ConversationPhase.CLOSING =>
      session_do SurveySession.complete ;;
      s <- get_session ;;
      db_call (Database.complete_session (SurveySession.session_id s)) ;;
      set_phase ConversationPhase.DONE ;;
      ret prompts.CLOSING
  | ConversationPhase.DONE => ret []
  | _ => ret []
  end.

Definition _save_response (question : Question.t) (answer : list N)
  : M unit :=
  session_do (SurveySession.record_response (Question.id question) answer) ;;
  s <- get_session ;;
  db_call (Database.save_response
             (SurveySession.survey_id s) (Question.id question)
             (SurveySession.employee_id s) answer
             (SurveySession.session_id s)) ;;
  ret tt.

Definition process_response (transcription : list N) : M (bool * list N) :=
  phase <- get_phase ;;
  let clean_text := strip transcription in
  match clean_text with
  | [] =>
      ok <- session_call SurveySession.increment_retry ;;
      if ok then ret (false, prompts.REPEAT_REQUEST)
      else ret (false, prompts.CALL_LATER)
  | _ :: _ =>
      match phase with
      | ConversationPhase.WAIT_IDENTITY =>
          set_phase ConversationPhase.CONFIRMED ;;
          s <- get_session ;;
          let confirmed :=
            prompts.format_identity_confirmed
              (Employee.name (SurveySession.employee s)) in
          let intro := prompts.SURVEY_INTRO in
          question <- deref (SurveySession.current_question s) ;;
          let first_q := prompts.format_question 1 (spoken_text question) in
          set_phase ConversationPhase.WAIT_ANSWER ;;
          ret (true, confirmed ++ nl ++ nl ++ intro ++ nl ++ nl ++ first_q)
      | ConversationPhase.WAIT_ANSWER =>
          s <- get_session ;;
          match SurveySession.current_question s with
          | Some question =>
              _save_response question clean_text ;;
              session_do SurveySession.advance_to_next_question ;;
              s <- get_session ;;
              if SurveySession.current_question_index s
                 >=? SurveySession.len_questions s
              then ret (true, prompts.CLOSING)
              else
                next_q <- deref (SurveySession.current_question s) ;;
                set_phase ConversationPhase.WAIT_ANSWER ;;
                ret (true,
                     prompts.ACKNOWLEDGE_NEXT ++ nl ++ nl
                     ++ prompts.format_question
                          (SurveySession.current_question_index s + 1)
                          (spoken_text next_q))
          | None => ret (false, prompts.TECHNICAL_ERROR)
          end
      | _ => ret (false, prompts.REPEAT_REQUEST)
      end
  end.

Definition skip_question : M (list N) :=
  s <- get_session ;;
  let question := SurveySession.current_question s in
  match question with
  | Some q =>
      if negb (Question.required q) then
        session_do SurveySession.advance_to_next_question ;;
        s <- get_session ;;
        if SurveySession.current_question_index s
           >=? SurveySession.len_questions s
        then ret prompts.CLOSING
        else
          next_q <- deref (SurveySession.current_question s) ;;
          ret (prompts.SKIPPING ++ nl ++ nl
               ++ prompts.format_question
                    (SurveySession.current_question_index s + 1)
                    (spoken_text next_q))
      else
        ret (prompts.format_question
               (SurveySession.current_question_index s + 1)
               (Question.text_ur q))
  | None =>
      ret (prompts.format_question
             (SurveySession.current_question_index s + 1) [])
  end.

(** [SurveyAgent.create_for_survey]. [fresh_id] is the identifier
    [create_session] draws. Returns the singletons after the call and
    either the error raised, or [None], or the new agent. *)
Definition create_for_survey (catalog : Catalog.t) (fresh_id : list N)
    (survey_id employee_id : Z) (w : world)
  : world * (Database.sqlite_error + option t) :=
  if Database.available (store w) then
    match Catalog.get_survey catalog survey_id with
    | None => (w, inr None)
    | Some survey =>
        match Catalog.get_employee catalog employee_id with
        | None => (w, inr None)
        | Some employee =>
            match Catalog.get_questions catalog survey_id with
            | [] => (w, inr None)
            | (_ :: _) as questions =>
                let '(registry', session) :=
                  SessionManager.create_session fresh_id survey employee
                    questions (registry w) in
                match Database.create_session
                        (SurveySession.session_id session)
                        survey_id employee_id (store w) with
                | inl e => (mk_world registry' (store w), inl e)
                | inr d' =>
                    (mk_world registry' d', inr (Some (init session d')))
                end
            end
        end
    end
  else (w, inl Database.SqliteOperationalError).

End SurveyAgent.

(* ===================================================================== *)
(** ** Progress and status *)
(* ===================================================================== *)

Section Progress.

(** Rounding of a real to the nearest [float]. The properties below use
    only that it is monotone and leaves 0, 1 and 100 as they are. *)
Variable fl : Q → Q.



(** What [SurveyAgent.get_status] reports; [progress] is the number that
    the source then prints with [:.0f]. *)
Record status : Type := mk_status {
  st_session_id : list N;
  st_phase : ConversationPhase.t;
  st_current_question : Z;
  st_total_questions : Z;
  st_progress : Q;
  st_responses_collected : Z
}.


End Progress.

(* ===================================================================== *)
(** ** Conversations *)
(* ===================================================================== *)

(** The three operations a transport layer invokes on an agent. *)
Inductive call : Type :=
| Start                          (* get_next_utterance() *)
| Advance (utterance : list N)   (* process_response(utterance) *)
| Skip.                          (* skip_question() *)

(** What happens around an agent: a call, or the store going up or down. *)
Inductive event : Type :=
| Call (c : call)
| Store (up : bool).

(** The agent after one call, whether the call returned or raised. *)
Definition after_call (c : call) (a : SurveyAgent.t) : SurveyAgent.t :=
  match c with
  | Start => fst (SurveyAgent.get_next_utterance a)
  | Advance u => fst (SurveyAgent.process_response u a)
  | Skip => fst (SurveyAgent.skip_question a)
  end.

Definition after_event (e : event) (a : SurveyAgent.t) : SurveyAgent.t :=
  match e with
  | Call c => after_call c a
  | Store up =>
      SurveyAgent.mk (SurveyAgent.session a)
        (Database.set_available up (SurveyAgent.db a)) (SurveyAgent.phase a)
  end.

(** The agent after a sequence of events, oldest first. *)
Fixpoint run (es : list event) (a : SurveyAgent.t) : SurveyAgent.t :=
  match es with
  | [] => a
  | e :: es' => run es' (after_event e a)
  end.

(** Successive [process_response] calls with their replies. *)
Fixpoint converse (us : list (list N)) (a : SurveyAgent.t)
  : SurveyAgent.t * list (result (bool * list N)) :=
  match us with
  | [] => (a, [])
  | u :: us' =>
      let '(a1, r) := SurveyAgent.process_response u a in
      let '(a2, rs) := converse us' a1 in
      (a2, r :: rs)
  end.

(** An agent for a session as [SessionManager.create_session] makes it. *)
Definition new_agent (session_id : list N) (survey : Survey.t)
    (employee : Employee.t) (questions : list Question.t) (db : Database.t)
  : SurveyAgent.t :=
  SurveyAgent.init
    (snd (SessionManager.create_session session_id survey employee questions ∅))
    db.

(** Shorthands for the observations the properties speak about. *)
Definition cursor (a : SurveyAgent.t) : Z :=
  SurveySession.current_question_index (SurveyAgent.session a).
Definition answers (a : SurveyAgent.t) : gmap Z (list N) :=
  SurveySession.responses (SurveyAgent.session a).
Definition retries (a : SurveyAgent.t) : Z :=
  SurveySession.retry_count (SurveyAgent.session a).
Definition session_state (a : SurveyAgent.t) : SessionState.t :=
  SurveySession.state (SurveyAgent.session a).
Definition total (a : SurveyAgent.t) : Z :=
  SurveySession.len_questions (SurveyAgent.session a).

(** Made of whitespace characters only. *)
Definition spaces (u : list N) : Prop := Forall (λ c, is_space c = true) u.

(** Whitespace-only, the empty string included: what [process_response]
    takes for silence. *)
Definition blank (u : list N) : Prop := strip u = [].

(** The session after [process_response] took [u] as the answer to [q]. *)
Definition answered (q : Question.t) (u : list N) (s : SurveySession.t)
  : SurveySession.t :=
  SurveySession.advance_to_next_question
    (SurveySession.record_response (Question.id q) (strip u) s).

(** The reply to an answer, read off the session it led to. *)
Definition answer_reply (s' : SurveySession.t) : result (bool * list N) :=
  if SurveySession.current_question_index s' >=? SurveySession.len_questions s'
  then Return (true, prompts.CLOSING)
  else match SurveySession.current_question s' with
       | Some next_q =>
           Return (true,
                   prompts.ACKNOWLEDGE_NEXT ++ nl ++ nl
                   ++ prompts.format_question
                        (SurveySession.current_question_index s' + 1)
                        (SurveyAgent.spoken_text next_q))
       | None => Raise AttributeError
       end.

(** The answers mapping after the questions [qs] were answered by [us],
    in order, starting from [m]. *)
Definition record_all (m : gmap Z (list N))
    (qus : list (Question.t * list N)) : gmap Z (list N) :=
  foldl (λ m qu, <[Question.id qu.1 := strip qu.2]> m) m qus.

(** Whether event [e], met by agent [a], is an [advance] call that the
    response store failed. *)
Definition write_failed (e : event) (a : SurveyAgent.t) : bool :=
  match e with
  | Call (Advance u) =>
      match snd (SurveyAgent.process_response u a) with
      | Raise OperationalError => true
      | _ => false
      end
  | _ => false
  end.

(** No write to the response store fails along [es], started from [a]. *)
Fixpoint no_failed_write (es : list event) (a : SurveyAgent.t) : bool :=
  match es with
  | [] => true
  | e :: es' => negb (write_failed e a) && no_failed_write es' (after_event e a)
  end.

(** What one event can do to the session; the flag tells the one change
    that comes with a failed write: the answer is stored and the method
    is left before the cursor moves. *)
Inductive session_change (s : SurveySession.t)
  : bool → SurveySession.t → Prop :=
| change_none : session_change s false s
| change_retry :
    session_change s false (fst (SurveySession.increment_retry s))
| change_answer q v :
    SurveySession.current_question s = Some q →
    session_change s false
      (SurveySession.advance_to_next_question
         (SurveySession.record_response (Question.id q) v s))
| change_record q v :
    SurveySession.current_question s = Some q →
    session_change s true (SurveySession.record_response (Question.id q) v s)
| change_skip q :
    SurveySession.current_question s = Some q →
    session_change s false (SurveySession.advance_to_next_question s)
| change_complete : session_change s false (SurveySession.complete s).

(** Every recorded answer belongs to a question at or before the cursor. *)
Definition answers_within (s : SurveySession.t) : Prop :=
  dom (SurveySession.responses s)
  ⊆ (list_to_set
       (Question.id
          <$> take (Z.to_nat (SurveySession.current_question_index s + 1))
                (SurveySession.questions s)) : gset Z).

(** The two replies [process_response] gives to silence. *)
Definition retry_line (r : result (bool * list N)) : Prop :=
  r = Return (false, prompts.REPEAT_REQUEST)
  ∨ r = Return (false, prompts.CALL_LATER).

(** The reply to the identity confirmation: confirmation, survey intro and
    question 1, as one utterance. *)
Definition identity_reply (employee_name : list N) (q : Question.t) : list N :=
  prompts.format_identity_confirmed employee_name
  ++ nl ++ nl ++ prompts.SURVEY_INTRO ++ nl ++ nl
  ++ prompts.format_question 1 (SurveyAgent.spoken_text q).

(** The reply to the answer of the question at cursor [n] when the questions
    [rest'] come after it: an acknowledgment with the next question while
    one remains, the closing line after the last. *)
Definition reply_after (n : Z) (rest' : list Question.t)
  : result (bool * list N) :=
  match rest' with
  | [] => Return (true, prompts.CLOSING)
  | next_q :: _ =>
      Return (true,
              prompts.ACKNOWLEDGE_NEXT ++ nl ++ nl
              ++ prompts.format_question (n + 2)
                   (SurveyAgent.spoken_text next_q))
  end.

(** The replies a respondent hears while answering the questions [rest],
    the first of which sits at cursor [n]. *)
Fixpoint replies_from (n : Z) (rest : list Question.t)
  : list (result (bool * list N)) :=
  match rest with
  | [] => []
  | _ :: rest' => reply_after n rest' :: replies_from (n + 1) rest'
  end.

(* ===================================================================== *)
(** ** Sample data *)
(* ===================================================================== *)

Module Sample.

Definition survey : Survey.t :=
  Survey.mk 1 (py "Worker survey") (py "سروے") [] [].

Definition employee : Employee.t :=
  Employee.mk 7 (py "احمد") (py "Ahmed") (py "Operator") [] [].

Definition q1 : Question.t :=
  Question.mk 11 1 1 (py "What is your designation?") (py "آپ کا عہدہ کیا ہے؟")
    (py "text") true [].

Definition q2 : Question.t :=
  Question.mk 12 1 2 (py "How long have you worked here?") []
    (py "text") true [].

(** An optional question. *)
Definition q3 : Question.t :=
  Question.mk 13 1 3 (py "Any other comments?") (py "کوئی اور بات؟")
    (py "text") false [].


Definition store : Database.t := Database.mk [] ∅ true.

Definition sid : list N := py "1a2b3c4d".

Definition agent (qs : list Question.t) : SurveyAgent.t :=
  new_agent sid survey employee qs store.

Definition yes : list N := py "جی ہاں".

(** After the greeting and the identity confirmation. *)
Definition asking (qs : list Question.t) : SurveyAgent.t :=
  run [Call Start; Call (Advance yes)] (agent qs).

(** An agent that has said goodbye: [get_next_utterance] called in phase
    CLOSING on the session of a one-question interview. *)
Definition finished : SurveyAgent.t :=
  let a := run [Call (Advance (py "answer one"))] (asking [q1]) in
  fst (SurveyAgent.get_next_utterance
         (SurveyAgent.mk (SurveyAgent.session a) (SurveyAgent.db a)
            ConversationPhase.CLOSING)).

End Sample.

(* ===================================================================== *)
(** ** api/routes.py: the agent session endpoints *)
(* ===================================================================== *)

Module routes.

(** What leaves an endpoint without being caught. *)
Inductive uncaught : Set :=
| UncaughtSqlite (e : Database.sqlite_error)
| UncaughtExn (e : exn).

(** How a request ends: a body, an [HTTPException], or an exception that
    no handler of the endpoint catches. *)
Inductive response (A : Type) : Type :=
| Ok (body : A)
| HTTPException (status_code : Z) (detail : list N)
| Uncaught (e : uncaught).

Arguments Ok {A} body.
Arguments HTTPException {A} status_code detail.
Arguments Uncaught {A} e.

(** The session object the registry holds under [key] is the one the agent
    mutates: what the agent did to it is what the registry holds afterwards. *)
Definition written_back (key : list N) (a : SurveyAgent.t) (w : world)
  : world :=
  mk_world (<[key := SurveyAgent.session a]> (registry w)) (SurveyAgent.db a).

Record start_body : Type := mk_start_body {
  sb_session_id : list N;
  sb_survey_id : Z;
  sb_employee_id : Z;
  sb_employee_name : list N;
  sb_survey_title : list N;
  sb_total_questions : Z;
  sb_utterance : list N;
  sb_status : list N
}.

(** POST /agent/start *)
Definition start_agent_session (catalog : Catalog.t) (fresh_id : list N)
    (survey_id employee_id : Z) (w : world) : world * response start_body :=
  match SurveyAgent.create_for_survey catalog fresh_id survey_id employee_id w
  with
  | (w', inl e) => (w', Uncaught (UncaughtSqlite e))
  | (w', inr None) =>
      (w', HTTPException 400
             (py "Could not create session. Check survey and employee IDs."))
  | (w', inr (Some agent)) =>
      match SurveyAgent.get_next_utterance agent with
      | (agent', Raise e) =>
          (written_back fresh_id agent' w', Uncaught (UncaughtExn e))
      | (agent', Return greeting) =>
          let session := SurveyAgent.session agent' in
          (written_back fresh_id agent' w',
           Ok (mk_start_body
                 (SurveySession.session_id session)
                 survey_id employee_id
                 (Employee.name (SurveySession.employee session))
                 (or_ (Survey.title_ur (SurveySession.survey session))
                      (Survey.title (SurveySession.survey session)))
                 (SurveySession.len_questions session)
                 greeting
                 (py "started")))
      end
  end.

Record respond_body : Type := mk_respond_body {
  rb_success : bool;
  rb_utterance : list N;
  rb_question_number : Z;
  rb_total_questions : Z;
  rb_is_complete : bool
}.

(** POST /agent/respond *)
Definition process_agent_response (session_id text : list N) (w : world)
  : world * response respond_body :=
  match SessionManager.get_session session_id (registry w) with
  | None => (w, HTTPException 404 (py "Session not found"))
  | Some session =>
      let agent := SurveyAgent.init session (store w) in
      match SurveyAgent.process_response text agent with
      | (agent', Raise e) =>
          (written_back session_id agent' w, Uncaught (UncaughtExn e))
      | (agent', Return (success, response_text)) =>
          let session' := SurveyAgent.session agent' in
          (written_back session_id agent' w,
           Ok (mk_respond_body success response_text
                 (SurveySession.current_question_index session' + 1)
                 (SurveySession.len_questions session')
                 (SurveySession.is_complete session')))
      end
  end.

Record result_entry : Type := mk_result_entry {
  re_question_id : Z;
  re_question_text : list N;
  re_question_text_ur : list N;
  re_answer_text : list N
}.

(** The response list of GET /agent/session/{id}/results: one entry per
    question whose id has an answer, in the order of the questions. *)
Definition session_results (session : SurveySession.t) : list result_entry :=
  omap (λ q,
          match SurveySession.responses session !! Question.id q with
          | Some answer =>
              Some (mk_result_entry (Question.id q) (Question.text q)
                      (Question.text_ur q) answer)
          | None => None
          end)
       (SurveySession.questions session).

Inductive results_body : Type :=
| ResultsUnknown (session_id : list N)
| ResultsOf (session_id : list N) (survey_id employee_id : Z)
    (employee_name status : list N) (responses : list result_entry).

(** GET /agent/session/{id}/results *)
Definition get_session_results (session_id : list N) (w : world)
  : results_body :=
  match SessionManager.get_session session_id (registry w) with
  | None => ResultsUnknown session_id
  | Some session =>
      ResultsOf session_id
        (SurveySession.survey_id session)
        (SurveySession.employee_id session)
        (Employee.name (SurveySession.employee session))
        (SessionState.value (SurveySession.state session))
        (session_results session)
  end.

(** Successive POST /agent/respond requests for one session. *)
Fixpoint respond_all (session_id : list N) (texts : list (list N))
    (w : world) : world * list (response respond_body) :=
  match texts with
  | [] => (w, [])
  | text :: texts' =>
      let '(w1, r) := process_agent_response session_id text w in
      let '(w2, rs) := respond_all session_id texts' w1 in
      (w2, r :: rs)
  end.

End routes.

(* ===================================================================== *)
(** ** agent/survey_brain.py *)
(* ===================================================================== *)

Module SurveyPhase.
Inductive t : Set :=
| GREETING
| IDENTITY_CONFIRM
| INTRO
| ASKING
| WAITING
| CLOSING
| DONE.
End SurveyPhase.

(** The dictionary [PROMPTS]; a template with placeholders is kept as the
    pieces around them. *)
Module PROMPTS.

Definition greeting_head : list N := Eval vm_compute in
  py "السلام علیکم! میں FOS سروے سینٹر سے بول رہا ہوں۔" ++ nl
  ++ py "کیا آپ ".

Definition greeting_tail : list N := Eval vm_compute in
  py " صاحب سے بات ہو رہی ہے؟".

Definition identity_confirmed_head : list N := Eval vm_compute in
  py "شکریہ ".

Definition identity_confirmed_tail : list N := Eval vm_compute in
  py " صاحب۔ آج میں آپ سے کچھ سوالات پوچھنا چاہتا ہوں۔" ++ nl
  ++ py "آپ کے جوابات مکمل طور پر رازدارانہ رہیں گے۔ شکایت لائن نمبر 0800-91299 ہے۔" ++ nl
  ++ py "آئیے شروع کرتے ہیں۔".

Definition ask_question_head : list N := Eval vm_compute in
  py "سوال نمبر ".

Definition ask_question_sep : list N := Eval vm_compute in
  py ": ".

Definition acknowledge : list N := Eval vm_compute in
  py "شکریہ۔ اگلا سوال سنیں۔".

Definition closing : list N := Eval vm_compute in
  py "بہت شکریہ آپ کے وقت کا۔ آپ کے جوابات محفوظ ہو گئے ہیں۔" ++ nl
  ++ py "اگر کوئی شکایت ہو تو FOS ہیلپ لائن پر کال کریں: 0800-91299" ++ nl
  ++ py "اللہ حافظ!".

Definition not_understood : list N := Eval vm_compute in
  py "معذرت، میں سمجھ نہیں سکا۔ براہ کرم دوبارہ بتائیں۔".

Definition identity_negative : list N := Eval vm_compute in
  py "کوئی بات نہیں۔ براہ کرم صحیح نمبر پر کال کریں۔ اللہ حافظ!".

Definition positive_words : list (list N) := Eval vm_compute in
  [py "جی"; py "ہاں"; py "yes"; py "جی ہاں"; py "بالکل"].

(** [PROMPTS[greeting].format(name=...)] *)
Definition format_greeting (name : list N) : list N :=
  greeting_head ++ name ++ greeting_tail.

(** [PROMPTS[identity_confirmed].format(name=...)] *)
Definition format_identity_confirmed (name : list N) : list N :=
  identity_confirmed_head ++ name ++ identity_confirmed_tail.

(** [PROMPTS[ask_question].format(num=..., text=...)] *)
Definition format_ask_question (num : Z) (text : list N) : list N :=
  ask_question_head ++ str_of_int num ++ ask_question_sep ++ text.

End PROMPTS.

#[global] Arguments PROMPTS.acknowledge : simpl never.
#[global] Arguments PROMPTS.closing : simpl never.
#[global] Arguments PROMPTS.not_understood : simpl never.
#[global] Arguments PROMPTS.identity_negative : simpl never.
#[global] Arguments PROMPTS.positive_words : simpl never.
#[global] Arguments PROMPTS.format_greeting : simpl never.
#[global] Arguments PROMPTS.format_identity_confirmed : simpl never.
#[global] Arguments PROMPTS.format_ask_question : simpl never.

Module SurveyState.

(** A question of the brain is a [Dict]; of its keys the brain reads
    [id], [text_ur] and [text], each of which may be missing. *)
Record question : Type := mk_question {
  q_id : option Z;
  q_text_ur : option (list N);
  q_text : option (list N)
}.

Record t : Type := mk {
  phase : SurveyPhase.t;
  survey_id : Z;
  employee_id : Z;
  employee_name : list N;
  questions : list question;
  current_index : Z;
  responses : gmap Z (list N);
  identity_confirmed : bool
}.

Definition set_phase (p : SurveyPhase.t) (st : t) : t :=
  mk p (survey_id st) (employee_id st) (employee_name st) (questions st)
    (current_index st) (responses st) (identity_confirmed st).

Definition set_identity_confirmed (b : bool) (st : t) : t :=
  mk (phase st) (survey_id st) (employee_id st) (employee_name st)
    (questions st) (current_index st) (responses st) b.

Definition set_current_index (i : Z) (st : t) : t :=
  mk (phase st) (survey_id st) (employee_id st) (employee_name st)
    (questions st) i (responses st) (identity_confirmed st).

Definition set_response (k : Z) (v : list N) (st : t) : t :=
  mk (phase st) (survey_id st) (employee_id st) (employee_name st)
    (questions st) (current_index st) (<[k := v]> (responses st))
    (identity_confirmed st).

End SurveyState.

Module SurveyBrain.

Import SurveyState.

(** How [process_input] ends: with a value (a string or [None]), or with
    the [IndexError] of a list subscript. *)
Inductive outcome : Type :=
| Returned (value : option (list N))
| IndexError.

(** [l[i]] on a Python list: a negative index counts from the end, an
    index outside the list raises ([None] here). *)
Definition getitem {A} (l : list A) (i : Z) : option A :=
  let len := Z.of_nat (length l) in
  if 0 <=? i then l !! Z.to_nat i
  else if 0 <=? i + len then l !! Z.to_nat (i + len)
  else None.

(** [SurveyBrain.initialize]; the brain's other fields (model, URL,
    client) play no part in the conversation. *)
Definition initialize (survey_id employee_id : Z) (employee_name : list N)
    (questions : list question) : t :=
  mk SurveyPhase.GREETING survey_id employee_id employee_name questions 0 ∅
    false.

(** [SurveyBrain.is_complete] *)
Definition is_complete (st : t) : bool :=
  match phase st with
  | SurveyPhase.DONE => true
  | _ => false
  end.

(** [SurveyBrain.get_greeting] *)
Definition get_greeting (st : t) : list N :=
  PROMPTS.format_greeting (employee_name st).

(** [q.get(text_ur) or q.get(text, empty)] *)
Definition spoken_text (q : question) : list N :=
  match q_text_ur q with
  | Some (c :: text_ur) => c :: text_ur
  | _ => default [] (q_text q)
  end.

(** [SurveyBrain._get_current_question_text]; [None] is the [IndexError]
    of the subscript. *)
Definition _get_current_question_text (st : t) : option (list N) :=
  if Z.of_nat (length (questions st)) <=? current_index st then Some []
  else
    match getitem (questions st) (current_index st) with
    | None => None
    | Some q =>
        Some (PROMPTS.format_ask_question (current_index st + 1)
                (spoken_text q))
    end.

(** The test of [_handle_greeting_response]:
    [any(word in text_lower for word in positive_words)] with
    [text_lower = text.lower().strip()]. [lower] is [str.lower]. *)
Definition is_positive (lower : list N → list N) (text : list N) : bool :=
  existsb (λ word, contains_b word (strip (lower text)))
    PROMPTS.positive_words.

(** [SurveyBrain._handle_greeting_response] *)
Definition _handle_greeting_response (lower : list N → list N)
    (text : list N) (st : t) : t * outcome :=
  if is_positive lower text then
    let st := set_identity_confirmed true st in
    let st := set_phase SurveyPhase.INTRO st in
    let intro := PROMPTS.format_identity_confirmed (employee_name st) in
    match _get_current_question_text st with
    | None => (st, IndexError)
    | Some first_q => (st, Returned (Some (intro ++ nl ++ nl ++ first_q)))
    end
  else
    (set_phase SurveyPhase.DONE st,
     Returned (Some PROMPTS.identity_negative)).

(** [SurveyBrain._handle_identity_response] *)
Definition _handle_identity_response (lower : list N → list N)
    (text : list N) (st : t) : t * outcome :=
  _handle_greeting_response lower text st.

(** [SurveyBrain._handle_intro_response] *)
Definition _handle_intro_response (text : list N) (st : t) : t * outcome :=
  let st := set_phase SurveyPhase.WAITING st in
  match _get_current_question_text st with
  | None => (st, IndexError)
  | Some q => (st, Returned (Some q))
  end.

(** [SurveyBrain._handle_answer] *)
Definition _handle_answer (text : list N) (st : t) : t * outcome :=
  match getitem (questions st) (current_index st) with
  | None => (st, IndexError)
  | Some current_q =>
      let q_id := default (current_index st) (q_id current_q) in
      let st := set_response q_id (strip text) st in
      let st := set_current_index (current_index st + 1) st in
      if Z.of_nat (length (questions st)) <=? current_index st then
        (set_phase SurveyPhase.CLOSING st, Returned (Some PROMPTS.closing))
      else
        let st := set_phase SurveyPhase.WAITING st in
        match _get_current_question_text st with
        | None => (st, IndexError)
        | Some next_q =>
            (st, Returned (Some (PROMPTS.acknowledge ++ nl ++ nl ++ next_q)))
        end
  end.

(** [SurveyBrain.process_input] *)
Definition process_input (lower : list N → list N) (user_text : list N)
    (st : t) : t * outcome :=
  match phase st with
  | SurveyPhase.GREETING => _handle_greeting_response lower user_text st
  | SurveyPhase.IDENTITY_CONFIRM =>
      _handle_identity_response lower user_text st
  | SurveyPhase.INTRO => _handle_intro_response user_text st
  | SurveyPhase.ASKING | SurveyPhase.WAITING => _handle_answer user_text st
  | SurveyPhase.CLOSING =>
      (set_phase SurveyPhase.DONE st, Returned None)
  | SurveyPhase.DONE => (st, Returned (Some PROMPTS.not_understood))
  end.

(** [SurveyBrain.get_responses] *)
Definition get_responses (st : t) : gmap Z (list N) := responses st.

(** Successive calls of [process_input], one per text, with what each
    ended in. *)
Fixpoint process_inputs (lower : list N → list N) (texts : list (list N))
    (st : t) : t * list outcome :=
  match texts with
  | [] => (st, [])
  | text :: texts' =>
      let '(st1, o) := process_input lower text st in
      let '(st2, os) := process_inputs lower texts' st1 in
      (st2, o :: os)
  end.

(** The key under which the answer to the question at position [i] is
    stored: [q.get(id, i)]. *)
Definition response_key (i : nat) (q : question) : Z :=
  default (Z.of_nat i) (q_id q).

(** The reply to the answer of the question before [rest], the latter
    starting at position [i]. *)
Definition reply_to_answer (i : nat) (rest : list question) : outcome :=
  match rest with
  | [] => Returned (Some PROMPTS.closing)
  | q :: _ =>
      Returned (Some (PROMPTS.acknowledge ++ nl ++ nl
                      ++ PROMPTS.format_ask_question (Z.of_nat i + 1)
                           (spoken_text q)))
  end.

(** The replies to the answers of the questions [rest], the first of
    which is at position [i]. *)
Fixpoint replies_to_answers (i : nat) (rest : list question) : list outcome :=
  match rest with
  | [] => []
  | _ :: rest' => reply_to_answer (S i) rest' :: replies_to_answers (S i) rest'
  end.

(** The keys of the questions [rest], the first of which is at position
    [i]. *)
Fixpoint response_keys (i : nat) (rest : list question) : list Z :=
  match rest with
  | [] => []
  | q :: rest' => response_key i q :: response_keys (S i) rest'
  end.

(** The answers [m] after the texts of [qus] were stored, in turn, for the
    questions of [qus], the first of which is at position [i]. *)
Fixpoint record_answers (i : nat) (m : gmap Z (list N))
    (qus : list (question * list N)) : gmap Z (list N) :=
  match qus with
  | [] => m
  | (q, u) :: qus' =>
      record_answers (S i) (<[response_key i q := strip u]> m) qus'
  end.

End SurveyBrain.

#[global] Arguments SurveyBrain.process_input : simpl never.

(** Sample data for the brain. *)
Module BrainSample.

(** [str.lower] on text whose only cased letters are A to Z. *)
Definition lower (s : list N) : list N :=
  (λ c, if (65 <=? c) && (c <=? 90) then c + 32 else c)%N <$> s.

Definition q1 : SurveyState.question :=
  SurveyState.mk_question (Some 11) (Some (py "آپ کا کام کیسا ہے؟"))
    (Some (py "How is your work?")).
Definition q2 : SurveyState.question :=
  SurveyState.mk_question None None (Some (py "Any complaints?")).

Definition brain (qs : list SurveyState.question) : SurveyState.t :=
  SurveyBrain.initialize 1 7 (py "احمد") qs.

(** ji nahin: no, sir. *)
Definition no_sir : list N := Eval vm_compute in py "جی نہیں".

End BrainSample.

(* ===================================================================== *)
(** ** Sample singletons *)
(* ===================================================================== *)

Module Fixtures.

(** One survey with two questions, one employee. *)
Definition catalog : Catalog.t :=
  Catalog.mk
    (λ i, if i =? 1 then Some Sample.survey else None)
    (λ i, if i =? 7 then Some Sample.employee else None)
    (λ i, if i =? 1 then [Sample.q1; Sample.q2] else []).

Definition empty_world : world := mk_world ∅ Sample.store.

(** The singletons after a successful POST /agent/start. *)
Definition started : world :=
  fst (routes.start_agent_session catalog Sample.sid 1 7 empty_world).

End Fixtures.

(* ===================================================================== *)
(** ** More observations on runs *)
(* ===================================================================== *)

(** [n] successive [get_next_utterance] calls with what each gave. *)
Fixpoint speak (n : nat) (a : SurveyAgent.t)
  : SurveyAgent.t * list (result (list N)) :=
  match n with
  | O => (a, [])
  | S n' =>
      let '(a1, r) := SurveyAgent.get_next_utterance a in
      let '(a2, rs) := speak n' a1 in
      (a2, r :: rs)
  end.

(** The phases in which the agent waits for the respondent or is done. *)
Definition waiting (p : ConversationPhase.t) : bool :=
  match p with
  | ConversationPhase.WAIT_IDENTITY | ConversationPhase.WAIT_ANSWER
  | ConversationPhase.DONE => true
  | _ => false
  end.

(** How many [get_next_utterance] calls a phase can still be away from a
    waiting phase. *)
Definition steps_to_wait (p : ConversationPhase.t) : nat :=
  match p with
  | ConversationPhase.CONFIRMED => 4
  | ConversationPhase.INTRO | ConversationPhase.ACKNOWLEDGE => 3
  | ConversationPhase.ASK_QUESTION => 2
  | ConversationPhase.GREETING | ConversationPhase.CLOSING => 1
  | ConversationPhase.WAIT_IDENTITY | ConversationPhase.WAIT_ANSWER
  | ConversationPhase.DONE => 0
  end.

(** The agent has reached the closing, or the session is marked
    completed. *)
Definition closed (a : SurveyAgent.t) : Prop :=
  SurveyAgent.phase a = ConversationPhase.CLOSING
  ∨ SurveyAgent.phase a = ConversationPhase.DONE
  ∨ session_state a = SessionState.COMPLETED.

(** What the respond endpoint answers for session [s]: no success, one of
    the two retry lines, the question number and count of the session. *)
Definition turned_away (s : SurveySession.t)
    (r : routes.response routes.respond_body) : Prop :=
  ∃ body,
    r = routes.Ok body
    ∧ routes.rb_success body = false
    ∧ (routes.rb_utterance body = prompts.REPEAT_REQUEST
       ∨ routes.rb_utterance body = prompts.CALL_LATER)
    ∧ routes.rb_question_number body = SurveySession.current_question_index s + 1
    ∧ routes.rb_total_questions body = SurveySession.len_questions s.

(** The session [SessionManager.create_session] builds and returns. *)
Definition created_session (session_id : list N) (survey : Survey.t)
    (employee : Employee.t) (questions : list Question.t) : SurveySession.t :=
  snd (SessionManager.create_session session_id survey employee questions ∅).

(** The rows of table [responses] of agent [a]. *)
Definition rows (a : SurveyAgent.t) : list Database.response_row :=
  Database.responses (SurveyAgent.db a).

(** The row [save_response] writes for session [s] when it stores [v] as
    the answer to the question with identifier [k], [n] rows being there. *)
Definition row_for (s : SurveySession.t) (n : nat) (k : Z) (v : list N)
  : Database.response_row :=
  Database.mk_response (Z.of_nat n + 1) (SurveySession.survey_id s) k
    (SurveySession.employee_id s) (SurveySession.session_id s) v.

(** What no method changes in a session. *)
Definition same_identity (s s' : SurveySession.t) : Prop :=
  SurveySession.session_id s' = SurveySession.session_id s
  ∧ SurveySession.survey_id s' = SurveySession.survey_id s
  ∧ SurveySession.employee_id s' = SurveySession.employee_id s
  ∧ SurveySession.questions s' = SurveySession.questions s.

(** The three things an event can do to answers, rows and cursor: leave
    answers and rows alone; store an answer and write its row; store an
    answer and fail to write the row. *)
Inductive store_effect (e : event) (a a' : SurveyAgent.t) : Prop :=
| effect_none :
    rows a' = rows a → answers a' = answers a → cursor a ≤ cursor a' →
    write_failed e a = false →
    store_effect e a a'
| effect_written q v :
    SurveySession.current_question (SurveyAgent.session a) = Some q →
    rows a'
    = rows a ++ [row_for (SurveyAgent.session a) (length (rows a))
                   (Question.id q) v] →
    answers a' = <[Question.id q := v]> (answers a) →
    cursor a' = cursor a + 1 →
    write_failed e a = false →
    store_effect e a a'
| effect_lost q v :
    SurveySession.current_question (SurveyAgent.session a) = Some q →
    rows a' = rows a →
    answers a' = <[Question.id q := v]> (answers a) →
    cursor a' = cursor a →
    write_failed e a = true →
    store_effect e a a'.

(** The answers mapping a list of rows amounts to, later rows winning. *)
Definition answers_of_rows (rs : list Database.response_row)
  : gmap Z (list N) :=
  foldl (λ m r, <[Database.r_question_id r := Database.r_answer_text r]> m)
    ∅ rs.

(* ===================================================================== *)
(** ** One call of [process_response], case by case *)
(* ===================================================================== *)

#[global] Arguments reply_after : simpl never.
#[global] Arguments SurveyAgent.process_response : simpl never.
#[global] Arguments SurveyAgent.get_next_utterance : simpl never.
#[global] Arguments SurveyAgent.skip_question : simpl never.

Ltac unfold_agent :=
  unfold SurveyAgent.process_response, SurveyAgent.get_next_utterance,
    SurveyAgent.skip_question, SurveyAgent._save_response,
    SurveyAgent.bind, SurveyAgent.ret, SurveyAgent.raise,
    SurveyAgent.get_phase, SurveyAgent.get_session, SurveyAgent.set_phase,
    SurveyAgent.session_do, SurveyAgent.session_call, SurveyAgent.db_call,
    SurveyAgent.deref.

Ltac open_agent a :=
  let s := fresh "s" in
  let d := fresh "d" in
  let p := fresh "p" in
  destruct a as [s d p];
  unfold cursor, answers, retries, session_state, total in *;
  cbn [SurveyAgent.session SurveyAgent.db SurveyAgent.phase] in *.

Section Steps.

Implicit Types (a : SurveyAgent.t) (u : list N) (q : Question.t).

(** Silence in any phase only touches the retry counter. *)
Lemma process_blank a u :
  blank u →
  SurveyAgent.process_response u a
  = (SurveyAgent.mk
       (fst (SurveySession.increment_retry (SurveyAgent.session a)))
       (SurveyAgent.db a) (SurveyAgent.phase a),
     Return (false,
             if snd (SurveySession.increment_retry (SurveyAgent.session a))
             then prompts.REPEAT_REQUEST else prompts.CALL_LATER)).
Proof.
  intros Hb. open_agent a. unfold_agent. cbn. rewrite Hb.
  unfold SurveySession.increment_retry.
  destruct (_ >? _); reflexivity.
Qed.

Lemma process_identity a u q :
  ¬ blank u →
  SurveyAgent.phase a = ConversationPhase.WAIT_IDENTITY →
  SurveySession.current_question (SurveyAgent.session a) = Some q →
  SurveyAgent.process_response u a
  = (SurveyAgent.mk (SurveyAgent.session a) (SurveyAgent.db a)
       ConversationPhase.WAIT_ANSWER,
     Return (true,
             prompts.format_identity_confirmed
               (Employee.name
                  (SurveySession.employee (SurveyAgent.session a)))
             ++ nl ++ nl ++ prompts.SURVEY_INTRO ++ nl ++ nl
             ++ prompts.format_question 1 (SurveyAgent.spoken_text q))).
Proof.
  intros Hb Hp Hq. open_agent a. subst p. unfold_agent. cbn.
  destruct (strip u) eqn:E; [done|]. cbn. rewrite Hq. reflexivity.
Qed.

Lemma process_answer a u q d' rowid :
  ¬ blank u →
  SurveyAgent.phase a = ConversationPhase.WAIT_ANSWER →
  SurveySession.current_question (SurveyAgent.session a) = Some q →
  Database.save_response
    (SurveySession.survey_id (SurveyAgent.session a)) (Question.id q)
    (SurveySession.employee_id (SurveyAgent.session a)) (strip u)
    (SurveySession.session_id (SurveyAgent.session a)) (SurveyAgent.db a)
  = Return (d', rowid) →
  SurveyAgent.process_response u a
  = (SurveyAgent.mk (answered q u (SurveyAgent.session a)) d'
       ConversationPhase.WAIT_ANSWER,
     answer_reply (answered q u (SurveyAgent.session a))).
Proof.
  intros Hb Hp Hq Hd. open_agent a. subst p. unfold_agent. cbn.
  destruct (strip u) as [|c w] eqn:E; [done|]. cbn. rewrite Hq. cbn.
  cbn in Hd. rewrite Hd. cbn. unfold answer_reply, answered. rewrite E. cbn.
  destruct (_ >=? _); [reflexivity|].
  destruct (SurveySession.current_question
              (SurveySession.advance_to_next_question _)); reflexivity.
Qed.

Lemma process_answer_store_down a u q :
  ¬ blank u →
  SurveyAgent.phase a = ConversationPhase.WAIT_ANSWER →
  SurveySession.current_question (SurveyAgent.session a) = Some q →
  Database.available (SurveyAgent.db a) = false →
  SurveyAgent.process_response u a
  = (SurveyAgent.mk
       (SurveySession.record_response (Question.id q) (strip u)
          (SurveyAgent.session a))
       (SurveyAgent.db a) ConversationPhase.WAIT_ANSWER,
     Raise OperationalError).
Proof.
  intros Hb Hp Hq Hd. open_agent a. subst p. unfold_agent. cbn.
  destruct (strip u) as [|c w] eqn:E; [done|]. cbn. rewrite Hq. cbn.
  unfold Database.save_response. rewrite Hd. reflexivity.
Qed.

Lemma process_answer_no_question a u :
  ¬ blank u →
  SurveyAgent.phase a = ConversationPhase.WAIT_ANSWER →
  SurveySession.current_question (SurveyAgent.session a) = None →
  SurveyAgent.process_response u a
  = (a, Return (false, prompts.TECHNICAL_ERROR)).
Proof.
  intros Hb Hp Hq. open_agent a. subst p. unfold_agent. cbn.
  destruct (strip u) as [|c w] eqn:E; [done|]. cbn. rewrite Hq. reflexivity.
Qed.

(** A response in a phase that is not waiting for one. *)
Lemma process_unexpected a u :
  ¬ blank u →
  SurveyAgent.phase a ≠ ConversationPhase.WAIT_IDENTITY →
  SurveyAgent.phase a ≠ ConversationPhase.WAIT_ANSWER →
  SurveyAgent.process_response u a
  = (a, Return (false, prompts.REPEAT_REQUEST)).
Proof.
  intros Hb H1 H2. open_agent a. unfold_agent. cbn.
  destruct (strip u) as [|c w] eqn:E; [done|].
  destruct p; try reflexivity; contradiction.
Qed.

End Steps.

(* ===================================================================== *)
(** ** Retry exhaustion *)
(* ===================================================================== *)

Section Retry.

Implicit Types (a : SurveyAgent.t) (u : list N).

(** One more silent turn, seen on the observations. *)
Lemma silent_turn a u :
  blank u →
  let a' := fst (SurveyAgent.process_response u a) in
  retries a' = retries a + 1
  ∧ cursor a' = cursor a
  ∧ answers a' = answers a
  ∧ SurveyAgent.phase a' = SurveyAgent.phase a
  ∧ SurveyAgent.db a' = SurveyAgent.db a
  ∧ SurveySession.questions (SurveyAgent.session a')
    = SurveySession.questions (SurveyAgent.session a)
  ∧ SurveySession.max_retries (SurveyAgent.session a')
    = SurveySession.max_retries (SurveyAgent.session a)
  ∧ (if retries a + 1 >? SurveySession.max_retries (SurveyAgent.session a)
     then session_state a' = SessionState.ABANDONED
          ∧ snd (SurveyAgent.process_response u a)
            = Return (false, prompts.CALL_LATER)
     else session_state a' = session_state a
          ∧ snd (SurveyAgent.process_response u a)
            = Return (false, prompts.REPEAT_REQUEST)).
Proof.
  intros Hb. rewrite (process_blank a u Hb). open_agent a.
  unfold SurveySession.increment_retry. cbn.
  destruct (_ >? _); cbn; auto 10.
Qed.



End Retry.

(* ===================================================================== *)
(** ** The happy path *)
(* ===================================================================== *)

Section RecordAll.

Implicit Types (m : gmap Z (list N)) (qus : list (Question.t * list N)).

Lemma record_all_cons m qu qus :
  record_all m (qu :: qus)
  = record_all (<[Question.id qu.1 := strip qu.2]> m) qus.
Proof. reflexivity. Qed.

Lemma record_all_other m qus (k : Z) :
  k ∉ (λ qu, Question.id qu.1) <$> qus →
  record_all m qus !! k = m !! k.
Proof.
  revert m. induction qus as [|qu qus IH]; intros m Hk; [done|].
  rewrite fmap_cons in Hk. apply not_elem_of_cons in Hk as [Hne Hk].
  rewrite record_all_cons, IH by exact Hk.
  apply lookup_insert_ne. congruence.
Qed.

Lemma record_all_lookup m qus (i : nat) qu :
  NoDup ((λ qu, Question.id qu.1) <$> qus) →
  qus !! i = Some qu →
  record_all m qus !! Question.id qu.1 = Some (strip qu.2).
Proof.
  revert m i. induction qus as [|qu0 qus IH]; intros m i Hnd Hi; [done|].
  rewrite fmap_cons in Hnd. apply NoDup_cons in Hnd as [Hfresh Hnd].
  rewrite record_all_cons. destruct i as [|i]; cbn in Hi.
  - injection Hi as ->. rewrite record_all_other by exact Hfresh.
    apply lookup_insert_eq.
  - eapply IH; eauto.
Qed.


End RecordAll.

Section HappyPath.

Implicit Types (a : SurveyAgent.t) (u : list N) (q : Question.t).

Lemma current_question_at (s : SurveySession.t) pre q rest :
  SurveySession.questions s = pre ++ q :: rest →
  SurveySession.current_question_index s = Z.of_nat (length pre) →
  SurveySession.current_question s = Some q.
Proof.
  intros Hq Hi.
  unfold SurveySession.current_question, SurveySession.len_questions.
  rewrite Hq, Hi, length_app. cbn [length].
  replace (0 <=? Z.of_nat (length pre)) with true
    by (symmetry; apply Z.leb_le; lia).
  replace (Z.of_nat (length pre) <? _) with true
    by (symmetry; apply Z.ltb_lt; lia).
  cbn. rewrite Nat2Z.id. by apply list_lookup_middle.
Qed.

(** An answer turn while the store takes the write. *)
Lemma answer_turn a u q :
  ¬ blank u →
  SurveyAgent.phase a = ConversationPhase.WAIT_ANSWER →
  SurveySession.current_question (SurveyAgent.session a) = Some q →
  Database.available (SurveyAgent.db a) = true →
  ∃ a',
    SurveyAgent.process_response u a
    = (a', answer_reply (SurveyAgent.session a'))
    ∧ SurveyAgent.session a' = answered q u (SurveyAgent.session a)
    ∧ SurveyAgent.phase a' = ConversationPhase.WAIT_ANSWER
    ∧ Database.available (SurveyAgent.db a') = true.
Proof.
  intros Hb Hp Hq Hd.
  destruct (Database.save_response
              (SurveySession.survey_id (SurveyAgent.session a))
              (Question.id q)
              (SurveySession.employee_id (SurveyAgent.session a)) (strip u)
              (SurveySession.session_id (SurveyAgent.session a))
              (SurveyAgent.db a)) as [[d' rowid]|e] eqn:E;
    unfold Database.save_response in E; rewrite Hd in E; [|discriminate].
  injection E as <- <-.
  eexists (SurveyAgent.mk (answered q u (SurveyAgent.session a)) _
             ConversationPhase.WAIT_ANSWER).
  cbn [SurveyAgent.session SurveyAgent.db SurveyAgent.phase].
  split; [|split; [|split]].
  - eapply (process_answer a u q); try assumption.
    unfold Database.save_response. rewrite Hd. reflexivity.
  - reflexivity.
  - reflexivity.
  - reflexivity.
Qed.

(** The reply to the answer of the question at the head of [q :: rest]. *)
Lemma answer_reply_at (s : SurveySession.t) pre q rest u :
  SurveySession.questions s = pre ++ q :: rest →
  SurveySession.current_question_index s = Z.of_nat (length pre) →
  answer_reply (answered q u s)
  = reply_after (SurveySession.current_question_index s) rest.
Proof.
  intros Hq Hi. unfold answer_reply, reply_after.
  assert (Hlen : SurveySession.len_questions (answered q u s)
                 = Z.of_nat (length pre) + 1 + Z.of_nat (length rest)).
  { unfold SurveySession.len_questions. cbn. rewrite Hq, length_app.
    cbn [length]. lia. }
  assert (Hidx : SurveySession.current_question_index (answered q u s)
                 = Z.of_nat (length pre) + 1).
  { cbn. rewrite Hi. reflexivity. }
  rewrite Hlen, Hidx, Hi. destruct rest as [|q' rest'].
  - cbn [length]. replace (_ >=? _) with true; [done|].
    symmetry. apply Z.geb_le. lia.
  - replace (_ >=? _) with false.
    2:{ symmetry. rewrite Z.geb_leb. apply Z.leb_gt. cbn [length]. lia. }
    rewrite (current_question_at (answered q u s) (pre ++ [q]) q' rest').
    + replace (Z.of_nat (length pre) + 1 + 1)
        with (Z.of_nat (length pre) + 2) by lia.
      reflexivity.
    + cbn. rewrite Hq, <- app_assoc. reflexivity.
    + rewrite Hidx, length_app. cbn [length]. lia.
Qed.

(** Answers given one after the other from cursor [length pre]. *)
Lemma converse_answers us : ∀ a pre rest,
  SurveySession.questions (SurveyAgent.session a) = pre ++ rest →
  cursor a = Z.of_nat (length pre) →
  SurveyAgent.phase a = ConversationPhase.WAIT_ANSWER →
  Database.available (SurveyAgent.db a) = true →
  Forall (λ u, ¬ blank u) us →
  (length us ≤ length rest)%nat →
  ∃ a',
    converse us a = (a', take (length us) (replies_from (cursor a) rest))
    ∧ cursor a' = cursor a + Z.of_nat (length us)
    ∧ answers a' = record_all (answers a) (zip rest us)
    ∧ SurveyAgent.phase a' = ConversationPhase.WAIT_ANSWER
    ∧ SurveySession.questions (SurveyAgent.session a')
      = SurveySession.questions (SurveyAgent.session a).
Proof.
  induction us as [|u us IH]; intros a pre rest Hqs Hc Hp Hd Hus Hlen.
  - exists a. cbn. destruct rest; cbn;
      (split; [reflexivity|split; [lia|split; [reflexivity|split; done]]]).
  - destruct rest as [|q rest]; [cbn in Hlen; lia|].
    apply Forall_cons in Hus as [Hu Hus]. cbn in Hlen.
    pose proof (current_question_at _ _ _ _ Hqs Hc) as Hcur.
    destruct (answer_turn a u q Hu Hp Hcur Hd) as (a1 & E1 & Hs1 & Hp1 & Hd1).
    destruct (IH a1 (pre ++ [q]) rest) as (a' & E' & Hc' & Ha' & Hp' & Hq');
      try assumption.
    + rewrite Hs1. cbn. rewrite Hqs, <- app_assoc. reflexivity.
    + unfold cursor in *. rewrite Hs1, length_app. cbn. lia.
    + lia.
    + exists a'. cbn [converse]. rewrite E1, E'.
      assert (Hc1 : cursor a1 = cursor a + 1)
        by (unfold cursor; rewrite Hs1; reflexivity).
      split; [|split; [|split; [|split]]].
      * pose proof (answer_reply_at (SurveyAgent.session a) pre q rest u
                      Hqs Hc) as Hr.
        rewrite <- Hs1 in Hr. cbn [length replies_from take].
        rewrite Hc1, Hr. reflexivity.
      * rewrite Hc', Hc1. cbn [length]. lia.
      * rewrite Ha'. unfold answers. rewrite Hs1. reflexivity.
      * exact Hp'.
      * rewrite Hq', Hs1. reflexivity.
Qed.


End HappyPath.

Section HappyPathClaim.

Implicit Types (a : SurveyAgent.t) (u : list N) (q : Question.t).

Lemma zip_ids (qs : list Question.t) (us : list (list N)) :
  length qs = length us →
  (λ qu : Question.t * list N, Question.id qu.1) <$> zip qs us
  = Question.id <$> qs.
Proof.
  intros Hlen.
  change (λ qu : Question.t * list N, Question.id qu.1)
    with (Question.id ∘ (fst : Question.t * list N → Question.t)).
  rewrite list_fmap_compose, fst_zip by lia. reflexivity.
Qed.


End HappyPathClaim.

Section HappyPathExamples.

Import Sample.



End HappyPathExamples.

(* ===================================================================== *)
(** ** The retry counter across an identity confirmation *)
(* ===================================================================== *)

Section RetryReset.

Implicit Types (a : SurveyAgent.t) (u : list N) (q : Question.t).

(** An answer that is taken resets the counter, store up or down. *)
Lemma answer_resets_retries a u q :
  ¬ blank u →
  SurveyAgent.phase a = ConversationPhase.WAIT_ANSWER →
  SurveySession.current_question (SurveyAgent.session a) = Some q →
  retries (fst (SurveyAgent.process_response u a)) = 0.
Proof.
  intros Hb Hp Hq.
  destruct (Database.available (SurveyAgent.db a)) eqn:Hd.
  - destruct (answer_turn a u q Hb Hp Hq Hd) as (a' & E & Hs & _).
    rewrite E. unfold retries. cbn [fst]. rewrite Hs. reflexivity.
  - rewrite (process_answer_store_down a u q Hb Hp Hq Hd). reflexivity.
Qed.

(** The identity confirmation leaves the counter where it was. *)
Lemma identity_keeps_retries a u q :
  ¬ blank u →
  SurveyAgent.phase a = ConversationPhase.WAIT_IDENTITY →
  SurveySession.current_question (SurveyAgent.session a) = Some q →
  retries (fst (SurveyAgent.process_response u a)) = retries a.
Proof.
  intros Hb Hp Hq. rewrite (process_identity a u q Hb Hp Hq). reflexivity.
Qed.

(** C3, at the input where the code departs from it. One silent turn
    while the agent waits for the identity confirmation, then the
    confirmation: the call succeeds and moves the agent to WAIT_ANSWER,
    and the retry count is 1 after it, not 0. The count is carried into
    the questions: after three silent turns before the confirmation, a
    single silent turn on question 1 abandons the session. *)
Theorem retry_count_kept_by_identity_step :
  let a := run [Call Start; Call (Advance [])] (Sample.agent [Sample.q1]) in
  let b := run [Call Start; Call (Advance []); Call (Advance []);
                Call (Advance []); Call (Advance (py "جی ہاں"))]
             (Sample.agent [Sample.q1]) in
  SurveyAgent.phase a = ConversationPhase.WAIT_IDENTITY
  ∧ retries a = 1
  ∧ snd (SurveyAgent.process_response (py "جی ہاں") a)
    = Return (true,
              identity_reply (Employee.name Sample.employee) Sample.q1)
  ∧ SurveyAgent.phase (fst (SurveyAgent.process_response (py "جی ہاں") a))
    = ConversationPhase.WAIT_ANSWER
  ∧ retries (fst (SurveyAgent.process_response (py "جی ہاں") a)) = 1
  ∧ SurveyAgent.phase b = ConversationPhase.WAIT_ANSWER
  ∧ session_state b = SessionState.CREATED
  ∧ SurveyAgent.process_response [] b
    = (SurveyAgent.mk
         (SurveySession.set_state SessionState.ABANDONED
            (SurveySession.set_retry_count 4 (SurveyAgent.session b)))
         (SurveyAgent.db b) ConversationPhase.WAIT_ANSWER,
       Return (false, prompts.CALL_LATER)).
Proof. cbv zeta. repeat split; vm_compute; reflexivity. Qed.

End RetryReset.

(* ===================================================================== *)
(** ** Silence, and calls in a phase that expects none *)
(* ===================================================================== *)

Section Silence.

Implicit Types (a : SurveyAgent.t) (u : list N).

Lemma retry_line_not_empty r :
  retry_line r → ∃ b line, r = Return (b, line) ∧ line ≠ [].
Proof. intros [-> | ->]; eexists _, _; (split; [reflexivity|discriminate]). Qed.

Lemma converse_cons u us a :
  converse (u :: us) a
  = (fst (converse us (fst (SurveyAgent.process_response u a))),
     snd (SurveyAgent.process_response u a)
     :: snd (converse us (fst (SurveyAgent.process_response u a)))).
Proof.
  cbn [converse]. destruct (SurveyAgent.process_response u a) as [a1 r].
  cbn [fst snd]. destruct (converse us a1). reflexivity.
Qed.


End Silence.

(* ===================================================================== *)
(** ** An abandoned session *)
(* ===================================================================== *)

Section Abandoned.

Implicit Types (a : SurveyAgent.t) (u : list N).




End Abandoned.

(* ===================================================================== *)
(** ** A finished conversation *)
(* ===================================================================== *)

Section Done.

Implicit Types (a : SurveyAgent.t) (u : list N).

Lemma done_turn a u :
  SurveyAgent.phase a = ConversationPhase.DONE →
  let a' := fst (SurveyAgent.process_response u a) in
  SurveyAgent.phase a' = ConversationPhase.DONE
  ∧ cursor a' = cursor a
  ∧ answers a' = answers a
  ∧ SurveyAgent.db a' = SurveyAgent.db a
  ∧ retry_line (snd (SurveyAgent.process_response u a))
  ∧ (¬ blank u →
     SurveyAgent.process_response u a
     = (a, Return (false, prompts.REPEAT_REQUEST))).
Proof.
  intros Hp. cbv zeta.
  assert (Hne : ¬ blank u →
                SurveyAgent.process_response u a
                = (a, Return (false, prompts.REPEAT_REQUEST))).
  { intros Hb. apply process_unexpected; [exact Hb | | ]; rewrite Hp; done. }
  destruct (decide (blank u)) as [Hb|Hb].
  - pose proof (silent_turn a u Hb) as (_ & Hc & Ha & Hp' & Hd & _ & _ & Hst).
    cbv zeta in *. repeat split; try congruence; try done.
    destruct (_ >? _); destruct Hst as [_ ->]; [by right | by left].
  - rewrite (Hne Hb). cbn [fst snd]. repeat split; try done. by left.
Qed.

(** C5 (as amended). With the agent in phase DONE, any number of
    [advance] calls keep the phase DONE, record no answer and do not move
    the cursor, and each is answered without success by the repeat request
    (or, for silence past the retry limit, the abandonment line): never by
    an empty utterance. When no utterance is blank, every reply is the
    repeat request and the agent, with its whole session state, is
    left exactly as it was. *)
Theorem done_is_stable a (us : list (list N)) :
  SurveyAgent.phase a = ConversationPhase.DONE →
  let a' := fst (converse us a) in
  SurveyAgent.phase a' = ConversationPhase.DONE
  ∧ cursor a' = cursor a
  ∧ answers a' = answers a
  ∧ Forall retry_line (snd (converse us a))
  ∧ (Forall (λ u, ¬ blank u) us →
     converse us a
     = (a, (λ _, Return (false, prompts.REPEAT_REQUEST)) <$> us)).
Proof.
  revert a. induction us as [|u us IH]; intros a Hp; cbv zeta.
  - cbn. repeat split; auto.
  - rewrite converse_cons. cbn [fst snd].
    pose proof (done_turn a u Hp) as (Hp1 & Hc1 & Ha1 & _ & Hl1 & Hne).
    cbv zeta in *.
    destruct (IH _ Hp1) as (Hp2 & Hc2 & Ha2 & Hl2 & Hall).
    split; [exact Hp2|]. split; [congruence|]. split; [congruence|].
    split; [by constructor|].
    intros Hus. apply Forall_cons in Hus as [Hu Hus].
    rewrite (Hne Hu) in *. cbn [fst snd] in *.
    rewrite (Hall Hus). reflexivity.
Qed.

End Done.

Section DoneExamples.

Import Sample.

Lemma done_is_stable_witness :
  converse [py "hello"; py "anyone there?"] finished
  = (finished,
     [Return (false, prompts.REPEAT_REQUEST);
      Return (false, prompts.REPEAT_REQUEST)]).
Proof.
  pose proof (done_is_stable finished [py "hello"; py "anyone there?"]) as H.
  cbv zeta in H.
  destruct H as (_ & _ & _ & _ & H); [reflexivity|].
  apply H. repeat constructor; unfold blank; vm_compute; discriminate.
Defined.

(** C5 as stated fails: in phase DONE a call is answered by the repeat
    request, without success, not by an empty utterance; and a silent
    call changes the session (the retry count goes up, and past the limit
    the state of the completed session becomes ABANDONED). *)
Lemma done_counterexample :
  SurveyAgent.phase finished = ConversationPhase.DONE
  ∧ session_state finished = SessionState.COMPLETED
  ∧ retries finished = 0
  ∧ SurveyAgent.process_response (py "hello") finished
    = (finished, Return (false, prompts.REPEAT_REQUEST))
  ∧ prompts.REPEAT_REQUEST ≠ []
  ∧ snd (SurveyAgent.process_response [] finished)
    = Return (false, prompts.REPEAT_REQUEST)
  ∧ retries (fst (SurveyAgent.process_response [] finished)) = 1
  ∧ session_state (fst (converse [[]; []; []; []] finished))
    = SessionState.ABANDONED.
Proof. repeat split; try (vm_compute; reflexivity). discriminate. Qed.

End DoneExamples.

(* ===================================================================== *)
(** ** The phase once the cursor is past the last question *)
(* ===================================================================== *)

Section TerminalPhase.

Import Sample.

(** C6, at the input where the code departs from it. In a one-question
    interview the answer to the last question is stored and answered by
    the closing line, and the cursor equals the number of questions, but
    the phase is still WAIT_ANSWER, not CLOSING or DONE; the session state
    is IN_PROGRESS, and one more utterance is answered by the
    technical-error line. Skipping a last, optional question ends the
    same way. *)
Theorem phase_after_last_answer :
  let a := asking [q1] in
  let a' := fst (SurveyAgent.process_response (py "answer one") a) in
  let b' := fst (SurveyAgent.skip_question (asking [q3])) in
  SurveyAgent.phase a = ConversationPhase.WAIT_ANSWER
  ∧ cursor a = 0
  ∧ snd (SurveyAgent.process_response (py "answer one") a)
    = Return (true, prompts.CLOSING)
  ∧ answers a' = {[ Question.id q1 := py "answer one" ]}
  ∧ cursor a' = total a'
  ∧ SurveyAgent.phase a' = ConversationPhase.WAIT_ANSWER
  ∧ session_state a' = SessionState.IN_PROGRESS
  ∧ snd (SurveyAgent.process_response (py "anything else") a')
    = Return (false, prompts.TECHNICAL_ERROR)
  ∧ snd (SurveyAgent.skip_question (asking [q3])) = Return prompts.CLOSING
  ∧ cursor b' = total b'
  ∧ SurveyAgent.phase b' = ConversationPhase.WAIT_ANSWER.
Proof. cbv zeta. repeat split; vm_compute; reflexivity. Qed.

End TerminalPhase.

(* ===================================================================== *)
(** ** A failing write to the response store *)
(* ===================================================================== *)

Section StoreFailure.

Implicit Types (a : SurveyAgent.t) (u : list N) (q : Question.t).

(** C8 (as amended). In WAIT_ANSWER with a current question, when the
    write to the response store fails, the failure leaves [advance] as an
    exception: no utterance is returned. By then the answer is stored in
    the session and the retry count is reset; the cursor, the phase, the
    session state and the store are as before the call. *)
Theorem store_failure_propagates a u q :
  ¬ blank u →
  SurveyAgent.phase a = ConversationPhase.WAIT_ANSWER →
  SurveySession.current_question (SurveyAgent.session a) = Some q →
  Database.available (SurveyAgent.db a) = false →
  let a' := fst (SurveyAgent.process_response u a) in
  snd (SurveyAgent.process_response u a) = Raise OperationalError
  ∧ answers a' = <[Question.id q := strip u]> (answers a)
  ∧ retries a' = 0
  ∧ cursor a' = cursor a
  ∧ SurveyAgent.phase a' = ConversationPhase.WAIT_ANSWER
  ∧ session_state a' = session_state a
  ∧ SurveyAgent.db a' = SurveyAgent.db a.
Proof.
  intros Hb Hp Hq Hd. cbv zeta.
  rewrite (process_answer_store_down a u q Hb Hp Hq Hd).
  repeat split.
Qed.

Lemma store_failure_propagates_witness :
  let a := run [Store false] (Sample.asking [Sample.q1; Sample.q2]) in
  snd (SurveyAgent.process_response (py "answer one") a)
  = Raise OperationalError
  ∧ cursor (fst (SurveyAgent.process_response (py "answer one") a)) = 0.
Proof.
  pose proof (store_failure_propagates
                (run [Store false] (Sample.asking [Sample.q1; Sample.q2]))
                (py "answer one") Sample.q1) as H.
  cbv zeta in *.
  destruct H as (H1 & _ & _ & H4 & _);
    [unfold blank; vm_compute; discriminate
    | reflexivity | reflexivity | reflexivity |].
  split; [exact H1 | exact H4].
Defined.

(** C8 as stated fails: with the store down the call raises instead of
    returning the next utterance, and the cursor stays at 0, where the
    same call with the store up returns the acknowledgment with question
    2 and moves the cursor to 1. *)
Lemma store_failure_counterexample :
  let up := Sample.asking [Sample.q1; Sample.q2] in
  let down := run [Store false] up in
  SurveyAgent.phase down = ConversationPhase.WAIT_ANSWER
  ∧ snd (SurveyAgent.process_response (py "answer one") up)
    = Return (true,
              prompts.ACKNOWLEDGE_NEXT ++ nl ++ nl
              ++ prompts.format_question 2
                   (SurveyAgent.spoken_text Sample.q2))
  ∧ cursor (fst (SurveyAgent.process_response (py "answer one") up)) = 1
  ∧ snd (SurveyAgent.process_response (py "answer one") down)
    = Raise OperationalError
  ∧ cursor (fst (SurveyAgent.process_response (py "answer one") down)) = 0
  ∧ answers (fst (SurveyAgent.process_response (py "answer one") down))
    = {[ Question.id Sample.q1 := py "answer one" ]}.
Proof. cbv zeta. repeat split; vm_compute; reflexivity. Qed.

End StoreFailure.

(* ===================================================================== *)
(** ** Skipping a question *)
(* ===================================================================== *)

Section SkipQuestion.

Implicit Types (a : SurveyAgent.t) (q : Question.t).

(** An optional question is skipped: the cursor moves by one, nothing is
    recorded. *)
Lemma skip_optional a q :
  SurveySession.current_question (SurveyAgent.session a) = Some q →
  Question.required q = false →
  let a' := fst (SurveyAgent.skip_question a) in
  SurveyAgent.session a'
  = SurveySession.advance_to_next_question (SurveyAgent.session a)
  ∧ cursor a' = cursor a + 1
  ∧ answers a' = answers a
  ∧ SurveyAgent.phase a' = SurveyAgent.phase a
  ∧ SurveyAgent.db a' = SurveyAgent.db a.
Proof.
  intros Hq Hr. open_agent a. unfold_agent. cbn. rewrite Hq, Hr. cbn.
  destruct (_ >=? _); [by cbn|].
  destruct (SurveySession.current_question
              (SurveySession.advance_to_next_question s)); by cbn.
Qed.

(** On a required question nothing changes, and the reply is built from
    [text_ur] alone. *)
Lemma skip_required a q :
  SurveySession.current_question (SurveyAgent.session a) = Some q →
  Question.required q = true →
  SurveyAgent.skip_question a
  = (a, Return (prompts.format_question (cursor a + 1) (Question.text_ur q))).
Proof.
  intros Hq Hr. open_agent a. unfold_agent. cbn. rewrite Hq, Hr. reflexivity.
Qed.

(** The prompt of the question at the cursor, as [get_next_utterance]
    asks it. *)
Lemma ask_question a q :
  SurveyAgent.phase a = ConversationPhase.ASK_QUESTION →
  SurveySession.current_question (SurveyAgent.session a) = Some q →
  snd (SurveyAgent.get_next_utterance a)
  = Return (prompts.format_question (cursor a + 1)
              (SurveyAgent.spoken_text q)).
Proof.
  intros Hp Hq. open_agent a. subst p. unfold_agent. cbn. rewrite Hq.
  reflexivity.
Qed.

(** When the question has an Urdu text, skipping it while it is required
    repeats the prompt it was asked with. *)
Lemma skip_required_repeats a q :
  SurveySession.current_question (SurveyAgent.session a) = Some q →
  Question.required q = true →
  Question.text_ur q ≠ [] →
  SurveyAgent.skip_question a
  = (a, Return (prompts.format_question (cursor a + 1)
                  (SurveyAgent.spoken_text q))).
Proof.
  intros Hq Hr Ht. rewrite (skip_required a q Hq Hr).
  unfold SurveyAgent.spoken_text, or_.
  destruct (Question.text_ur q); [done | reflexivity].
Qed.

(** C9, at the input where the code departs from it. The current
    question is required and has no Urdu text, so it is asked with its
    [text]. [skip_question] leaves the agent as it was, but what it
    returns is the question number followed by an empty text, which is
    not the prompt the question was asked with. *)
Theorem skip_required_loses_text :
  let a := Sample.asking [Sample.q2] in
  let asked :=
    prompts.format_question 1 (py "How long have you worked here?") in
  SurveySession.current_question (SurveyAgent.session a) = Some Sample.q2
  ∧ Question.required Sample.q2 = true
  ∧ Question.text_ur Sample.q2 = []
  ∧ snd (SurveyAgent.process_response Sample.yes
           (run [Call Start] (Sample.agent [Sample.q2])))
    = Return (true,
              prompts.format_identity_confirmed
                (Employee.name Sample.employee)
              ++ nl ++ nl ++ prompts.SURVEY_INTRO ++ nl ++ nl ++ asked)
  ∧ snd (SurveyAgent.get_next_utterance
           (SurveyAgent.mk (SurveyAgent.session a) (SurveyAgent.db a)
              ConversationPhase.ASK_QUESTION))
    = Return asked
  ∧ SurveyAgent.skip_question a
    = (a, Return (prompts.format_question 1 []))
  ∧ prompts.format_question 1 [] ≠ asked.
Proof.
  cbv zeta. repeat split; try (vm_compute; reflexivity).
  vm_compute. discriminate.
Qed.

End SkipQuestion.

(* ===================================================================== *)
(** ** Invariants of the session along any run *)
(* ===================================================================== *)

Section Invariants.

Implicit Types (a : SurveyAgent.t) (s : SurveySession.t) (e : event).

Lemma event_changes e a :
  session_change (SurveyAgent.session a) (write_failed e a)
    (SurveyAgent.session (after_event e a)).
Proof.
  destruct e as [[|u|]|up]; unfold write_failed, after_event, after_call.
  - (* get_next_utterance *)
    open_agent a. unfold_agent. cbn.
    destruct p; cbn; try apply change_none.
    + destruct (SurveySession.current_question s); apply change_none.
    + destruct (_ >=? _); cbn; [apply change_none|].
      destruct (SurveySession.current_question s); apply change_none.
    + destruct (Database.complete_session _ d) as [[d' []]|]; cbn;
        apply change_complete.
  - (* process_response *)
    destruct (decide (blank u)) as [Hb|Hb].
    { rewrite (process_blank a u Hb). cbn. apply change_retry. }
    destruct (SurveyAgent.phase a) eqn:Hp;
      try (rewrite (process_unexpected a u Hb) by (rewrite Hp; done);
           apply change_none).
    + destruct (SurveySession.current_question (SurveyAgent.session a))
        as [q|] eqn:Hq.
      * rewrite (process_identity a u q Hb Hp Hq). apply change_none.
      * open_agent a. subst p. unfold_agent. cbn. unfold blank in Hb.
        destruct (strip u); [done|]. cbn. rewrite Hq. apply change_none.
    + destruct (SurveySession.current_question (SurveyAgent.session a))
        as [q|] eqn:Hq.
      * destruct (Database.available (SurveyAgent.db a)) eqn:Hd.
        -- destruct (answer_turn a u q Hb Hp Hq Hd) as (a' & E & Hs & _).
           rewrite E. cbn [fst snd]. rewrite Hs.
           unfold answer_reply, answered.
           destruct (_ >=? _); [by apply change_answer|].
           destruct (SurveySession.current_question
                       (SurveySession.advance_to_next_question _));
             by apply change_answer.
        -- rewrite (process_answer_store_down a u q Hb Hp Hq Hd).
           by apply change_record.
      * rewrite (process_answer_no_question a u Hb Hp Hq). apply change_none.
  - (* skip_question *)
    open_agent a. unfold_agent. cbn.
    destruct (SurveySession.current_question s) as [q|] eqn:Hq;
      [|apply change_none].
    destruct (Question.required q); cbn; [apply change_none|].
    destruct (_ >=? _); cbn; [by eapply change_skip|].
    destruct (SurveySession.current_question
                (SurveySession.advance_to_next_question s));
      by eapply change_skip.
  - apply change_none.
Qed.

Lemma current_question_Some s q :
  SurveySession.current_question s = Some q →
  0 ≤ SurveySession.current_question_index s < SurveySession.len_questions s
  ∧ SurveySession.questions s
      !! Z.to_nat (SurveySession.current_question_index s) = Some q.
Proof.
  unfold SurveySession.current_question.
  destruct (0 <=? _) eqn:E1; [|done].
  destruct (_ <? _) eqn:E2; [|done]. cbn.
  apply Z.leb_le in E1. apply Z.ltb_lt in E2. auto.
Qed.

Lemma change_questions s b s' :
  session_change s b s' →
  SurveySession.questions s' = SurveySession.questions s.
Proof.
  destruct 1; try reflexivity.
  unfold SurveySession.increment_retry. destruct (_ >? _); reflexivity.
Qed.

Lemma change_cursor s b s' :
  session_change s b s' →
  SurveySession.current_question_index s
  ≤ SurveySession.current_question_index s'
  ∧ (0 ≤ SurveySession.current_question_index s
       ≤ SurveySession.len_questions s →
     0 ≤ SurveySession.current_question_index s'
       ≤ SurveySession.len_questions s').
Proof.
  intros H. pose proof (change_questions s b s' H) as Hqs.
  unfold SurveySession.len_questions. rewrite Hqs.
  destruct H as [| |q v Hq|q v Hq|q Hq|];
    try (apply current_question_Some in Hq as [Hq _];
         unfold SurveySession.len_questions in Hq);
    cbn; try lia.
  unfold SurveySession.increment_retry. destruct (_ >? _); cbn; lia.
Qed.

Lemma change_answers_ok s s' :
  session_change s false s' →
  Z.of_nat (size (SurveySession.responses s))
    ≤ SurveySession.current_question_index s →
  Z.of_nat (size (SurveySession.responses s'))
    ≤ SurveySession.current_question_index s'.
Proof.
  intros H. remember false as b eqn:Eb.
  destruct H as [| |q v Hq|q v Hq|q Hq|]; try discriminate;
    intros Hsz; try exact Hsz.
  - unfold SurveySession.increment_retry. destruct (_ >? _); exact Hsz.
  - change (Z.of_nat (size (<[Question.id q := v]>
                              (SurveySession.responses s)))
            ≤ SurveySession.current_question_index s + 1).
    destruct (SurveySession.responses s !! Question.id q) eqn:E;
      [rewrite map_size_insert_Some by eauto
      |rewrite map_size_insert_None by done]; lia.
  - change (Z.of_nat (size (SurveySession.responses s))
            ≤ SurveySession.current_question_index s + 1).
    lia.
Qed.

Lemma ids_upto_mono (qs : list Question.t) (n m : nat) :
  (n ≤ m)%nat →
  (list_to_set (Question.id <$> take n qs) : gset Z)
  ⊆ list_to_set (Question.id <$> take m qs).
Proof.
  intros Hnm k. rewrite !elem_of_list_to_set, !list_elem_of_fmap.
  intros (q & -> & Hq). exists q. split; [done|].
  apply elem_of_take in Hq as (i & Hi & Hlt).
  apply elem_of_take. exists i. split; [done|lia].
Qed.

Lemma current_id_within s q :
  SurveySession.current_question s = Some q →
  Question.id q
  ∈ (list_to_set
       (Question.id
          <$> take (Z.to_nat (SurveySession.current_question_index s + 1))
                (SurveySession.questions s)) : gset Z).
Proof.
  intros Hq. apply current_question_Some in Hq as [Hr Hq].
  rewrite elem_of_list_to_set, list_elem_of_fmap. exists q. split; [done|].
  apply elem_of_take.
  exists (Z.to_nat (SurveySession.current_question_index s)).
  split; [exact Hq|lia].
Qed.

Lemma change_within s b s' :
  session_change s b s' →
  0 ≤ SurveySession.current_question_index s →
  answers_within s → answers_within s'.
Proof.
  unfold answers_within.
  intros H Hpos Hin. destruct H as [| |q v Hq|q v Hq|q Hq|]; try exact Hin.
  - unfold SurveySession.increment_retry. destruct (_ >? _); exact Hin.
  - pose proof (current_id_within s q Hq) as Hid.
    pose proof (ids_upto_mono (SurveySession.questions s)
                  (Z.to_nat (SurveySession.current_question_index s + 1))
                  (Z.to_nat (SurveySession.current_question_index s + 1 + 1))
                  ltac:(lia)) as Hmono.
    change (dom (<[Question.id q := v]> (SurveySession.responses s))
            ⊆ (list_to_set
                 (Question.id
                    <$> take (Z.to_nat
                                (SurveySession.current_question_index s
                                 + 1 + 1))
                          (SurveySession.questions s)) : gset Z)).
    rewrite dom_insert_L. set_solver.
  - pose proof (current_id_within s q Hq) as Hid.
    change (dom (<[Question.id q := v]> (SurveySession.responses s))
            ⊆ (list_to_set
                 (Question.id
                    <$> take (Z.to_nat
                                (SurveySession.current_question_index s + 1))
                          (SurveySession.questions s)) : gset Z)).
    rewrite dom_insert_L. set_solver.
  - pose proof (ids_upto_mono (SurveySession.questions s)
                  (Z.to_nat (SurveySession.current_question_index s + 1))
                  (Z.to_nat (SurveySession.current_question_index s + 1 + 1))
                  ltac:(lia)) as Hmono.
    change (dom (SurveySession.responses s)
            ⊆ (list_to_set
                 (Question.id
                    <$> take (Z.to_nat
                                (SurveySession.current_question_index s
                                 + 1 + 1))
                          (SurveySession.questions s)) : gset Z)).
    set_solver.
Qed.

Lemma size_list_to_set_le (l : list Z) :
  (size (list_to_set l : gset Z) ≤ length l)%nat.
Proof.
  induction l as [|x l IH]; [by rewrite list_to_set_nil, size_empty|].
  rewrite list_to_set_cons, size_union_alt, size_singleton. cbn [length].
  pose proof (subseteq_size (list_to_set l ∖ {[x]}) (list_to_set l : gset Z)
                ltac:(set_solver)).
  lia.
Qed.

Lemma within_size s :
  0 ≤ SurveySession.current_question_index s →
  answers_within s →
  Z.of_nat (size (SurveySession.responses s))
  ≤ SurveySession.current_question_index s + 1.
Proof.
  intros Hpos Hin. apply subseteq_size in Hin.
  rewrite size_dom in Hin.
  pose proof (size_list_to_set_le
                (Question.id
                   <$> take (Z.to_nat
                               (SurveySession.current_question_index s + 1))
                         (SurveySession.questions s))) as Hle.
  rewrite length_fmap, length_take in Hle. lia.
Qed.

(** The invariant carried along a run. *)
Lemma run_invariant es : ∀ a,
  0 ≤ cursor a ≤ total a →
  answers_within (SurveyAgent.session a) →
  cursor a ≤ cursor (run es a)
  ∧ 0 ≤ cursor (run es a) ≤ total (run es a)
  ∧ total (run es a) = total a
  ∧ answers_within (SurveyAgent.session (run es a))
  ∧ (no_failed_write es a = true →
     Z.of_nat (size (answers a)) ≤ cursor a →
     Z.of_nat (size (answers (run es a))) ≤ cursor (run es a)).
Proof.
  induction es as [|e es IH]; intros a Hr Hin.
  - cbn. auto with lia.
  - cbn [run no_failed_write].
    pose proof (event_changes e a) as Hch.
    pose proof (change_cursor _ _ _ Hch) as [Hmono Hkeep].
    pose proof (change_questions _ _ _ Hch) as Hqs.
    assert (Htot : total (after_event e a) = total a).
    { unfold total, SurveySession.len_questions. by rewrite Hqs. }
    destruct (IH (after_event e a)) as (I1 & I2 & I3 & I4 & I5).
    { apply Hkeep, Hr. }
    { eapply change_within; [exact Hch | apply Hr | exact Hin]. }
    unfold cursor in *.
    split; [lia|]. split; [exact I2|]. split; [congruence|].
    split; [exact I4|].
    intros Hnf Hsz. apply andb_true_iff in Hnf as [Hw Hnf].
    apply negb_true_iff in Hw. rewrite Hw in Hch.
    apply I5; [exact Hnf|].
    exact (change_answers_ok _ _ Hch Hsz).
Qed.

Lemma run_app (es es' : list event) a :
  run (es ++ es') a = run es' (run es a).
Proof. revert a. induction es as [|e es IH]; intros a; [done|]. apply IH. Qed.

End Invariants.

Section InvariantsClaim.

(** C7 (as amended). Take a session as [create_session] makes it, over
    any list of questions (with pairwise-distinct ids or not), and any
    sequence of start / advance / skip calls, with the store going up and
    down in between. At every point the cursor is between 0 and the number
    of questions, and it is never smaller than at an earlier point. The
    number of recorded answers is at most the cursor as long as no write
    to the response store has failed; whatever the store does, it is at
    most the cursor plus one. *)
Theorem session_invariants sid survey employee (qs : list Question.t) db
    (es es' : list event) :
  let a0 := new_agent sid survey employee qs db in
  cursor (run es a0) ≤ cursor (run (es ++ es') a0)
  ∧ 0 ≤ cursor (run es a0) ≤ Z.of_nat (length qs)
  ∧ Z.of_nat (size (answers (run es a0))) ≤ cursor (run es a0) + 1
  ∧ (no_failed_write es a0 = true →
     Z.of_nat (size (answers (run es a0))) ≤ cursor (run es a0)).
Proof.
  intros a0.
  assert (Hr0 : 0 ≤ cursor a0 ≤ total a0).
  { unfold cursor, total, SurveySession.len_questions. cbn. lia. }
  assert (Hin0 : answers_within (SurveyAgent.session a0)).
  { unfold answers_within. cbn. rewrite dom_empty_L. set_solver. }
  destruct (run_invariant es a0 Hr0 Hin0) as (_ & H2 & H3 & H4 & H5).
  destruct (run_invariant es' (run es a0) H2 H4) as (H1 & _).
  rewrite run_app.
  split; [exact H1|].
  split; [rewrite H3 in H2; exact H2|].
  split; [apply within_size; [apply H2 | exact H4]|].
  intros Hnf. apply H5; [exact Hnf|]. unfold answers. cbn.
  rewrite map_size_empty. reflexivity.
Qed.

Lemma session_invariants_witness :
  let es := [Call Start; Call (Advance Sample.yes);
             Call (Advance (py "answer one")); Call Skip; Call (Advance [])] in
  no_failed_write es (Sample.agent [Sample.q1; Sample.q3]) = true
  ∧ Z.of_nat (size (answers (run es (Sample.agent [Sample.q1; Sample.q3]))))
    ≤ cursor (run es (Sample.agent [Sample.q1; Sample.q3])).
Proof.
  cbv zeta. split; [reflexivity|].
  apply (session_invariants Sample.sid Sample.survey Sample.employee
           [Sample.q1; Sample.q3] Sample.store
           [Call Start; Call (Advance Sample.yes);
            Call (Advance (py "answer one")); Call Skip; Call (Advance [])]
           []).
  reflexivity.
Defined.

(** C7 as stated fails when a write to the response store fails: the
    answer is already in the session when the call raises, and the cursor
    has not moved, so there is one answer at cursor 0. *)
Lemma session_invariants_counterexample :
  let a := run [Call Start; Call (Advance Sample.yes); Store false;
                Call (Advance (py "answer one"))]
             (Sample.agent [Sample.q1; Sample.q2]) in
  NoDup (Question.id <$> [Sample.q1; Sample.q2])
  ∧ size (answers a) = 1%nat
  ∧ cursor a = 0
  ∧ ¬ (Z.of_nat (size (answers a)) ≤ cursor a).
Proof.
  cbv zeta. split; [apply (bool_decide_unpack _); vm_compute; exact I|].
  split; [vm_compute; reflexivity|]. split; [vm_compute; reflexivity|].
  vm_compute. intros H. apply H. reflexivity.
Qed.

End InvariantsClaim.

(* ===================================================================== *)
(** ** The progress projection *)
(* ===================================================================== *)

Section ProgressClaim.

(** Rounding to [float]: monotone, and exact on 0, 1 and 100. *)
Variable fl : Q → Q.
Hypothesis fl_mono : ∀ x y : Q, (x <= y)%Q → (fl x <= fl y)%Q.
Hypothesis fl_0 : (fl 0 == 0)%Q.
Hypothesis fl_1 : (fl 1 == 1)%Q.
Hypothesis fl_100 : (fl 100 == 100)%Q.





End ProgressClaim.


(* ===================================================================== *)
(** ** What [process_response] keeps of an utterance *)
(* ===================================================================== *)

Section Trimming.

Implicit Types (s u : list N) (a : SurveyAgent.t).

Lemma last_rev s : last (rev s) = head s.
Proof. destruct s as [|c s]; [done|]. cbn [rev]. apply last_snoc. Qed.

Lemma head_rev s : head (rev s) = last s.
Proof. rewrite <- (rev_involutive s) at 2. symmetry. apply last_rev. Qed.

Lemma lstrip_split s : ∃ l, s = l ++ lstrip s ∧ spaces l.
Proof.
  unfold spaces.
  induction s as [|c s (l & E & Hl)]; [by exists []|].
  cbn [lstrip]. destruct (is_space c) eqn:Hc.
  - exists (c :: l). split; [cbn; congruence | by constructor].
  - by exists [].
Qed.

Lemma lstrip_head s c : head (lstrip s) = Some c → is_space c = false.
Proof.
  induction s as [|c0 s IH]; [done|]. cbn [lstrip].
  destruct (is_space c0) eqn:Hc; [exact IH|]. cbn. congruence.
Qed.

Lemma lstrip_nil s : lstrip s = [] ↔ spaces s.
Proof.
  unfold spaces. split.
  - intros E. destruct (lstrip_split s) as (l & Es & Hl).
    rewrite E, app_nil_r in Es. by subst.
  - induction 1 as [|c s Hc _ IH]; [done|]. cbn [lstrip]. by rewrite Hc.
Qed.

Lemma lstrip_id s :
  (∀ c, head s = Some c → is_space c = false) → lstrip s = s.
Proof.
  destruct s as [|c s]; [done|]. intros H. cbn [lstrip].
  by rewrite (H c eq_refl).
Qed.

Lemma strip_split u :
  ∃ l r, u = l ++ strip u ++ r ∧ spaces l ∧ spaces r.
Proof.
  destruct (lstrip_split u) as (l & El & Hl).
  destruct (lstrip_split (rev (lstrip u))) as (r & Er & Hr).
  exists l, (rev r). split; [|split; [exact Hl | by apply Forall_rev]].
  unfold strip, rstrip. rewrite <- rev_app_distr, <- Er, rev_involutive.
  exact El.
Qed.

Lemma strip_nil u : strip u = [] ↔ spaces u.
Proof.
  split.
  - intros E. destruct (strip_split u) as (l & r & Eu & Hl & Hr).
    rewrite E in Eu. cbn in Eu. subst u. by apply Forall_app.
  - intros H. apply lstrip_nil in H. unfold strip, rstrip. by rewrite H.
Qed.

Lemma strip_last u c : last (strip u) = Some c → is_space c = false.
Proof.
  unfold strip, rstrip. rewrite last_rev. apply lstrip_head.
Qed.

Lemma strip_head u c : head (strip u) = Some c → is_space c = false.
Proof.
  intros H. apply (lstrip_head u).
  destruct (lstrip_split (rev (lstrip u))) as (r & Er & _).
  apply (f_equal (@rev N)) in Er. rewrite rev_involutive, rev_app_distr in Er.
  change (rev (lstrip (rev (lstrip u)))) with (strip u) in Er. rewrite Er.
  destruct (strip u); [done|exact H].
Qed.

Lemma strip_idemp u : strip (strip u) = strip u.
Proof.
  unfold strip at 1. rewrite lstrip_id by apply strip_head.
  unfold rstrip. rewrite lstrip_id, rev_involutive; [done|].
  intros c. rewrite head_rev. apply strip_last.
Qed.

(** X1. [process_response] looks at an utterance only through its trimmed
    text: the utterance is that text between two runs of whitespace, the
    text neither starts nor ends with whitespace, it is empty exactly when
    the utterance is made of whitespace only, and the call on the utterance
    and the call on its trimmed text do the same and reply the same. *)
Theorem utterance_trimming a u :
  (∃ l r, u = l ++ strip u ++ r ∧ spaces l ∧ spaces r)
  ∧ (∀ c, head (strip u) = Some c ∨ last (strip u) = Some c →
          is_space c = false)
  ∧ (blank u ↔ spaces u)
  ∧ SurveyAgent.process_response u a
    = SurveyAgent.process_response (strip u) a.
Proof.
  split; [apply strip_split|].
  split; [intros c [H|H]; [by eapply strip_head | by eapply strip_last]|].
  split; [apply strip_nil|].
  unfold SurveyAgent.process_response. by rewrite strip_idemp.
Qed.

End Trimming.

(* ===================================================================== *)
(** ** The retry budget *)
(* ===================================================================== *)

Section RetryBudget.

Implicit Types (a : SurveyAgent.t) (us : list (list N)).

Lemma silence_budget a us :
  Forall blank us →
  let k := Z.to_nat (SurveySession.max_retries (SurveyAgent.session a)
                     - retries a) in
  let n := length us in
  snd (converse us a)
  = replicate (n `min` k) (Return (false, prompts.REPEAT_REQUEST))
    ++ replicate (n - k) (Return (false, prompts.CALL_LATER))
  ∧ session_state (fst (converse us a))
    = (if (n <=? k)%nat then session_state a else SessionState.ABANDONED)
  ∧ retries (fst (converse us a)) = retries a + Z.of_nat n.
Proof.
  revert a. induction us as [|u us IH]; intros a Hus; cbv zeta.
  - cbn. split; [done|]. split; [done|]. lia.
  - apply Forall_cons in Hus as [Hu Hus].
    rewrite converse_cons. cbn [fst snd length].
    pose proof (silent_turn a u Hu) as (Hr & _ & _ & _ & _ & _ & Hm & Hst).
    cbv zeta in Hr, Hm, Hst.
    specialize (IH (fst (SurveyAgent.process_response u a)) Hus).
    cbv zeta in IH. destruct IH as (I1 & I2 & I3).
    rewrite Hm, Hr in I1, I2. rewrite I1, I2, I3, Hr.
    set (m := SurveySession.max_retries (SurveyAgent.session a)) in *.
    set (r := retries a) in *.
    destruct (r + 1 >? m) eqn:Egt; destruct Hst as [Hs1 Hr1]; rewrite Hr1.
    + apply Z.gtb_gt in Egt.
      replace (Z.to_nat (m - (r + 1))) with 0%nat by lia.
      replace (Z.to_nat (m - r)) with 0%nat by lia.
      rewrite !Nat.min_0_r, !Nat.sub_0_r. cbn [replicate app Nat.leb].
      split; [done|]. split; [|lia].
      destruct (length us); [exact Hs1 | done].
    + rewrite Z.gtb_ltb in Egt. apply Z.ltb_ge in Egt.
      replace (Z.to_nat (m - r)) with (S (Z.to_nat (m - (r + 1)))) by lia.
      cbn [Nat.min replicate app Nat.sub Nat.leb].
      split; [done|]. split; [|lia]. by rewrite Hs1.
Qed.

(** X2. Silent turns in a row, in any phase. With [k] the retries left
    ([max_retries - retry_count], or none when that is negative), the first
    [k] are answered by the repeat request and every later one by the
    abandonment line; the session state is untouched by up to [k] of them
    and is ABANDONED after more. *)
Theorem retry_budget a us :
  Forall blank us →
  let k := Z.to_nat (SurveySession.max_retries (SurveyAgent.session a)
                     - retries a) in
  let n := length us in
  snd (converse us a)
  = replicate (n `min` k) (Return (false, prompts.REPEAT_REQUEST))
    ++ replicate (n - k) (Return (false, prompts.CALL_LATER))
  ∧ session_state (fst (converse us a))
    = (if (n <=? k)%nat then session_state a else SessionState.ABANDONED)
  ∧ retries (fst (converse us a)) = retries a + Z.of_nat n.
Proof. apply silence_budget. Qed.

Lemma retry_budget_witness :
  let a := Sample.asking [Sample.q1] in
  snd (converse [[]; py " "; []; []; []] a)
  = [Return (false, prompts.REPEAT_REQUEST);
     Return (false, prompts.REPEAT_REQUEST);
     Return (false, prompts.REPEAT_REQUEST);
     Return (false, prompts.CALL_LATER);
     Return (false, prompts.CALL_LATER)].
Proof.
  pose proof (retry_budget (Sample.asking [Sample.q1])
                [[]; py " "; []; []; []]) as H.
  cbv zeta in H. destruct H as (H & _); [repeat constructor|]. exact H.
Defined.

End RetryBudget.

Lemma utterance_trimming_witness :
  is_space 97%N = false ∧ ¬ spaces (py "  answer one ").
Proof.
  pose proof (utterance_trimming (Sample.asking [Sample.q1])
                (py "  answer one ")) as (_ & Hends & Hblank & _).
  split.
  - apply Hends. left. reflexivity.
  - intros Hs. apply Hblank in Hs. vm_compute in Hs. discriminate.
Defined.

(* ===================================================================== *)
(** ** When the methods raise *)
(* ===================================================================== *)

Section Exceptions.

Implicit Types (a : SurveyAgent.t) (u : list N) (q : Question.t).

(** After an answer or a skip, a cursor still short of the end points at a
    question. *)
Lemma next_question_exists (s : SurveySession.t) q :
  SurveySession.current_question s = Some q →
  (SurveySession.current_question_index s + 1
   >=? SurveySession.len_questions s) = false →
  ∀ s', SurveySession.questions s' = SurveySession.questions s →
        SurveySession.current_question_index s'
        = SurveySession.current_question_index s + 1 →
        ∃ q', SurveySession.current_question s' = Some q'.
Proof.
  intros Hq Hge s' Hqs Hidx. apply current_question_Some in Hq as [Hr _].
  rewrite Z.geb_leb in Hge. apply Z.leb_gt in Hge.
  unfold SurveySession.current_question, SurveySession.len_questions in *.
  rewrite Hqs, Hidx.
  replace (0 <=? _) with true by (symmetry; apply Z.leb_le; lia).
  replace (_ <? _) with true by (symmetry; apply Z.ltb_lt; lia).
  cbn. apply lookup_lt_is_Some. lia.
Qed.

Lemma answer_reply_returns (s : SurveySession.t) q u :
  SurveySession.current_question s = Some q →
  ∃ line, answer_reply (answered q u s) = Return (true, line).
Proof.
  intros Hq. unfold answer_reply.
  destruct (_ >=? _) eqn:E; [by eexists|].
  destruct (next_question_exists s q Hq E (answered q u s)) as [q' Hq'];
    [reflexivity | reflexivity |].
  rewrite Hq'. by eexists.
Qed.

Lemma process_identity_no_question a u :
  ¬ blank u →
  SurveyAgent.phase a = ConversationPhase.WAIT_IDENTITY →
  SurveySession.current_question (SurveyAgent.session a) = None →
  SurveyAgent.process_response u a
  = (SurveyAgent.mk (SurveyAgent.session a) (SurveyAgent.db a)
       ConversationPhase.CONFIRMED,
     Raise AttributeError).
Proof.
  intros Hb Hp Hq. open_agent a. subst p. unfold_agent. cbn.
  unfold blank in Hb. destruct (strip u); [done|]. cbn. rewrite Hq.
  reflexivity.
Qed.



(** X4. [skip_question] never raises and never returns an empty
    utterance. When the cursor points at no question it changes nothing and
    returns the question number with an empty text; on an optional question
    it moves the cursor by one, sets the state to IN_PROGRESS, records
    nothing, and returns the closing line if that was the last question,
    the skip line with the next question otherwise. *)
Theorem skip_question_replies a :
  (∃ line, snd (SurveyAgent.skip_question a) = Return line ∧ line ≠ [])
  ∧ (SurveySession.current_question (SurveyAgent.session a) = None →
     SurveyAgent.skip_question a
     = (a, Return (prompts.format_question (cursor a + 1) [])))
  ∧ (∀ q, SurveySession.current_question (SurveyAgent.session a) = Some q →
          Question.required q = false →
          SurveyAgent.session (fst (SurveyAgent.skip_question a))
          = SurveySession.advance_to_next_question (SurveyAgent.session a)
          ∧ (cursor a + 1 = total a →
             snd (SurveyAgent.skip_question a) = Return prompts.CLOSING)
          ∧ (cursor a + 1 < total a →
             ∃ next_q,
               SurveySession.questions (SurveyAgent.session a)
                 !! Z.to_nat (cursor a + 1) = Some next_q
               ∧ snd (SurveyAgent.skip_question a)
                 = Return (prompts.SKIPPING ++ nl ++ nl
                           ++ prompts.format_question (cursor a + 1 + 1)
                                (SurveyAgent.spoken_text next_q)))).
Proof.
  assert (Hfq : ∀ n t, prompts.format_question n t ≠ []) by done.
  split; [|split].
  - open_agent a. unfold_agent. cbn.
    destruct (SurveySession.current_question s) as [q|] eqn:Hq;
      [|eexists; split; [reflexivity|apply Hfq]].
    destruct (Question.required q); cbn;
      [eexists; split; [reflexivity|apply Hfq]|].
    destruct (_ >=? _) eqn:E; cbn; [by eexists|].
    destruct (next_question_exists s q Hq E
                (SurveySession.advance_to_next_question s)) as [q' Hq'];
      [reflexivity | reflexivity |].
    rewrite Hq'. cbn. eexists; split; [reflexivity|done].
  - intros Hq. open_agent a. unfold_agent. cbn. by rewrite Hq.
  - intros q Hq Hr. pose proof (current_question_Some _ _ Hq) as [Hrange _].
    open_agent a. unfold_agent. cbn. rewrite Hq, Hr. cbn.
    unfold SurveySession.len_questions in *.
    destruct (_ >=? _) eqn:E; cbn; cbn in E.
    + apply Z.geb_le in E. split; [done|]. split; [done|]. intros; lia.
    + rewrite Z.geb_leb in E. apply Z.leb_gt in E.
      destruct (SurveySession.current_question
                  (SurveySession.advance_to_next_question s))
        as [q'|] eqn:Hq'; cbn.
      * split; [done|]. split; [intros; lia|]. intros _.
        apply current_question_Some in Hq' as [_ Hq']. cbn in Hq'.
        by exists q'.
      * destruct (next_question_exists s q Hq
                    ltac:(rewrite Z.geb_leb; apply Z.leb_gt; exact E)
                    (SurveySession.advance_to_next_question s))
          as [q' Hq'']; [reflexivity | reflexivity |]. congruence.
Qed.

Lemma skip_question_replies_witness :
  snd (SurveyAgent.skip_question (Sample.asking [Sample.q3; Sample.q1]))
  = Return (prompts.SKIPPING ++ nl ++ nl
            ++ prompts.format_question 2 (SurveyAgent.spoken_text Sample.q1)).
Proof.
  pose proof (skip_question_replies (Sample.asking [Sample.q3; Sample.q1]))
    as (_ & _ & H).
  destruct (H Sample.q3) as (_ & _ & Hnext); [reflexivity | reflexivity |].
  destruct Hnext as (q & Hq & Hr); [reflexivity|].
  injection Hq as <-. exact Hr.
Defined.

End Exceptions.

(* ===================================================================== *)
(** ** The scripted phases of [get_next_utterance] *)
(* ===================================================================== *)

Section Speaking.

Implicit Types (a : SurveyAgent.t) (q : Question.t).

Lemma speak_S n a :
  speak (S n) a
  = (fst (speak n (fst (SurveyAgent.get_next_utterance a))),
     snd (SurveyAgent.get_next_utterance a)
     :: snd (speak n (fst (SurveyAgent.get_next_utterance a)))).
Proof.
  cbn [speak]. destruct (SurveyAgent.get_next_utterance a) as [a1 r].
  cbn [fst snd]. destruct (speak n a1). reflexivity.
Qed.

Lemma get_next_utterance_frame a :
  let a' := fst (SurveyAgent.get_next_utterance a) in
  same_identity (SurveyAgent.session a) (SurveyAgent.session a')
  ∧ rows a' = rows a ∧ answers a' = answers a ∧ cursor a' = cursor a
  ∧ retries a' = retries a
  ∧ Database.available (SurveyAgent.db a')
    = Database.available (SurveyAgent.db a).
Proof.
  cbv zeta. unfold same_identity, rows.
  open_agent a. unfold_agent. unfold Database.complete_session.
  destruct (Database.available d) eqn:Hd;
    destruct p; cbn; rewrite ?Hd; cbn;
    repeat (match goal with
            | |- context [match SurveySession.current_question ?s with _ => _ end] =>
                destruct (SurveySession.current_question s)
            | |- context [if ?b then _ else _] => destruct b
            end; cbn; rewrite ?Hd; cbn);
    repeat split; auto.
Qed.

(** In a waiting phase there is nothing to say. *)
Lemma speak_waiting n a :
  waiting (SurveyAgent.phase a) = true →
  speak n a = (a, replicate n (Return [])).
Proof.
  intros Hw. induction n as [|n IH]; [done|].
  assert (E : SurveyAgent.get_next_utterance a = (a, Return [])).
  { open_agent a. unfold_agent. cbn. destruct p; try discriminate; done. }
  rewrite speak_S, E. cbn [fst snd]. rewrite IH. reflexivity.
Qed.

(** X5. The three scripted steps after the identity confirmation. From
    CONFIRMED, with a question at the cursor, three [get_next_utterance]
    calls say the confirmation, the survey intro and the question, and
    leave the agent in WAIT_ANSWER with session and store untouched. At
    cursor 0, the single reply [process_response] gives in WAIT_IDENTITY is
    these three utterances joined by blank lines, and it lands in the same
    agent. *)
Theorem scripted_steps a q :
  SurveyAgent.phase a = ConversationPhase.CONFIRMED →
  SurveySession.current_question (SurveyAgent.session a) = Some q →
  let name := Employee.name (SurveySession.employee (SurveyAgent.session a)) in
  let confirmed := prompts.format_identity_confirmed name in
  let asked :=
    prompts.format_question (cursor a + 1) (SurveyAgent.spoken_text q) in
  let landed :=
    SurveyAgent.mk (SurveyAgent.session a) (SurveyAgent.db a)
      ConversationPhase.WAIT_ANSWER in
  speak 3 a
  = (landed, [Return confirmed; Return prompts.SURVEY_INTRO; Return asked])
  ∧ (cursor a = 0 →
     ∀ u, ¬ blank u →
          SurveyAgent.process_response u
            (SurveyAgent.mk (SurveyAgent.session a) (SurveyAgent.db a)
               ConversationPhase.WAIT_IDENTITY)
          = (landed,
             Return (true,
                     confirmed ++ nl ++ nl ++ prompts.SURVEY_INTRO
                     ++ nl ++ nl ++ asked))).
Proof.
  intros Hp Hq. cbv zeta. split.
  - open_agent a. subst p. cbn [speak]. unfold_agent. cbn. rewrite Hq.
    reflexivity.
  - intros Hc u Hu. rewrite Hc.
    exact (process_identity
             (SurveyAgent.mk (SurveyAgent.session a) (SurveyAgent.db a)
                ConversationPhase.WAIT_IDENTITY) u q Hu eq_refl Hq).
Qed.

Lemma scripted_steps_witness :
  let a := Sample.agent [Sample.q1] in
  speak 3 (SurveyAgent.mk (SurveyAgent.session a) (SurveyAgent.db a)
             ConversationPhase.CONFIRMED)
  = (Sample.asking [Sample.q1],
     [Return (prompts.format_identity_confirmed (Employee.name Sample.employee));
      Return prompts.SURVEY_INTRO;
      Return (prompts.format_question 1 (SurveyAgent.spoken_text Sample.q1))]).
Proof.
  apply (scripted_steps
           (SurveyAgent.mk (SurveyAgent.session (Sample.agent [Sample.q1]))
              (SurveyAgent.db (Sample.agent [Sample.q1]))
              ConversationPhase.CONFIRMED)
           Sample.q1); reflexivity.
Defined.

Lemma steps_to_wait_le p : (steps_to_wait p ≤ 4)%nat.
Proof. destruct p; cbn; lia. Qed.

(** One call brings the agent one step closer to a waiting phase, as long
    as the store is up. *)
Lemma speak_closer a :
  Database.available (SurveyAgent.db a) = true →
  (steps_to_wait (SurveyAgent.phase (fst (SurveyAgent.get_next_utterance a)))
   ≤ steps_to_wait (SurveyAgent.phase a) - 1)%nat.
Proof.
  intros Hd. open_agent a. unfold_agent. unfold Database.complete_session.
  destruct p; cbn; rewrite ?Hd; cbn; try lia.
  - destruct (SurveySession.current_question s); cbn; lia.
  - destruct (_ >=? _); cbn; [lia|].
    destruct (SurveySession.current_question s); cbn; lia.
Qed.

Lemma speak_progress n : ∀ a,
  Database.available (SurveyAgent.db a) = true →
  (steps_to_wait (SurveyAgent.phase (fst (speak n a)))
   ≤ steps_to_wait (SurveyAgent.phase a) - n)%nat
  ∧ cursor (fst (speak n a)) = cursor a
  ∧ answers (fst (speak n a)) = answers a
  ∧ retries (fst (speak n a)) = retries a
  ∧ Database.available (SurveyAgent.db (fst (speak n a))) = true.
Proof.
  induction n as [|n IH]; intros a Hd.
  - cbn. repeat split; auto; lia.
  - rewrite speak_S. cbn [fst].
    pose proof (speak_closer a Hd) as Hstep.
    pose proof (get_next_utterance_frame a) as (_ & _ & Ha & Hc & Hr & Hav).
    cbv zeta in *. rewrite Hd in Hav.
    destruct (IH _ Hav) as (I1 & I2 & I3 & I4 & I5).
    repeat split; try congruence. lia.
Qed.

(** X6. [get_next_utterance] settles. While the store is up, four calls
    from any agent end in a waiting phase (WAIT_IDENTITY, WAIT_ANSWER or
    DONE); from there every further call returns the empty string and
    changes nothing. None of these calls touches the cursor, the answers or
    the retry count. *)
Theorem speak_settles a :
  Database.available (SurveyAgent.db a) = true →
  let a' := fst (speak 4 a) in
  waiting (SurveyAgent.phase a') = true
  ∧ (∀ n, speak n a' = (a', replicate n (Return [])))
  ∧ cursor a' = cursor a
  ∧ answers a' = answers a
  ∧ retries a' = retries a.
Proof.
  intros Hd. cbv zeta.
  destruct (speak_progress 4 a Hd) as (Hsteps & Hc & Ha & Hr & _).
  assert (Hw : waiting (SurveyAgent.phase (fst (speak 4 a))) = true).
  { pose proof (steps_to_wait_le (SurveyAgent.phase a)).
    destruct (SurveyAgent.phase (fst (speak 4 a))); cbn in *; done || lia. }
  split; [exact Hw|]. split; [|auto].
  intros n. by apply speak_waiting.
Qed.

Lemma speak_settles_witness :
  let a := Sample.agent [Sample.q1] in
  let closing := SurveyAgent.mk (SurveyAgent.session a) (SurveyAgent.db a)
                   ConversationPhase.CLOSING in
  SurveyAgent.phase (fst (speak 4 closing)) = ConversationPhase.DONE
  ∧ speak 2 (fst (speak 4 closing))
    = (fst (speak 4 closing), [Return []; Return []]).
Proof.
  pose proof (speak_settles
                (SurveyAgent.mk (SurveyAgent.session (Sample.agent [Sample.q1]))
                   (SurveyAgent.db (Sample.agent [Sample.q1]))
                   ConversationPhase.CLOSING)) as H.
  cbv zeta in *. destruct H as (_ & Hn & _); [reflexivity|].
  split; [reflexivity | exact (Hn 2%nat)].
Defined.

End Speaking.

Section Closing.

Implicit Types (a : SurveyAgent.t).

(** X7. The way to DONE. With no question left to ask (ASK_QUESTION with
    no question at the cursor, or ACKNOWLEDGE with the cursor at or past
    the end) and the store up, two [get_next_utterance] calls both say the
    closing line; after them the phase is DONE, the session state
    COMPLETED, the row of the session in table [sessions], if there is one,
    has status "completed" (no row: the table is as before, without error),
    and table [responses] is untouched. *)
Theorem closing_is_said_twice a :
  (SurveyAgent.phase a = ConversationPhase.ASK_QUESTION
   ∧ SurveySession.current_question (SurveyAgent.session a) = None)
  ∨ (SurveyAgent.phase a = ConversationPhase.ACKNOWLEDGE
     ∧ total a ≤ cursor a) →
  Database.available (SurveyAgent.db a) = true →
  let a' := fst (speak 2 a) in
  let sid := SurveySession.session_id (SurveyAgent.session a) in
  snd (speak 2 a) = [Return prompts.CLOSING; Return prompts.CLOSING]
  ∧ SurveyAgent.phase a' = ConversationPhase.DONE
  ∧ SurveyAgent.session a' = SurveySession.complete (SurveyAgent.session a)
  ∧ rows a' = rows a
  ∧ (∀ k, k ≠ sid →
          Database.sessions (SurveyAgent.db a') !! k
          = Database.sessions (SurveyAgent.db a) !! k)
  ∧ match Database.sessions (SurveyAgent.db a) !! sid with
    | Some row =>
        Database.sessions (SurveyAgent.db a') !! sid
        = Some (Database.mk_session (Database.s_survey_id row)
                  (Database.s_employee_id row) (py "completed"))
    | None => SurveyAgent.db a' = SurveyAgent.db a
    end.
Proof.
  intros Hph Hd. cbv zeta.
  assert (E : speak 2 a
              = (SurveyAgent.mk (SurveySession.complete (SurveyAgent.session a))
                   (Database.mk (Database.responses (SurveyAgent.db a))
                      (alter (λ r, Database.mk_session (Database.s_survey_id r)
                                     (Database.s_employee_id r) (py "completed"))
                         (SurveySession.session_id (SurveyAgent.session a))
                         (Database.sessions (SurveyAgent.db a)))
                      (Database.available (SurveyAgent.db a)))
                   ConversationPhase.DONE,
                 [Return prompts.CLOSING; Return prompts.CLOSING])).
  { open_agent a. cbn [speak]. unfold_agent. unfold Database.complete_session.
    destruct Hph as [[-> Hq] | [-> Hge]]; cbn.
    - rewrite Hq. cbn. rewrite Hd. reflexivity.
    - unfold SurveySession.len_questions in *.
      replace (_ >=? _) with true by (symmetry; apply Z.geb_le; lia).
      cbn. rewrite Hd. reflexivity. }
  rewrite E. cbn [fst snd]. unfold rows.
  cbn [SurveyAgent.db SurveyAgent.session SurveyAgent.phase
       Database.responses Database.sessions].
  split; [done|]. split; [done|]. split; [done|]. split; [done|].
  split.
  - intros k Hk. by rewrite lookup_alter_ne.
  - destruct (Database.sessions (SurveyAgent.db a)
                !! SurveySession.session_id (SurveyAgent.session a))
      as [row|] eqn:Hrow.
    + by rewrite lookup_alter_eq, Hrow.
    + destruct (SurveyAgent.db a) as [rs ss av]. cbn in *. f_equal.
      apply map_eq. intros k.
      destruct (decide (k = SurveySession.session_id (SurveyAgent.session a)))
        as [->|Hk].
      * by rewrite lookup_alter_eq, Hrow.
      * by rewrite lookup_alter_ne.
Qed.

Lemma closing_is_said_twice_witness :
  let a := run [Call (Advance (py "answer one"))] (Sample.asking [Sample.q1]) in
  let asking := SurveyAgent.mk (SurveyAgent.session a) (SurveyAgent.db a)
                  ConversationPhase.ASK_QUESTION in
  snd (speak 2 asking) = [Return prompts.CLOSING; Return prompts.CLOSING]
  ∧ session_state (fst (speak 2 asking)) = SessionState.COMPLETED.
Proof.
  pose proof (closing_is_said_twice
                (SurveyAgent.mk
                   (SurveyAgent.session
                      (run [Call (Advance (py "answer one"))]
                         (Sample.asking [Sample.q1])))
                   (SurveyAgent.db
                      (run [Call (Advance (py "answer one"))]
                         (Sample.asking [Sample.q1])))
                   ConversationPhase.ASK_QUESTION)) as H.
  cbv zeta in *.
  destruct H as (H1 & _ & H3 & _); [left; split; reflexivity | reflexivity |].
  split; [exact H1|]. unfold session_state. rewrite H3. reflexivity.
Defined.

(** X8. [get_next_utterance] raises in two situations and no other: in
    ACKNOWLEDGE with a negative cursor (AttributeError), and in CLOSING when
    the store is down (OperationalError). In the second the session state
    is already COMPLETED while the phase is still CLOSING and the store is
    as it was, so that the same call, once the store is up, completes the
    closing. *)
Theorem get_next_utterance_raises a e :
  (snd (SurveyAgent.get_next_utterance a) = Raise e
   ↔ SurveyAgent.phase a = ConversationPhase.ACKNOWLEDGE
     ∧ cursor a < 0 ∧ cursor a < total a ∧ e = AttributeError
     ∨ SurveyAgent.phase a = ConversationPhase.CLOSING
       ∧ Database.available (SurveyAgent.db a) = false
       ∧ e = OperationalError)
  ∧ (SurveyAgent.phase a = ConversationPhase.CLOSING →
     Database.available (SurveyAgent.db a) = false →
     let a' := fst (SurveyAgent.get_next_utterance a) in
     a' = SurveyAgent.mk (SurveySession.complete (SurveyAgent.session a))
            (SurveyAgent.db a) ConversationPhase.CLOSING
     ∧ snd (SurveyAgent.get_next_utterance (after_event (Store true) a'))
       = Return prompts.CLOSING
     ∧ SurveyAgent.phase
         (fst (SurveyAgent.get_next_utterance (after_event (Store true) a')))
       = ConversationPhase.DONE).
Proof.
  split.
  - open_agent a. unfold_agent. unfold Database.complete_session.
    unfold SurveySession.current_question, SurveySession.len_questions.
    destruct p; cbn;
      try (split; [discriminate | intros [(? & _) | (? & _)]; discriminate]).
    + destruct (_ && _); [destruct (_ !! _)|]; cbn;
        (split; [discriminate | intros [(? & _) | (? & _)]; discriminate]).
    + destruct (_ >=? _) eqn:Ege; cbn.
      * apply Z.geb_le in Ege.
        split; [discriminate|]. intros [(_ & ? & ? & _) | (? & _)];
          [lia | discriminate].
      * rewrite Z.geb_leb in Ege. apply Z.leb_gt in Ege.
        destruct (0 <=? _) eqn:E0; cbn.
        -- apply Z.leb_le in E0.
           replace (_ <? _) with true by (symmetry; apply Z.ltb_lt; lia).
           destruct (_ !! _) eqn:El; cbn.
           ++ split; [discriminate|]. intros [(_ & ? & _) | (? & _)];
                [lia | discriminate].
           ++ apply lookup_ge_None in El. lia.
        -- apply Z.leb_gt in E0. split.
           ++ intros [= <-]. left. auto.
           ++ intros [(_ & _ & _ & ->) | (? & _)];
                [reflexivity | discriminate].
    + destruct (Database.available d) eqn:Hd; cbn.
      * split; [discriminate|]. intros [(? & _) | (_ & ? & _)]; discriminate.
      * split; [intros [= <-]; right; auto|].
        intros [(? & _) | (_ & _ & ->)]; [discriminate | reflexivity].
  - intros Hp Hd. open_agent a. subst p. unfold_agent.
    unfold Database.complete_session. cbn. rewrite Hd. cbn. done.
Qed.

Lemma get_next_utterance_raises_witness :
  let a := Sample.agent [Sample.q1] in
  let closing := SurveyAgent.mk (SurveyAgent.session a)
                   (Database.set_available false (SurveyAgent.db a))
                   ConversationPhase.CLOSING in
  snd (SurveyAgent.get_next_utterance closing) = Raise OperationalError
  ∧ session_state (fst (SurveyAgent.get_next_utterance closing))
    = SessionState.COMPLETED.
Proof.
  pose proof (get_next_utterance_raises
                (SurveyAgent.mk (SurveyAgent.session (Sample.agent [Sample.q1]))
                   (Database.set_available false
                      (SurveyAgent.db (Sample.agent [Sample.q1])))
                   ConversationPhase.CLOSING) OperationalError)
    as [[_ Hraise] Hstate].
  cbv zeta in *. split.
  - apply Hraise. right. repeat split.
  - destruct Hstate as (-> & _); reflexivity.
Defined.

End Closing.

(* ===================================================================== *)
(** ** The response store along a run *)
(* ===================================================================== *)

Section StoreRows.

Implicit Types (a : SurveyAgent.t) (e : event) (es : list event).

Lemma event_identity e a :
  same_identity (SurveyAgent.session a) (SurveyAgent.session (after_event e a)).
Proof.
  pose proof (event_changes e a) as H.
  unfold same_identity.
  destruct H; cbn; auto.
  unfold SurveySession.increment_retry. destruct (_ >? _); cbn; auto.
Qed.

Lemma answer_turn_rows a (u : list N) (q : Question.t) :
  ¬ blank u →
  SurveyAgent.phase a = ConversationPhase.WAIT_ANSWER →
  SurveySession.current_question (SurveyAgent.session a) = Some q →
  Database.available (SurveyAgent.db a) = true →
  SurveyAgent.process_response u a
  = (SurveyAgent.mk (answered q u (SurveyAgent.session a))
       (Database.mk
          (rows a ++ [row_for (SurveyAgent.session a) (length (rows a))
                        (Question.id q) (strip u)])
          (Database.sessions (SurveyAgent.db a))
          (Database.available (SurveyAgent.db a)))
       ConversationPhase.WAIT_ANSWER,
     answer_reply (answered q u (SurveyAgent.session a))).
Proof.
  intros Hb Hp Hq Hd.
  apply (process_answer a u q _
           (Z.of_nat (length (Database.responses (SurveyAgent.db a))) + 1)
           Hb Hp Hq).
  unfold Database.save_response. rewrite Hd. reflexivity.
Qed.

Lemma event_store_effect e a : store_effect e a (after_event e a).
Proof.
  destruct e as [[|u|]|up]; unfold after_event, after_call.
  - (* get_next_utterance *)
    pose proof (get_next_utterance_frame a) as (_ & Hr & Ha & Hc & _).
    cbv zeta in *. apply effect_none; auto with lia.
  - (* process_response *)
    destruct (decide (blank u)) as [Hb|Hb].
    { pose proof (silent_turn a u Hb) as (_ & Hc & Ha & _ & Hd & _).
      cbv zeta in *. apply effect_none; unfold rows; auto with lia.
      - congruence.
      - unfold write_failed. rewrite (process_blank a u Hb). reflexivity. }
    assert (Hsame : SurveyAgent.process_response u a
                    = (a, Return (false, prompts.REPEAT_REQUEST))
                    ∨ SurveyAgent.process_response u a
                      = (a, Return (false, prompts.TECHNICAL_ERROR))
                    → store_effect (Call (Advance u)) a
                        (fst (SurveyAgent.process_response u a))).
    { intros [E|E]; apply effect_none; unfold write_failed; rewrite E;
        cbn; auto with lia. }
    destruct (SurveyAgent.phase a) eqn:Hp;
      try (apply Hsame; left; apply process_unexpected;
           [exact Hb | rewrite Hp; done | rewrite Hp; done]).
    + destruct (SurveySession.current_question (SurveyAgent.session a))
        as [q|] eqn:Hq.
      * apply effect_none; unfold write_failed;
          rewrite (process_identity a u q Hb Hp Hq);
          unfold rows, answers, cursor; cbn; auto with lia.
      * apply effect_none; unfold write_failed;
          rewrite (process_identity_no_question a u Hb Hp Hq);
          unfold rows, answers, cursor; cbn; auto with lia.
    + destruct (SurveySession.current_question (SurveyAgent.session a))
        as [q|] eqn:Hq.
      * destruct (Database.available (SurveyAgent.db a)) eqn:Hd.
        -- pose proof (answer_turn_rows a u q Hb Hp Hq Hd) as E.
           apply (effect_written _ _ _ q (strip u)); [exact Hq | | | |];
             unfold write_failed; rewrite E; unfold rows, answers, cursor;
             cbn [fst snd SurveyAgent.db SurveyAgent.session
                  Database.responses]; try reflexivity.
           destruct (answer_reply_returns (SurveyAgent.session a) q u Hq)
             as [line ->]. reflexivity.
        -- apply (effect_lost _ _ _ q (strip u)); [exact Hq | | | |];
             unfold write_failed;
             rewrite (process_answer_store_down a u q Hb Hp Hq Hd);
             reflexivity.
      * apply Hsame. right. by apply process_answer_no_question.
  - (* skip_question *)
    apply effect_none; [| | |reflexivity].
    + open_agent a. unfold rows. unfold_agent. cbn.
      repeat (match goal with
              | |- context [match SurveySession.current_question ?s with _ => _ end] =>
                  destruct (SurveySession.current_question s)
              | |- context [if ?b then _ else _] => destruct b
              end; cbn); reflexivity.
    + open_agent a. unfold_agent. cbn.
      repeat (match goal with
              | |- context [match SurveySession.current_question ?s with _ => _ end] =>
                  destruct (SurveySession.current_question s)
              | |- context [if ?b then _ else _] => destruct b
              end; cbn); reflexivity.
    + pose proof (event_changes (Call Skip) a) as H.
      apply change_cursor in H as [H _]. exact H.
  - apply effect_none; unfold rows, answers, cursor; cbn; auto with lia.
Qed.

End StoreRows.

Section StoreRowsClaim.

Implicit Types (a : SurveyAgent.t) (e : event) (es : list event).

Lemma row_for_same (s s' : SurveySession.t) n k v :
  same_identity s s' → row_for s' n k v = row_for s n k v.
Proof. intros (E1 & E2 & E3 & _). unfold row_for. by rewrite E1, E2, E3. Qed.

Lemma current_question_elem (s : SurveySession.t) q :
  SurveySession.current_question s = Some q →
  Question.id q ∈ Question.id <$> SurveySession.questions s.
Proof.
  intros Hq. apply current_question_Some in Hq as [_ Hq].
  apply list_elem_of_fmap. exists q. split; [done|].
  by eapply list_elem_of_lookup_2.
Qed.

(** The rows written along a run, relative to where it started. *)
Lemma run_store es : ∀ a,
  ∃ added,
    rows (run es a) = rows a ++ added
    ∧ Z.of_nat (length added) ≤ cursor (run es a) - cursor a
    ∧ same_identity (SurveyAgent.session a) (SurveyAgent.session (run es a))
    ∧ (∀ k, is_Some (answers a !! k) → is_Some (answers (run es a) !! k))
    ∧ (∀ (i : nat) r, added !! i = Some r →
         ∃ k v,
           r = row_for (SurveyAgent.session a) (length (rows a) + i) k v
           ∧ k ∈ Question.id <$> SurveySession.questions (SurveyAgent.session a)
           ∧ is_Some (answers (run es a) !! k))
    ∧ (no_failed_write es a = true →
       answers (run es a)
       = foldl (λ m r, <[Database.r_question_id r
                         := Database.r_answer_text r]> m)
           (answers a) added).
Proof.
  induction es as [|e es IH]; intros a.
  - exists []. cbn. rewrite app_nil_r. unfold same_identity.
    repeat split; auto; [lia | intros i r Hi; done].
  - cbn [run no_failed_write].
    destruct (IH (after_event e a))
      as (added & Hrows & Hlen & Hid & Hmono & Hok & Hagree).
    pose proof (event_identity e a) as Hid1.
    assert (Hid2 : same_identity (SurveyAgent.session a)
                     (SurveyAgent.session (run es (after_event e a)))).
    { destruct Hid as (? & ? & ? & ?), Hid1 as (? & ? & ? & ?).
      unfold same_identity. repeat split; congruence. }
    assert (Hqs : SurveySession.questions (SurveyAgent.session (after_event e a))
                  = SurveySession.questions (SurveyAgent.session a))
      by apply Hid1.
    destruct (event_store_effect e a)
      as [Hr Ha Hc Hw | q v Hq Hr Ha Hc Hw | q v Hq Hr Ha Hc Hw].
    + exists added. rewrite Hrows, Hr.
      split; [done|]. split; [lia|]. split; [exact Hid2|].
      split; [intros k Hk; apply Hmono; by rewrite Ha|].
      split.
      * intros i r Hi. destruct (Hok i r Hi) as (k & v & -> & Hk & Hs).
        exists k, v. rewrite Hr, (row_for_same _ _ _ _ _ Hid1), <- Hqs. auto.
      * rewrite Hw. cbn. intros Hnf. by rewrite Hagree, Ha.
    + exists (row_for (SurveyAgent.session a) (length (rows a))
                (Question.id q) v :: added).
      rewrite Hrows, Hr, <- app_assoc. cbn [app length].
      split; [done|]. split; [lia|]. split; [exact Hid2|].
      split.
      { intros k Hk. apply Hmono. rewrite Ha.
        destruct (decide (Question.id q = k)) as [->|Hne];
          [rewrite lookup_insert_eq; eauto | by rewrite lookup_insert_ne]. }
      split.
      * intros [|i] r Hi; cbn in Hi.
        -- injection Hi as <-. exists (Question.id q), v.
           rewrite Nat.add_0_r. split; [done|].
           split; [by apply current_question_elem|].
           apply Hmono. rewrite Ha, lookup_insert_eq. eauto.
        -- destruct (Hok i r Hi) as (k & v' & -> & Hk & Hs).
           exists k, v'. rewrite Hr, (row_for_same _ _ _ _ _ Hid1), <- Hqs.
           rewrite length_app. cbn [length].
           replace (length (rows a) + 1 + i)%nat
             with (length (rows a) + S i)%nat by lia.
           auto.
      * rewrite Hw. cbn. intros Hnf. by rewrite Hagree, Ha.
    + exists added. rewrite Hrows, Hr.
      split; [done|]. split; [lia|]. split; [exact Hid2|].
      split.
      { intros k Hk. apply Hmono. rewrite Ha.
        destruct (decide (Question.id q = k)) as [->|Hne];
          [rewrite lookup_insert_eq; eauto | by rewrite lookup_insert_ne]. }
      split.
      * intros i r Hi. destruct (Hok i r Hi) as (k & v' & -> & Hk & Hs).
        exists k, v'. rewrite Hr, (row_for_same _ _ _ _ _ Hid1), <- Hqs. auto.
      * rewrite Hw. cbn. discriminate.
Qed.


(** X10. The store gives the answers back. Along a run of a new agent in
    which no write to the store failed, replaying the rows added to table
    [responses], later rows winning, gives exactly the answers mapping of
    the session. *)
Theorem store_agrees sid survey employee (qs : list Question.t) db es :
  no_failed_write es (new_agent sid survey employee qs db) = true →
  let a := run es (new_agent sid survey employee qs db) in
  answers a
  = answers_of_rows (drop (length (Database.responses db)) (rows a)).
Proof.
  intros Hnf. cbv zeta.
  destruct (run_store es (new_agent sid survey employee qs db))
    as (added & Hrows & _ & _ & _ & _ & Hagree).
  rewrite Hrows. change (rows (new_agent sid survey employee qs db))
    with (Database.responses db).
  rewrite drop_app_length. exact (Hagree Hnf).
Qed.

End StoreRowsClaim.

Section StoreRowsExamples.

Import Sample.


Lemma store_agrees_witness :
  let es := [Call Start; Call (Advance yes);
             Call (Advance (py "answer one"));
             Call (Advance (py "answer two"))] in
  let a := run es (new_agent sid survey employee [q1; q2] store) in
  answers a = answers_of_rows (drop (length (Database.responses store)) (rows a)).
Proof.
  intros es.
  refine (store_agrees sid survey employee [q1; q2] store es _).
  vm_compute. reflexivity.
Defined.

End StoreRowsExamples.

(* ===================================================================== *)
(** ** Completion *)
(* ===================================================================== *)

Section Completion.

Implicit Types (a : SurveyAgent.t) (e : event) (es : list event).

Lemma current_question_None (s : SurveySession.t) :
  SurveySession.current_question s = None →
  SurveySession.current_question_index s < 0
  ∨ SurveySession.len_questions s ≤ SurveySession.current_question_index s.
Proof.
  unfold SurveySession.current_question, SurveySession.len_questions.
  destruct (0 <=? _) eqn:E0; [|apply Z.leb_gt in E0; auto].
  destruct (_ <? _) eqn:E1; [|apply Z.ltb_ge in E1; auto].
  cbn. intros H. apply lookup_ge_None in H. apply Z.ltb_lt in E1. lia.
Qed.

(** [process_response] and [skip_question] never close a conversation. *)
Lemma advance_keeps_open a (u : list N) :
  closed (fst (SurveyAgent.process_response u a)) → closed a.
Proof.
  unfold closed, session_state.
  destruct (decide (blank u)) as [Hb|Hb].
  { rewrite (process_blank a u Hb). cbn.
    unfold SurveySession.increment_retry. destruct (_ >? _); cbn; auto.
    intros [?|[?|?]]; auto; discriminate. }
  destruct (SurveyAgent.phase a) eqn:Hp;
    try (rewrite (process_unexpected a u Hb) by (rewrite Hp; done);
         cbn [fst]; rewrite Hp; intros H; exact H);
    destruct (SurveySession.current_question (SurveyAgent.session a))
      as [q|] eqn:Hq.
  - rewrite (process_identity a u q Hb Hp Hq). cbn.
    intros [?|[?|?]]; auto; discriminate.
  - rewrite (process_identity_no_question a u Hb Hp Hq). cbn.
    intros [?|[?|?]]; auto; discriminate.
  - destruct (Database.available (SurveyAgent.db a)) eqn:Hd.
    + destruct (answer_turn a u q Hb Hp Hq Hd) as (a' & E & Hs & Hp' & _).
      rewrite E. cbn [fst]. rewrite Hs, Hp'. cbn.
      intros [?|[?|?]]; discriminate.
    + rewrite (process_answer_store_down a u q Hb Hp Hq Hd). cbn.
      intros [?|[?|?]]; auto; discriminate.
  - rewrite (process_answer_no_question a u Hb Hp Hq). cbn [fst].
    rewrite Hp. intros H; exact H.
Qed.

Lemma skip_keeps_open a :
  closed (fst (SurveyAgent.skip_question a)) → closed a.
Proof.
  unfold closed, session_state. open_agent a. unfold_agent. cbn.
  destruct (SurveySession.current_question s) as [q|]; [|by cbn].
  destruct (Question.required q); cbn; [done|].
  destruct (_ >=? _); cbn.
  - intros [?|[?|?]]; auto; discriminate.
  - destruct (SurveySession.current_question
                (SurveySession.advance_to_next_question s)); cbn;
      intros [?|[?|?]]; auto; discriminate.
Qed.

(** [get_next_utterance] closes only past the last question. *)
Lemma speak_closes_at_end a :
  0 ≤ cursor a →
  (closed a → total a ≤ cursor a) →
  closed (fst (SurveyAgent.get_next_utterance a)) → total a ≤ cursor a.
Proof.
  unfold closed, session_state, total. intros H0 Hinv.
  pose proof (current_question_None (SurveyAgent.session a)) as Hnone.
  revert Hinv Hnone H0. open_agent a. unfold_agent.
  unfold Database.complete_session. intros Hinv Hnone H0.
  destruct p; cbn;
    try (intros [?|[?|?]]; first [discriminate | by auto]).
  - destruct (SurveySession.current_question s); cbn.
    + intros [?|[?|?]]; first [discriminate | by auto].
    + intros _. destruct Hnone as [?|?]; [done | lia | done].
  - destruct (_ >=? _) eqn:E; cbn.
    + intros _. apply Z.geb_le in E. exact E.
    + destruct (SurveySession.current_question s); cbn;
        intros [?|[?|?]]; first [discriminate | by auto].
Qed.

Lemma run_closed es : ∀ a,
  0 ≤ cursor a →
  (closed a → total a ≤ cursor a) →
  closed (run es a) → total (run es a) ≤ cursor (run es a).
Proof.
  induction es as [|e es IH]; intros a H0 Hinv; [exact Hinv|].
  cbn [run].
  pose proof (event_changes e a) as Hch.
  pose proof (change_cursor _ _ _ Hch) as [Hmono _].
  pose proof (change_questions _ _ _ Hch) as Hqs.
  assert (Htot : total (after_event e a) = total a).
  { unfold total, SurveySession.len_questions. by rewrite Hqs. }
  apply IH; [unfold cursor in *; lia|].
  rewrite Htot. intros Hcl.
  assert (total a ≤ cursor a); [|unfold cursor in *; lia].
  destruct e as [[|u|]|up]; cbn [after_event after_call] in Hcl.
  - by apply speak_closes_at_end.
  - by apply Hinv, (advance_keeps_open a u).
  - by apply Hinv, skip_keeps_open.
  - apply Hinv. exact Hcl.
Qed.

(** X11. Completion comes only at the end, and stays. Along any run of a
    new agent, [is_complete] holds
    exactly when the cursor has reached the number of questions; the
    phases CLOSING and DONE and the session state COMPLETED occur only
    then; and once [is_complete] holds it holds at every later point. *)
Theorem completion_at_the_end sid survey employee (qs : list Question.t) db
    es es' :
  let a := run es (new_agent sid survey employee qs db) in
  (SurveySession.is_complete (SurveyAgent.session a) = true
   ↔ cursor a = Z.of_nat (length qs))
  ∧ (closed a → cursor a = Z.of_nat (length qs))
  ∧ (SurveySession.is_complete (SurveyAgent.session a) = true →
     SurveySession.is_complete
       (SurveyAgent.session (run (es ++ es') (new_agent sid survey employee qs db)))
     = true).
Proof.
  cbv zeta.
  set (a0 := new_agent sid survey employee qs db).
  assert (H00 : 0 ≤ cursor a0) by (unfold cursor; cbn; lia).
  assert (Hinv0 : closed a0 → total a0 ≤ cursor a0).
  { unfold closed, session_state. cbn. intros [?|[?|?]]; discriminate. }
  assert (Hbound : ∀ l, 0 ≤ cursor (run l a0) ≤ Z.of_nat (length qs)
                        ∧ total (run l a0) = Z.of_nat (length qs)).
  { intros l.
    destruct (run_invariant l a0) as (_ & H1 & H2 & _).
    - unfold cursor, total, SurveySession.len_questions. cbn. lia.
    - unfold answers_within. cbn. rewrite dom_empty_L. set_solver.
    - split; [|rewrite H2; reflexivity].
      rewrite H2 in H1. exact H1. }
  assert (Hclosed : ∀ l, closed (run l a0) →
                         cursor (run l a0) = Z.of_nat (length qs)).
  { intros l Hcl. pose proof (run_closed l a0 H00 Hinv0 Hcl).
    destruct (Hbound l) as [? Ht]. rewrite Ht in *. lia. }
  assert (Hiff : ∀ l, SurveySession.is_complete (SurveyAgent.session (run l a0))
                      = true ↔ cursor (run l a0) = Z.of_nat (length qs)).
  { intros l. destruct (Hbound l) as [Hb Ht].
    unfold SurveySession.is_complete. fold (cursor (run l a0)).
    fold (total (run l a0)). rewrite Ht. split.
    - intros H. apply orb_true_iff in H as [H|H].
      + apply Z.geb_le in H. lia.
      + apply Hclosed. right. right. unfold session_state.
        destruct (SurveySession.state _); done.
    - intros ->. apply orb_true_iff. left. apply Z.geb_le. lia. }
  split; [apply Hiff|]. split; [apply Hclosed|].
  intros Hc. apply Hiff in Hc. apply Hiff.
  destruct (Hbound (es ++ es')) as [Hb _].
  destruct (run_invariant es' (run es a0)) as (Hm & _).
  - destruct (Hbound es) as [? Ht]. rewrite Ht. lia.
  - destruct (run_invariant es a0) as (_ & _ & _ & Hw & _); [| |exact Hw].
    + unfold cursor, total, SurveySession.len_questions. cbn. lia.
    + unfold answers_within. cbn. rewrite dom_empty_L. set_solver.
  - rewrite run_app in *. lia.
Qed.

Lemma completion_at_the_end_witness :
  let a0 := new_agent Sample.sid Sample.survey Sample.employee
              [Sample.q1] Sample.store in
  let es := [Call Start; Call (Advance Sample.yes);
             Call (Advance (py "answer one"))] in
  SurveySession.is_complete (SurveyAgent.session (run es a0)) = true
  ∧ SurveySession.is_complete
      (SurveyAgent.session (run (es ++ [Call (Advance []); Call Start]) a0))
    = true.
Proof.
  intros a0 es.
  pose proof (completion_at_the_end Sample.sid Sample.survey Sample.employee
                [Sample.q1] Sample.store es [Call (Advance []); Call Start])
    as (Hiff & _ & Hstay).
  assert (H : SurveySession.is_complete (SurveyAgent.session (run es a0)) = true).
  { apply Hiff. vm_compute. reflexivity. }
  split; [exact H | exact (Hstay H)].
Defined.

End Completion.

(* ===================================================================== *)
(** ** The respond endpoint *)
(* ===================================================================== *)

Section Respond.

Implicit Types (w : world) (s : SurveySession.t) (sid text : list N).

Lemma respond_blank sid text w s :
  registry w !! sid = Some s →
  blank text →
  routes.process_agent_response sid text w
  = (mk_world (<[sid := fst (SurveySession.increment_retry s)]> (registry w))
       (store w),
     routes.Ok
       (routes.mk_respond_body false
          (if snd (SurveySession.increment_retry s)
           then prompts.REPEAT_REQUEST else prompts.CALL_LATER)
          (SurveySession.current_question_index s + 1)
          (SurveySession.len_questions s)
          (SurveySession.is_complete (fst (SurveySession.increment_retry s))))).
Proof.
  intros Hs Hb. unfold routes.process_agent_response, SessionManager.get_session.
  rewrite Hs, (process_blank _ text Hb). cbn.
  unfold SurveySession.increment_retry. destruct (_ >? _); reflexivity.
Qed.

Lemma respond_text sid text w s :
  registry w !! sid = Some s →
  ¬ blank text →
  routes.process_agent_response sid text w
  = (w,
     routes.Ok
       (routes.mk_respond_body false prompts.REPEAT_REQUEST
          (SurveySession.current_question_index s + 1)
          (SurveySession.len_questions s)
          (SurveySession.is_complete s))).
Proof.
  intros Hs Hb. unfold routes.process_agent_response, SessionManager.get_session.
  rewrite Hs, (process_unexpected _ text Hb) by done. cbn.
  unfold routes.written_back. cbn. rewrite insert_id by exact Hs.
  by destruct w.
Qed.

(** X12. Requests for a session the registry does not hold: each is
    answered by 404 and nothing changes. *)
Theorem respond_unknown_session sid (texts : list (list N)) w :
  registry w !! sid = None →
  routes.respond_all sid texts w
  = (w, replicate (length texts)
          (routes.HTTPException 404 (py "Session not found"))).
Proof.
  intros Hs. induction texts as [|text texts IH]; [done|].
  cbn [routes.respond_all length replicate].
  unfold routes.process_agent_response, SessionManager.get_session.
  rewrite Hs, IH. reflexivity.
Qed.

Lemma respond_unknown_session_witness :
  routes.respond_all Sample.sid [Sample.yes; py "answer one"]
    (mk_world ∅ Sample.store)
  = (mk_world ∅ Sample.store,
     [routes.HTTPException 404 (py "Session not found");
      routes.HTTPException 404 (py "Session not found")]).
Proof.
  apply (respond_unknown_session Sample.sid [Sample.yes; py "answer one"]
           (mk_world ∅ Sample.store)).
  reflexivity.
Defined.

End Respond.

Section RespondClaims.

Implicit Types (w : world) (s : SurveySession.t) (sid text : list N).

Lemma turned_away_same s s' r :
  SurveySession.current_question_index s' = SurveySession.current_question_index s →
  SurveySession.questions s' = SurveySession.questions s →
  turned_away s' r → turned_away s r.
Proof.
  intros Hi Hq (body & -> & ? & ? & Hn & Ht). exists body.
  unfold SurveySession.len_questions in *. rewrite Hi, Hq in *. auto.
Qed.

Lemma respond_all_cons sid text texts w :
  routes.respond_all sid (text :: texts) w
  = (fst (routes.respond_all sid texts
            (fst (routes.process_agent_response sid text w))),
     snd (routes.process_agent_response sid text w)
     :: snd (routes.respond_all sid texts
               (fst (routes.process_agent_response sid text w)))).
Proof.
  cbn [routes.respond_all].
  destruct (routes.process_agent_response sid text w) as [w1 r].
  cbn [fst snd]. destruct (routes.respond_all sid texts w1). reflexivity.
Qed.

Lemma respond_all_app sid texts texts' w :
  fst (routes.respond_all sid (texts ++ texts') w)
  = fst (routes.respond_all sid texts' (fst (routes.respond_all sid texts w))).
Proof.
  revert w. induction texts as [|t texts IH]; intros w; [done|].
  cbn [app]. rewrite !respond_all_cons. cbn [fst]. apply IH.
Qed.

(** Any number of requests for a registered session. *)
Lemma respond_all_frame sid (texts : list (list N)) : ∀ w s,
  registry w !! sid = Some s →
  ∃ s',
    registry (fst (routes.respond_all sid texts w)) !! sid = Some s'
    ∧ SurveySession.responses s' = SurveySession.responses s
    ∧ SurveySession.current_question_index s'
      = SurveySession.current_question_index s
    ∧ SurveySession.questions s' = SurveySession.questions s
    ∧ store (fst (routes.respond_all sid texts w)) = store w
    ∧ (∀ k, k ≠ sid →
            registry (fst (routes.respond_all sid texts w)) !! k
            = registry w !! k)
    ∧ Forall (turned_away s) (snd (routes.respond_all sid texts w))
    ∧ (Forall (λ t, ¬ blank t) texts → fst (routes.respond_all sid texts w) = w)
    ∧ (SurveySession.state s = SessionState.ABANDONED →
       SurveySession.state s' = SessionState.ABANDONED)
    ∧ s' = SurveyAgent.session
             (fst (converse texts (SurveyAgent.init s (store w)))).
Proof.
  induction texts as [|text texts IH]; intros w s Hs.
  - exists s. cbn. repeat split; auto.
  - rewrite respond_all_cons, converse_cons. cbn [fst snd].
    destruct (decide (blank text)) as [Hb|Hb].
    + rewrite (respond_blank sid text w s Hs Hb). cbn [fst snd].
      rewrite (process_blank _ text Hb). cbn [fst SurveyAgent.session
        SurveyAgent.db SurveyAgent.phase SurveyAgent.init].
      set (s1 := fst (SurveySession.increment_retry s)).
      assert (Hs1 : SurveySession.responses s1 = SurveySession.responses s
                    ∧ SurveySession.current_question_index s1
                      = SurveySession.current_question_index s
                    ∧ SurveySession.questions s1 = SurveySession.questions s
                    ∧ (SurveySession.state s = SessionState.ABANDONED →
                       SurveySession.state s1 = SessionState.ABANDONED)).
      { unfold s1, SurveySession.increment_retry.
        destruct (_ >? _); cbn; auto. }
      destruct Hs1 as (Er & Ei & Eq & Eab).
      destruct (IH (mk_world (<[sid := s1]> (registry w)) (store w)) s1)
        as (s' & H1 & H2 & H3 & H4 & H5 & H6 & H7 & _ & H9 & H10);
        [apply lookup_insert_eq|].
      cbn [registry store] in *.
      exists s'. split; [exact H1|]. split; [congruence|].
      split; [congruence|]. split; [congruence|]. split; [exact H5|].
      split; [intros k Hk; rewrite H6 by exact Hk;
              by rewrite lookup_insert_ne|].
      split.
      { constructor.
        - eexists. split; [reflexivity|]. cbn.
          repeat split; try reflexivity.
          destruct (snd (SurveySession.increment_retry s)); auto.
        - eapply Forall_impl; [exact H7|]. intros r.
          by apply turned_away_same. }
      split.
      { intros Hall. apply Forall_cons in Hall as [? _]. contradiction. }
      split; [auto | exact H10].
    + rewrite (respond_text sid text w s Hs Hb). cbn [fst snd].
      rewrite (process_unexpected _ text Hb) by done. cbn [fst].
      destruct (IH w s Hs)
        as (s' & H1 & H2 & H3 & H4 & H5 & H6 & H7 & H8 & H9 & H10).
      exists s'. split; [exact H1|]. split; [exact H2|]. split; [exact H3|].
      split; [exact H4|]. split; [exact H5|]. split; [exact H6|].
      split.
      { constructor; [|exact H7].
        eexists. split; [reflexivity|]. cbn. auto. }
      split.
      { intros Hall. apply Forall_cons in Hall as [_ Hall]. auto. }
      split; [exact H9 | exact H10].
Qed.

(** X13. The respond endpoint never moves the interview. Each request
    builds its agent anew, in phase GREETING, so for a registered session
    and any texts: no answer is recorded, the cursor and the questions stay,
    the store and the other sessions are untouched, and every reply is a
    body without success that carries the repeat request or the abandonment
    line with the unchanged question number. When no text is blank the
    singletons are left exactly as they were. *)
Theorem respond_never_advances sid (texts : list (list N)) w s :
  registry w !! sid = Some s →
  let w' := fst (routes.respond_all sid texts w) in
  (∃ s', registry w' !! sid = Some s'
         ∧ SurveySession.responses s' = SurveySession.responses s
         ∧ SurveySession.current_question_index s'
           = SurveySession.current_question_index s
         ∧ SurveySession.questions s' = SurveySession.questions s)
  ∧ store w' = store w
  ∧ (∀ k, k ≠ sid → registry w' !! k = registry w !! k)
  ∧ Forall (turned_away s) (snd (routes.respond_all sid texts w))
  ∧ (Forall (λ t, ¬ blank t) texts → w' = w).
Proof.
  intros Hs. cbv zeta.
  destruct (respond_all_frame sid texts w s Hs)
    as (s' & H1 & H2 & H3 & H4 & H5 & H6 & H7 & H8 & _).
  split; [by exists s'|]. auto.
Qed.

(** X14. At the respond endpoint abandonment is final. Once more blank
    requests have come in than the session has retries left, the session is
    ABANDONED, and whatever requests follow, blank or not, it stays
    ABANDONED and is not among the active sessions. *)
Theorem respond_abandons sid (blanks later : list (list N)) w s :
  registry w !! sid = Some s →
  Forall blank blanks →
  (Z.to_nat (SurveySession.max_retries s - SurveySession.retry_count s)
   < length blanks)%nat →
  let w' := fst (routes.respond_all sid (blanks ++ later) w) in
  (∃ s', registry w' !! sid = Some s'
         ∧ SurveySession.state s' = SessionState.ABANDONED)
  ∧ SessionManager.get_active_sessions (registry w') !! sid = None.
Proof.
  intros Hs Hbl Hlen. cbv zeta. rewrite respond_all_app.
  destruct (respond_all_frame sid blanks w s Hs)
    as (s1 & H1 & _ & _ & _ & _ & _ & _ & _ & _ & H10).
  assert (Hab : SurveySession.state s1 = SessionState.ABANDONED).
  { pose proof (silence_budget (SurveyAgent.init s (store w)) blanks Hbl)
      as (_ & Hst & _).
    cbv zeta in Hst. unfold session_state, retries in Hst.
    cbn [SurveyAgent.init SurveyAgent.session] in Hst.
    rewrite H10, Hst.
    replace (_ <=? _)%nat with false; [done|].
    symmetry. apply Nat.leb_gt. exact Hlen. }
  destruct (respond_all_frame sid later _ s1 H1)
    as (s' & H1' & _ & _ & _ & _ & _ & _ & _ & H9 & _).
  split; [exists s'; auto|].
  unfold SessionManager.get_active_sessions.
  apply map_lookup_filter_None. right. intros s'' Hs''. cbn.
  rewrite H1' in Hs''. injection Hs'' as <-.
  unfold SessionManager.is_active. rewrite (H9 Hab). discriminate.
Qed.

End RespondClaims.

Section RespondExamples.

Import Sample Fixtures.

Lemma respond_never_advances_witness :
  fst (routes.respond_all sid [yes; py "answer one"] started) = started.
Proof.
  pose proof (respond_never_advances sid [yes; py "answer one"] started
                (SurveyAgent.session (agent [q1; q2]))) as H.
  cbv zeta in H. destruct H as (_ & _ & _ & _ & H); [reflexivity|].
  apply H. repeat constructor; unfold blank; vm_compute; discriminate.
Defined.

Lemma respond_abandons_witness :
  SessionManager.get_active_sessions
    (registry (fst (routes.respond_all sid ([[]; []; []; []] ++ [yes]) started)))
    !! sid = None.
Proof.
  pose proof (respond_abandons sid [[]; []; []; []] [yes] started
                (SurveyAgent.session (agent [q1; q2]))) as H.
  cbv zeta in H. destruct H as (_ & H);
    [reflexivity | repeat constructor | vm_compute; lia |].
  exact H.
Defined.

End RespondExamples.

(* ===================================================================== *)
(** ** The results endpoint *)
(* ===================================================================== *)

Section Results.

Implicit Types (s : SurveySession.t) (a : SurveyAgent.t).

Lemma omap_zip {A B C} (f : A → option C) (g : A → B → C)
    (l : list A) : ∀ (k : list B),
  length l = length k →
  (∀ (i : nat) x y, l !! i = Some x → k !! i = Some y → f x = Some (g x y)) →
  omap f l = zip_with g l k.
Proof.
  induction l as [|x l IH]; intros [|y k] Hlen H; try done.
  cbn. rewrite (H 0%nat x y eq_refl eq_refl). f_equal.
  apply IH; [by injection Hlen|].
  intros i x' y' Hx Hy. exact (H (S i) x' y' Hx Hy).
Qed.

(** X15. The results of a whole interview. For a new agent over a
    non-empty list of questions with pairwise-distinct ids, a store that
    takes the writes, and utterances that are not blank, one for the
    identity and one per question: the results endpoint's list has one
    entry per question, in the order of the questions, each with the id and
    the two texts of the question and the trimmed utterance that answered
    it. *)
Theorem results_of_interview sid survey employee (qs : list Question.t) db
    u0 (us : list (list N)) :
  qs ≠ [] →
  NoDup (Question.id <$> qs) →
  Database.available db = true →
  ¬ blank u0 →
  Forall (λ u, ¬ blank u) us →
  length us = length qs →
  routes.session_results
    (SurveyAgent.session
       (fst (converse us
               (run [Call Start; Call (Advance u0)]
                  (new_agent sid survey employee qs db)))))
  = zip_with
      (λ q u, routes.mk_result_entry (Question.id q) (Question.text q)
                (Question.text_ur q) (strip u))
      qs us.
Proof.
  intros Hne Hnd Hdb Hu0 Hus Hlen.
  destruct qs as [|q1 qs'] eqn:Eqs; [done|]. rewrite <- Eqs in *.
  set (a0 := new_agent sid survey employee qs db).
  set (a1 := SurveyAgent.mk (SurveyAgent.session a0) db
               ConversationPhase.WAIT_IDENTITY).
  set (a2 := SurveyAgent.mk (SurveyAgent.session a0) db
               ConversationPhase.WAIT_ANSWER).
  assert (Hcur : SurveySession.current_question (SurveyAgent.session a0)
                 = Some q1).
  { apply (current_question_at _ [] q1 qs'); [|reflexivity].
    cbn. rewrite Eqs. reflexivity. }
  assert (E1 : fst (SurveyAgent.process_response u0 a1) = a2).
  { rewrite (process_identity a1 u0 q1 Hu0); [reflexivity.. | exact Hcur]. }
  assert (E2 : run [Call Start; Call (Advance u0)] a0 = a2).
  { exact E1. }
  rewrite E2.
  destruct (converse_answers us a2 [] qs) as (a3 & E3 & _ & Ha3 & _ & Hq3);
    [reflexivity | reflexivity | reflexivity | exact Hdb | exact Hus | lia |].
  rewrite E3. cbn [fst]. unfold routes.session_results. rewrite Hq3.
  change (SurveySession.questions (SurveyAgent.session a2)) with qs.
  apply omap_zip; [lia|].
  intros i q u Hq Hu.
  fold (answers a3). rewrite Ha3.
  change (answers a2) with (∅ : gmap Z (list N)).
  rewrite (record_all_lookup ∅ (zip qs us) i (q, u)); [reflexivity| |].
  - rewrite zip_ids by lia. exact Hnd.
  - apply lookup_zip_with_Some. by exists q, u.
Qed.

Lemma results_ids s :
  routes.re_question_id <$> routes.session_results s
  = filter (λ k, is_Some (SurveySession.responses s !! k))
      (Question.id <$> SurveySession.questions s).
Proof.
  unfold routes.session_results.
  induction (SurveySession.questions s) as [|q qs IH]; [done|].
  cbn [omap list_omap fmap list_fmap]. rewrite filter_cons.
  destruct (SurveySession.responses s !! Question.id q) eqn:E.
  - rewrite decide_True by eauto. cbn. f_equal. exact IH.
  - rewrite decide_False by (intros [? ?]; done). exact IH.
Qed.

Lemma results_answers s :
  Forall (λ entry,
            SurveySession.responses s !! routes.re_question_id entry
            = Some (routes.re_answer_text entry))
    (routes.session_results s).
Proof.
  unfold routes.session_results.
  induction (SurveySession.questions s) as [|q qs IH]; [constructor|].
  cbn [omap list_omap].
  destruct (SurveySession.responses s !! Question.id q) eqn:E; cbn.
  - constructor; [exact E | exact IH].
  - exact IH.
Qed.

(** X16. What the results list holds, for any session. Its question ids
    are, in order, the ids of the questions that have an answer; every
    entry carries the answer stored under its id; an id without a stored
    answer (a question that was skipped, or not reached) has no entry. *)
Theorem results_list_answered s :
  routes.re_question_id <$> routes.session_results s
  = filter (λ k, is_Some (SurveySession.responses s !! k))
      (Question.id <$> SurveySession.questions s)
  ∧ Forall (λ entry,
              SurveySession.responses s !! routes.re_question_id entry
              = Some (routes.re_answer_text entry))
      (routes.session_results s)
  ∧ (∀ k, SurveySession.responses s !! k = None →
          k ∉ routes.re_question_id <$> routes.session_results s).
Proof.
  split; [apply results_ids|]. split; [apply results_answers|].
  intros k Hnone. rewrite results_ids. intros Hin.
  apply list_elem_of_filter in Hin as [[v Hv] _]. congruence.
Qed.

Lemma results_list_answered_witness :
  let a := run [Call (Advance (py "answer one")); Call Skip]
             (Sample.asking [Sample.q1; Sample.q3; Sample.q2]) in
  routes.re_question_id <$> routes.session_results (SurveyAgent.session a)
  = [Question.id Sample.q1].
Proof.
  intros a.
  destruct (results_list_answered (SurveyAgent.session a)) as (H & _ & _).
  rewrite H. vm_compute. reflexivity.
Defined.

End Results.

Section ResultsExamples.

Import Sample.

Lemma results_of_interview_witness :
  routes.session_results
    (SurveyAgent.session
       (fst (converse [py " answer one"; py "answer two"]
               (run [Call Start; Call (Advance yes)]
                  (new_agent sid survey employee [q1; q2] store)))))
  = zip_with
      (λ q u, routes.mk_result_entry (Question.id q) (Question.text q)
                (Question.text_ur q) (strip u))
      [q1; q2] [py " answer one"; py "answer two"].
Proof.
  refine (results_of_interview sid survey employee [q1; q2] store yes
            [py " answer one"; py "answer two"] _ _ _ _ _ _).
  - discriminate.
  - apply (bool_decide_unpack _). vm_compute. exact I.
  - reflexivity.
  - unfold blank. vm_compute. discriminate.
  - repeat constructor; unfold blank; vm_compute; discriminate.
  - reflexivity.
Defined.

End ResultsExamples.

(* ===================================================================== *)
(** ** Starting a session *)
(* ===================================================================== *)

Section Starting.

Variables (catalog : Catalog.t) (fresh_id : list N)
  (survey_id employee_id : Z).

Implicit Types (w : world).

Lemma greeting_step s d :
  SurveyAgent.get_next_utterance (SurveyAgent.init s d)
  = (SurveyAgent.mk s d ConversationPhase.WAIT_IDENTITY,
     Return (prompts.format_greeting
               (Employee.name (SurveySession.employee s)))).
Proof. reflexivity. Qed.

Lemma create_for_survey_found w survey employee qs :
  Database.available (store w) = true →
  Catalog.get_survey catalog survey_id = Some survey →
  Catalog.get_employee catalog employee_id = Some employee →
  Catalog.get_questions catalog survey_id = qs →
  qs ≠ [] →
  SurveyAgent.create_for_survey catalog fresh_id survey_id employee_id w
  = match Database.create_session fresh_id survey_id employee_id (store w)
    with
    | inl e =>
        (mk_world (<[fresh_id := created_session fresh_id survey employee qs]> (registry w))
           (store w), inl e)
    | inr d' =>
        (mk_world (<[fresh_id := created_session fresh_id survey employee qs]> (registry w))
           d',
         inr (Some (SurveyAgent.init (created_session fresh_id survey employee qs) d')))
    end.
Proof.
  intros Hd Hs He Hq Hne. unfold SurveyAgent.create_for_survey.
  rewrite Hd, Hs, He, Hq. destruct qs as [|q qs']; [done|]. reflexivity.
Qed.


(** X18. What a successful POST /agent/start leaves behind. With the
    store reachable, the survey and the employee found, at least one
    question, and no row of table [sessions] under the drawn identifier:
    the body carries the identifier, the employee's name, the Urdu title
    of the survey (the English one when the Urdu one is empty), the number
    of questions and the greeting; the registry holds, under the
    identifier, a session in state CREATED at cursor 0 with no answer, no
    retry and the questions of the survey, other entries untouched; table
    [sessions] has gained the row with status in_progress and table
    [responses] is as before. *)
Theorem start_registers w survey employee qs :
  Database.available (store w) = true →
  Catalog.get_survey catalog survey_id = Some survey →
  Catalog.get_employee catalog employee_id = Some employee →
  Catalog.get_questions catalog survey_id = qs →
  qs ≠ [] →
  Database.sessions (store w) !! fresh_id = None →
  routes.start_agent_session catalog fresh_id survey_id employee_id w
  = (mk_world
       (<[fresh_id := created_session fresh_id survey employee qs]> (registry w))
       (Database.mk (Database.responses (store w))
          (<[fresh_id := Database.mk_session survey_id employee_id
                           (py "in_progress")]>
             (Database.sessions (store w)))
          true),
     routes.Ok
       (routes.mk_start_body fresh_id survey_id employee_id
          (Employee.name employee)
          (or_ (Survey.title_ur survey) (Survey.title survey))
          (Z.of_nat (length qs))
          (prompts.format_greeting (Employee.name employee))
          (py "started"))).
Proof.
  intros Hd Hs He Hq Hne Hfresh. unfold routes.start_agent_session.
  rewrite (create_for_survey_found w survey employee qs) by done.
  unfold Database.create_session. rewrite Hd, Hfresh.
  rewrite greeting_step. unfold routes.written_back. cbn.
  rewrite insert_insert_eq. reflexivity.
Qed.

(** X19. How POST /agent/start fails. With the store unreachable the
    request ends in an uncaught OperationalError and nothing has changed.
    With the store reachable, the survey and the employee found and at
    least one question, but a row of table [sessions] already under the
    drawn identifier, the request ends in an uncaught IntegrityError, the
    store is unchanged, and the registry nevertheless holds the new
    session under the identifier, in place of any session registered
    there before, and lists it as active. *)
Theorem start_fails w :
  (Database.available (store w) = false →
   routes.start_agent_session catalog fresh_id survey_id employee_id w
   = (w, routes.Uncaught
           (routes.UncaughtSqlite Database.SqliteOperationalError)))
  ∧ (∀ survey employee qs row,
       Database.available (store w) = true →
       Catalog.get_survey catalog survey_id = Some survey →
       Catalog.get_employee catalog employee_id = Some employee →
       Catalog.get_questions catalog survey_id = qs →
       qs ≠ [] →
       Database.sessions (store w) !! fresh_id = Some row →
       let w' :=
         mk_world
           (<[fresh_id := created_session fresh_id survey employee qs]> (registry w))
           (store w) in
       routes.start_agent_session catalog fresh_id survey_id employee_id w
       = (w', routes.Uncaught
                (routes.UncaughtSqlite Database.SqliteIntegrityError))
       ∧ SessionManager.get_active_sessions (registry w') !! fresh_id
         = Some (created_session fresh_id survey employee qs)).
Proof.
  split.
  - intros Hd. unfold routes.start_agent_session,
      SurveyAgent.create_for_survey. rewrite Hd. reflexivity.
  - intros survey employee qs row Hd Hs He Hq Hne Hrow w'. split.
    + unfold routes.start_agent_session.
      rewrite (create_for_survey_found w survey employee qs) by done.
      unfold Database.create_session. rewrite Hd, Hrow. reflexivity.
    + unfold SessionManager.get_active_sessions.
      apply map_lookup_filter_Some. split; [|reflexivity].
      apply lookup_insert_eq.
Qed.

End Starting.

Section StartingExamples.

Import Sample Fixtures.


Lemma start_registers_witness :
  registry started !! sid = Some (SurveyAgent.session (agent [q1; q2])).
Proof.
  unfold started.
  rewrite (start_registers catalog sid 1 7 empty_world survey employee
             [q1; q2]);
    [reflexivity | reflexivity | reflexivity | reflexivity | reflexivity
    | discriminate | reflexivity].
Defined.

Lemma start_fails_witness :
  routes.start_agent_session catalog sid 1 7 started
  = (started,
     routes.Uncaught (routes.UncaughtSqlite Database.SqliteIntegrityError)).
Proof.
  destruct (start_fails catalog sid 1 7 started) as [_ H].
  destruct (H survey employee [q1; q2]
              (Database.mk_session 1 7 (py "in_progress")))
    as [E _]; [reflexivity | reflexivity | reflexivity | reflexivity
              | discriminate | reflexivity |].
  rewrite E. reflexivity.
Defined.

End StartingExamples.

(* ===================================================================== *)
(** ** The session registry *)
(* ===================================================================== *)

Section Registry.

Implicit Types (m : gmap (list N) SurveySession.t).

(** X20. The registry round trips. A session just created is the one a
    lookup under its identifier returns, and no other identifier is
    affected; after [remove_session] a lookup under the identifier finds
    nothing, and no other identifier is affected; removing an identifier
    that is not registered changes nothing; creating under an identifier
    that was free and removing it again gives the registry back. *)
Theorem registry_round_trip m sid survey employee qs :
  let created := SessionManager.create_session sid survey employee qs m in
  SessionManager.get_session sid created.1 = Some created.2
  ∧ (∀ k, k ≠ sid →
       SessionManager.get_session k created.1
       = SessionManager.get_session k m)
  ∧ SessionManager.get_session sid (SessionManager.remove_session sid m)
    = None
  ∧ (∀ k, k ≠ sid →
       SessionManager.get_session k (SessionManager.remove_session sid m)
       = SessionManager.get_session k m)
  ∧ (SessionManager.get_session sid m = None →
     SessionManager.remove_session sid m = m
     ∧ SessionManager.remove_session sid created.1 = m).
Proof.
  unfold SessionManager.create_session, SessionManager.get_session,
    SessionManager.remove_session. cbn.
  split; [apply lookup_insert_eq|].
  split; [intros k Hk; by apply lookup_insert_ne|].
  split; [destruct (m !! sid) eqn:E; [apply lookup_delete_eq | exact E]|].
  split.
  - intros k Hk. destruct (m !! sid); [by apply lookup_delete_ne | done].
  - intros Hnone. rewrite Hnone, lookup_insert_eq. split; [done|].
    rewrite delete_insert_eq. by apply delete_id.
Qed.

End Registry.

Section RegistryExamples.

Import Sample Fixtures.

Lemma registry_round_trip_witness :
  SessionManager.remove_session sid
    (SessionManager.create_session sid survey employee [q1] ∅).1 = ∅.
Proof.
  destruct (registry_round_trip ∅ sid survey employee [q1])
    as (_ & _ & _ & _ & H).
  destruct H as [_ H]; [reflexivity|]. exact H.
Defined.

End RegistryExamples.

(* ===================================================================== *)
(** ** The survey brain *)
(* ===================================================================== *)

Section Brain.

Import SurveyState SurveyBrain.

(** [str.lower], about which nothing is assumed. *)
Variable lower : list N → list N.

Implicit Types (st : SurveyState.t) (text : list N).

Lemma startswith_spec (pre : list N) : ∀ s,
  startswith s pre = true ↔ ∃ post, s = pre ++ post.
Proof.
  induction pre as [|p pre IH]; intros s; cbn.
  - split; [intros _; by exists s | by destruct s].
  - destruct s as [|c s]; cbn; [split; [done | intros [post H]; discriminate H]|].
    rewrite andb_true_iff, N.eqb_eq, IH. split.
    + intros [-> [post ->]]. eauto.
    + intros [post H]. injection H as -> ->. eauto.
Qed.

Lemma contains_b_spec (sub s : list N) :
  contains_b sub s = true ↔ contains sub s.
Proof.
  unfold contains. induction s as [|c s IH]; cbn [contains_b];
    rewrite orb_true_iff, startswith_spec.
  - split.
    + intros [[post H]|?]; [|done]. by exists [], post.
    + intros (pre & post & H). left. destruct pre; [eauto | done].
  - rewrite IH. split.
    + intros [[post H]|(pre & post & H)].
      * by exists [], post.
      * exists (c :: pre), post. by rewrite H.
    + intros (pre & post & H). destruct pre as [|c' pre].
      * left. by exists post.
      * right. injection H as -> ->. by exists pre, post.
Qed.

Lemma is_positive_spec text :
  is_positive lower text = true
  ↔ ∃ word, word ∈ PROMPTS.positive_words
            ∧ contains word (strip (lower text)).
Proof.
  unfold is_positive. rewrite existsb_exists. split.
  - intros (word & Hin & Hc). exists word.
    by rewrite list_elem_of_In, <- contains_b_spec.
  - intros (word & Hin & Hc). exists word.
    by rewrite <- list_elem_of_In, contains_b_spec.
Qed.

Lemma getitem_lookup {A} (l : list A) (i : nat) :
  getitem l (Z.of_nat i) = l !! i.
Proof.
  unfold getitem. replace (0 <=? Z.of_nat i) with true
    by (symmetry; apply Z.leb_le; lia).
  by rewrite Nat2Z.id.
Qed.

Lemma question_text_at st pre q rest :
  questions st = pre ++ q :: rest →
  current_index st = Z.of_nat (length pre) →
  _get_current_question_text st
  = Some (PROMPTS.format_ask_question (Z.of_nat (length pre) + 1)
            (spoken_text q)).
Proof.
  intros Hq Hi. unfold _get_current_question_text.
  rewrite Hq, Hi, length_app. cbn [length].
  replace (Z.of_nat (length pre + S (length rest)) <=? Z.of_nat (length pre))
    with false by (symmetry; apply Z.leb_gt; lia).
  rewrite getitem_lookup, list_lookup_middle by done. reflexivity.
Qed.

Lemma greeting_confirmed st text q rest :
  phase st = SurveyPhase.GREETING ∨ phase st = SurveyPhase.IDENTITY_CONFIRM →
  is_positive lower text = true →
  questions st = q :: rest →
  current_index st = 0 →
  process_input lower text st
  = (set_phase SurveyPhase.INTRO (set_identity_confirmed true st),
     Returned
       (Some (PROMPTS.format_identity_confirmed (employee_name st)
              ++ nl ++ nl
              ++ PROMPTS.format_ask_question 1 (spoken_text q)))).
Proof.
  intros Hp Hpos Hq Hi. unfold process_input, _handle_identity_response.
  assert (E : _handle_greeting_response lower text st
              = (set_phase SurveyPhase.INTRO (set_identity_confirmed true st),
                 Returned
                   (Some (PROMPTS.format_identity_confirmed (employee_name st)
                          ++ nl ++ nl
                          ++ PROMPTS.format_ask_question 1 (spoken_text q))))).
  { unfold _handle_greeting_response. rewrite Hpos.
    rewrite (question_text_at _ [] q rest) by done. reflexivity. }
  destruct Hp as [-> | ->]; exact E.
Qed.

Lemma greeting_refused st text :
  phase st = SurveyPhase.GREETING ∨ phase st = SurveyPhase.IDENTITY_CONFIRM →
  is_positive lower text = false →
  process_input lower text st
  = (set_phase SurveyPhase.DONE st,
     Returned (Some PROMPTS.identity_negative)).
Proof.
  intros Hp Hneg. unfold process_input, _handle_identity_response,
    _handle_greeting_response. rewrite Hneg. by destruct Hp as [-> | ->].
Qed.

Lemma intro_step st text pre q rest :
  phase st = SurveyPhase.INTRO →
  questions st = pre ++ q :: rest →
  current_index st = Z.of_nat (length pre) →
  process_input lower text st
  = (set_phase SurveyPhase.WAITING st,
     Returned (Some (PROMPTS.format_ask_question (Z.of_nat (length pre) + 1)
                       (spoken_text q)))).
Proof.
  intros Hp Hq Hi. unfold process_input, _handle_intro_response.
  rewrite Hp, (question_text_at _ pre q rest) by done. reflexivity.
Qed.

(** One answer: stored, trimmed, under the key of the question; the cursor
    moves on; the reply is the closing after the last question and the
    acknowledgement with the next question otherwise. *)
Lemma answer_step st text pre q rest :
  phase st = SurveyPhase.WAITING ∨ phase st = SurveyPhase.ASKING →
  questions st = pre ++ q :: rest →
  current_index st = Z.of_nat (length pre) →
  process_input lower text st
  = (set_phase (match rest with
                | [] => SurveyPhase.CLOSING
                | _ :: _ => SurveyPhase.WAITING
                end)
       (set_current_index (Z.of_nat (S (length pre)))
          (set_response (response_key (length pre) q) (strip text) st)),
     reply_to_answer (S (length pre)) rest).
Proof.
  intros Hp Hq Hi.
  assert (E : _handle_answer text st
    = (set_phase (match rest with
                  | [] => SurveyPhase.CLOSING
                  | _ :: _ => SurveyPhase.WAITING
                  end)
         (set_current_index (Z.of_nat (S (length pre)))
            (set_response (response_key (length pre) q) (strip text) st)),
       reply_to_answer (S (length pre)) rest)).
  { unfold _handle_answer. rewrite Hq, Hi, getitem_lookup.
    rewrite list_lookup_middle by done.
    cbn [questions set_current_index set_response current_index].
    rewrite Hq, Hi, length_app. cbn [length].
    replace (Z.of_nat (length pre) + 1) with (Z.of_nat (S (length pre)))
      by lia.
    destruct rest as [|q' rest'].
    - match goal with
      | |- context [?a <=? ?b] =>
          destruct (Z.leb_spec a b); [|exfalso; cbn [length] in *; lia]
      end.
      reflexivity.
    - match goal with
      | |- context [?a <=? ?b] =>
          destruct (Z.leb_spec a b); [exfalso; cbn [length] in *; lia|]
      end.
      rewrite (question_text_at _ (pre ++ [q]) q' rest').
      + rewrite length_app. cbn [length].
        replace (length pre + 1)%nat with (S (length pre)) by lia.
        reflexivity.
      + cbn. rewrite Hq, <- app_assoc. reflexivity.
      + cbn. rewrite length_app. cbn [length]. lia. }
  unfold process_input. destruct Hp as [-> | ->]; exact E.
Qed.

Lemma process_inputs_cons text texts st :
  process_inputs lower (text :: texts) st
  = (fst (process_inputs lower texts (fst (process_input lower text st))),
     snd (process_input lower text st)
     :: snd (process_inputs lower texts (fst (process_input lower text st)))).
Proof.
  cbn [process_inputs]. destruct (process_input lower text st) as [st1 o].
  cbn [fst snd]. by destruct (process_inputs lower texts st1).
Qed.

Lemma done_inputs texts : ∀ st,
  phase st = SurveyPhase.DONE →
  process_inputs lower texts st
  = (st, replicate (length texts) (Returned (Some PROMPTS.not_understood))).
Proof.
  induction texts as [|text texts IH]; intros st Hp; [done|].
  rewrite process_inputs_cons.
  assert (E : process_input lower text st
              = (st, Returned (Some PROMPTS.not_understood)))
    by (unfold process_input; by rewrite Hp).
  rewrite E. cbn [fst snd]. rewrite (IH st Hp). reflexivity.
Qed.

Lemma stuck_inputs texts : ∀ st,
  phase st = SurveyPhase.WAITING ∨ phase st = SurveyPhase.ASKING →
  getitem (questions st) (current_index st) = None →
  process_inputs lower texts st = (st, replicate (length texts) IndexError).
Proof.
  induction texts as [|text texts IH]; intros st Hp Hnone; [done|].
  rewrite process_inputs_cons.
  assert (E : process_input lower text st = (st, IndexError)).
  { unfold process_input, _handle_answer. rewrite Hnone.
    by destruct Hp as [-> | ->]. }
  rewrite E. cbn [fst snd]. by rewrite (IH st Hp Hnone).
Qed.

Lemma record_answers_other rest : ∀ us i m k,
  k ∉ response_keys i rest →
  record_answers i m (zip rest us) !! k = m !! k.
Proof.
  induction rest as [|q rest IH]; intros [|u us] i m k Hk; try done.
  cbn in Hk. apply not_elem_of_cons in Hk as [Hne Hk].
  cbn [zip zip_with record_answers]. fold (zip rest us).
  rewrite IH by exact Hk. by apply lookup_insert_ne.
Qed.

Lemma record_answers_lookup rest : ∀ us i m (j : nat) q u,
  NoDup (response_keys i rest) →
  rest !! j = Some q →
  us !! j = Some u →
  record_answers i m (zip rest us) !! response_key (i + j) q
  = Some (strip u).
Proof.
  induction rest as [|q0 rest IH]; intros [|u0 us] i m j q u Hnd Hq Hu;
    try done.
  cbn in Hnd. apply NoDup_cons in Hnd as [Hfresh Hnd].
  cbn [zip zip_with record_answers]. fold (zip rest us).
  destruct j as [|j]; cbn in Hq, Hu.
  - injection Hq as ->. injection Hu as ->.
    replace (i + 0)%nat with i by lia.
    rewrite record_answers_other by exact Hfresh. apply lookup_insert_eq.
  - replace (i + S j)%nat with (S i + j)%nat by lia.
    by apply IH.
Qed.

Lemma record_answers_size rest : ∀ us i m,
  NoDup (response_keys i rest) →
  (∀ k, k ∈ response_keys i rest → m !! k = None) →
  length us = length rest →
  size (record_answers i m (zip rest us)) = (size m + length rest)%nat.
Proof.
  induction rest as [|q rest IH]; intros [|u us] i m Hnd Hm Hlen; try done.
  cbn in Hnd. apply NoDup_cons in Hnd as [Hfresh Hnd].
  cbn [zip zip_with record_answers]. fold (zip rest us).
  rewrite IH; [| exact Hnd | | by injection Hlen].
  - rewrite map_size_insert_None by (apply Hm; cbn; left).
    cbn [length]. lia.
  - intros k Hk. rewrite lookup_insert_ne by (intros <-; done).
    apply Hm. cbn. by right.
Qed.

(** Answers to all the questions that are left. *)
Lemma answers_run us : ∀ st pre rest,
  phase st = SurveyPhase.WAITING →
  questions st = pre ++ rest →
  current_index st = Z.of_nat (length pre) →
  length us = length rest →
  rest ≠ [] →
  ∃ st',
    process_inputs lower us st = (st', replies_to_answers (length pre) rest)
    ∧ phase st' = SurveyPhase.CLOSING
    ∧ questions st' = questions st
    ∧ current_index st' = Z.of_nat (length (questions st))
    ∧ responses st'
      = record_answers (length pre) (responses st) (zip rest us)
    ∧ employee_name st' = employee_name st
    ∧ identity_confirmed st' = identity_confirmed st.
Proof.
  induction us as [|u us IH]; intros st pre rest Hp Hq Hi Hlen Hne;
    destruct rest as [|q rest]; try done.
  rewrite process_inputs_cons.
  rewrite (answer_step st u pre q rest) by auto. cbn [fst snd].
  destruct rest as [|q' rest'].
  - destruct us; [|done]. eexists. split; [reflexivity|].
    cbn. rewrite Hq, length_app. cbn. repeat split; try done.
    f_equal. lia.
  - destruct (IH (set_phase SurveyPhase.WAITING
                    (set_current_index (Z.of_nat (S (length pre)))
                       (set_response (response_key (length pre) q)
                          (strip u) st)))
                (pre ++ [q]) (q' :: rest'))
      as (st' & E & Hp' & Hq' & Hi' & Hr' & Hn' & Hc');
      [reflexivity | by cbn; rewrite Hq, <- app_assoc
      | by cbn; rewrite length_app; cbn; f_equal; lia
      | by injection Hlen | done |].
    rewrite length_app in E, Hr'. cbn [length] in E, Hr'.
    replace (length pre + 1)%nat with (S (length pre)) in E, Hr' by lia.
    exists st'. rewrite E. cbn [fst snd]. repeat split; try done.
Qed.

(** X21. What counts as a confirmation of identity. In the phases
    GREETING and IDENTITY_CONFIRM the brain goes on to the survey, without
    storing an answer, exactly when the text, lowered and trimmed, contains
    one of the five words of [positive_words] anywhere, whatever else it
    says; otherwise it says the line for a wrong number and the
    conversation is over, nothing else of the state changed. *)
Theorem brain_confirms_by_keyword st text :
  phase st = SurveyPhase.GREETING ∨ phase st = SurveyPhase.IDENTITY_CONFIRM →
  ((∃ word, word ∈ PROMPTS.positive_words
            ∧ contains word (strip (lower text)))
   → fst (process_input lower text st)
     = set_phase SurveyPhase.INTRO (set_identity_confirmed true st))
  ∧ (¬ (∃ word, word ∈ PROMPTS.positive_words
                ∧ contains word (strip (lower text)))
     → process_input lower text st
       = (set_phase SurveyPhase.DONE st,
          Returned (Some PROMPTS.identity_negative))).
Proof.
  intros Hp. split.
  - intros Hw. apply is_positive_spec in Hw.
    unfold process_input, _handle_identity_response,
      _handle_greeting_response.
    destruct Hp as [-> | ->]; rewrite Hw;
      by destruct (_get_current_question_text _).
  - intros Hw. apply greeting_refused; [exact Hp|].
    destruct (is_positive lower text) eqn:E; [|done].
    exfalso. apply Hw. by apply is_positive_spec.
Qed.

(** X22. A whole interview with the brain. For a brain initialised with a
    non-empty list of questions whose keys (the [id], or the position when
    there is none) are pairwise distinct: a confirming text is answered by
    the confirmation and question 1; the next text, whatever it is, is
    answered by question 1 once more and stored nowhere; each of the
    following texts, one per question, is stored trimmed under the key of
    its question and answered by the acknowledgement and the next
    question, the last one by the closing line. The brain then is in phase
    CLOSING with one answer per question and not yet complete; the next
    text is answered by [None] and completes the survey. *)
Theorem brain_interview survey_id employee_id name
    (qs : list SurveyState.question) text0 text1 (us : list (list N)) :
  qs ≠ [] →
  NoDup (response_keys 0 qs) →
  is_positive lower text0 = true →
  length us = length qs →
  ∃ q1 st',
    head qs = Some q1
    ∧ process_inputs lower (text0 :: text1 :: us)
        (initialize survey_id employee_id name qs)
      = (st',
         Returned (Some (PROMPTS.format_identity_confirmed name ++ nl ++ nl
                         ++ PROMPTS.format_ask_question 1 (spoken_text q1)))
         :: Returned (Some (PROMPTS.format_ask_question 1 (spoken_text q1)))
         :: replies_to_answers 0 qs)
    ∧ last (replies_to_answers 0 qs) = Some (Returned (Some PROMPTS.closing))
    ∧ phase st' = SurveyPhase.CLOSING
    ∧ current_index st' = Z.of_nat (length qs)
    ∧ (∀ (i : nat) q u, qs !! i = Some q → us !! i = Some u →
         get_responses st' !! response_key i q = Some (strip u))
    ∧ size (get_responses st') = length qs
    ∧ is_complete st' = false
    ∧ ∀ text, process_input lower text st'
              = (set_phase SurveyPhase.DONE st', Returned None)
              ∧ is_complete (set_phase SurveyPhase.DONE st') = true.
Proof.
  intros Hne Hnd Hpos Hlen.
  destruct qs as [|q1 qs'] eqn:Eqs; [done|]. rewrite <- Eqs in *.
  set (st0 := initialize survey_id employee_id name qs).
  set (st1 := set_phase SurveyPhase.INTRO (set_identity_confirmed true st0)).
  set (st2 := set_phase SurveyPhase.WAITING st1).
  destruct (answers_run us st2 [] qs)
    as (st' & E & Hp' & Hq' & Hi' & Hr' & _ & _);
    [reflexivity | reflexivity | reflexivity | exact Hlen | by rewrite Eqs |].
  exists q1, st'. split; [by rewrite Eqs|]. split.
  { rewrite process_inputs_cons.
    rewrite (greeting_confirmed st0 text0 q1 qs') by (auto; by rewrite Eqs).
    cbn [fst snd]. fold st1. rewrite process_inputs_cons.
    rewrite (intro_step st1 text1 [] q1 qs') by (auto; by rewrite Eqs).
    cbn [fst snd]. fold st2. rewrite E. reflexivity. }
  split.
  { clear -Hne. generalize 0%nat. induction qs as [|q [|q' qs''] IH];
      intros i; [done | reflexivity |].
    cbn [replies_to_answers]. rewrite last_cons.
    specialize (IH ltac:(done) (S i)). cbn [replies_to_answers] in IH.
    by rewrite IH. }
  split; [exact Hp'|]. split; [exact Hi'|]. split.
  { intros i q u Hq Hu. unfold get_responses. rewrite Hr'.
    by apply (record_answers_lookup qs us 0 _ i q u). }
  split.
  { unfold get_responses. rewrite Hr'.
    rewrite record_answers_size; [reflexivity | exact Hnd | | exact Hlen].
    intros k _. apply lookup_empty. }
  split; [unfold is_complete; by rewrite Hp'|].
  intros text. unfold process_input. rewrite Hp'. done.
Qed.

(** X23. A refusal is final. When the text that answers the greeting
    holds none of the positive words, the brain says the line for a wrong
    number and is complete; every later text, whatever it says, is answered
    by the request to repeat, and nothing is stored or changed any more. *)
Theorem brain_refusal_is_final st text0 (texts : list (list N)) :
  phase st = SurveyPhase.GREETING ∨ phase st = SurveyPhase.IDENTITY_CONFIRM →
  is_positive lower text0 = false →
  process_inputs lower (text0 :: texts) st
  = (set_phase SurveyPhase.DONE st,
     Returned (Some PROMPTS.identity_negative)
     :: replicate (length texts) (Returned (Some PROMPTS.not_understood)))
  ∧ is_complete (set_phase SurveyPhase.DONE st) = true.
Proof.
  intros Hp Hneg. split; [|reflexivity].
  rewrite process_inputs_cons, (greeting_refused st text0 Hp Hneg).
  cbn [fst snd]. by rewrite done_inputs.
Qed.

(** X24. A survey without questions never ends. For a brain initialised
    with an empty list of questions, after a confirming text (answered by
    the confirmation alone) and one more text (answered by the empty
    string), every further text ends in an IndexError and leaves the state
    as it is, in phase WAITING: the brain never closes and is never
    complete. *)
Theorem brain_without_questions survey_id employee_id name text0 text1
    (texts : list (list N)) :
  is_positive lower text0 = true →
  let st := set_phase SurveyPhase.WAITING
              (set_identity_confirmed true
                 (initialize survey_id employee_id name [])) in
  process_inputs lower (text0 :: text1 :: texts)
    (initialize survey_id employee_id name [])
  = (st,
     Returned (Some (PROMPTS.format_identity_confirmed name ++ nl ++ nl))
     :: Returned (Some [])
     :: replicate (length texts) IndexError)
  ∧ is_complete st = false.
Proof.
  intros Hpos st. split; [|reflexivity].
  rewrite process_inputs_cons.
  assert (E0 : process_input lower text0
                 (initialize survey_id employee_id name [])
               = (set_phase SurveyPhase.INTRO
                    (set_identity_confirmed true
                       (initialize survey_id employee_id name [])),
                  Returned (Some (PROMPTS.format_identity_confirmed name
                                  ++ nl ++ nl)))).
  { unfold process_input. cbn [phase initialize].
    unfold _handle_greeting_response. rewrite Hpos.
    change (_get_current_question_text _) with (Some ([] : list N)).
    cbn [employee_name set_phase set_identity_confirmed initialize].
    by rewrite app_nil_r. }
  rewrite E0. cbn [fst snd]. rewrite process_inputs_cons.
  change (process_input lower text1 _) with (st, Returned (Some [])).
  cbn [fst snd]. by rewrite (stuck_inputs texts st) by auto.
Qed.

(** The invariant of the brain over questions [qs]. *)
Lemma brain_step qs st text :
  questions st = qs →
  0 ≤ current_index st ≤ Z.of_nat (length qs) →
  (size (responses st) ≤ Z.to_nat (current_index st))%nat →
  (phase st ≠ SurveyPhase.CLOSING → phase st ≠ SurveyPhase.DONE →
   current_index st < Z.of_nat (length qs)) →
  let st' := fst (process_input lower text st) in
  snd (process_input lower text st) ≠ IndexError
  ∧ questions st' = qs
  ∧ 0 ≤ current_index st' ≤ Z.of_nat (length qs)
  ∧ (size (responses st') ≤ Z.to_nat (current_index st'))%nat
  ∧ (phase st' ≠ SurveyPhase.CLOSING → phase st' ≠ SurveyPhase.DONE →
     current_index st' < Z.of_nat (length qs)).
Proof.
  intros Hq Hi Hs Hlt.
  destruct (decide (current_index st < Z.of_nat (length qs))) as [Hin|Hout].
  - (* a question is under the cursor *)
    assert (Hsplit : ∃ pre q rest,
              qs = pre ++ q :: rest
              ∧ current_index st = Z.of_nat (length pre)).
    { destruct (lookup_lt_is_Some_2 qs (Z.to_nat (current_index st)))
        as [q Hq']; [lia|].
      apply list_elem_of_split_length in Hq' as (pre & rest & -> & Hl).
      exists pre, q, rest. split; [done | lia]. }
    destruct Hsplit as (pre & q & rest & Eqs & Ei).
    rewrite <- Hq in Eqs.
    destruct (phase st) eqn:Hp.
    + (* GREETING *)
      destruct (is_positive lower text) eqn:Hpos.
      * unfold process_input, _handle_greeting_response.
        rewrite Hp, Hpos.
        rewrite (question_text_at _ pre q rest) by done.
        cbn. repeat split; try done; lia.
      * rewrite greeting_refused by auto. cbn. repeat split; try done; lia.
    + destruct (is_positive lower text) eqn:Hpos.
      * unfold process_input, _handle_identity_response,
          _handle_greeting_response.
        rewrite Hp, Hpos.
        rewrite (question_text_at _ pre q rest) by done.
        cbn. repeat split; try done; lia.
      * rewrite greeting_refused by auto. cbn. repeat split; try done; lia.
    + rewrite (intro_step st text pre q rest) by done.
      cbn. repeat split; try done; lia.
    + rewrite (answer_step st text pre q rest) by auto.
      cbn [fst snd]. split; [by destruct rest|].
      assert (Hsz : (size (<[response_key (length pre) q := strip text]>
                             (responses st))
                     ≤ S (length pre))%nat).
      { destruct (responses st !! response_key (length pre) q) eqn:El.
        - rewrite map_size_insert_Some by eauto.
          rewrite Ei, Nat2Z.id in Hs. lia.
        - rewrite map_size_insert_None by done.
          rewrite Ei, Nat2Z.id in Hs. lia. }
      rewrite <- Hq, Eqs, length_app in *. cbn [length] in *.
      destruct rest as [|q' rest']; cbn; rewrite ?Nat2Z.id, ?SuccNat2Pos.id_succ;
        repeat split; try done; try lia.
    + rewrite (answer_step st text pre q rest) by auto.
      cbn [fst snd]. split; [by destruct rest|].
      assert (Hsz : (size (<[response_key (length pre) q := strip text]>
                             (responses st))
                     ≤ S (length pre))%nat).
      { destruct (responses st !! response_key (length pre) q) eqn:El.
        - rewrite map_size_insert_Some by eauto.
          rewrite Ei, Nat2Z.id in Hs. lia.
        - rewrite map_size_insert_None by done.
          rewrite Ei, Nat2Z.id in Hs. lia. }
      rewrite <- Hq, Eqs, length_app in *. cbn [length] in *.
      destruct rest as [|q' rest']; cbn; rewrite ?Nat2Z.id, ?SuccNat2Pos.id_succ;
        repeat split; try done; try lia.
    + unfold process_input. rewrite Hp. cbn. repeat split; try done; lia.
    + unfold process_input. rewrite Hp. cbn. repeat split; try done; lia.
  - (* the cursor is at the end: the phase is CLOSING or DONE *)
    destruct (phase st) eqn:Hp;
      try (exfalso; apply Hout, Hlt; congruence).
    + unfold process_input. rewrite Hp. cbn. repeat split; try done; lia.
    + unfold process_input. rewrite Hp. cbn.
      repeat split; try done; try lia.
Qed.

Lemma brain_run qs texts : ∀ st,
  questions st = qs →
  0 ≤ current_index st ≤ Z.of_nat (length qs) →
  (size (responses st) ≤ Z.to_nat (current_index st))%nat →
  (phase st ≠ SurveyPhase.CLOSING → phase st ≠ SurveyPhase.DONE →
   current_index st < Z.of_nat (length qs)) →
  let st' := fst (process_inputs lower texts st) in
  Forall (λ o, o ≠ IndexError) (snd (process_inputs lower texts st))
  ∧ questions st' = qs
  ∧ 0 ≤ current_index st' ≤ Z.of_nat (length qs)
  ∧ (size (responses st') ≤ Z.to_nat (current_index st'))%nat.
Proof.
  induction texts as [|text texts IH]; intros st Hq Hi Hs Hlt.
  - cbn. repeat split; try done; lia.
  - rewrite process_inputs_cons. cbn [fst snd].
    destruct (brain_step qs st text Hq Hi Hs Hlt)
      as (Ho & Hq' & Hi' & Hs' & Hlt').
    destruct (IH _ Hq' Hi' Hs' Hlt') as (Hos & Hq'' & Hi'' & Hs'').
    split; [by constructor|]. split; [exact Hq''|].
    split; [exact Hi'' | exact Hs''].
Qed.

(** X25. With at least one question the brain never fails. For a brain
    initialised with a non-empty list of questions, whatever texts it is
    given: no call of [process_input] ends in an IndexError, the list of
    questions stays the same, the cursor stays between 0 and the number of
    questions, and there are never more answers than the cursor says. *)
Theorem brain_never_fails survey_id employee_id name
    (qs : list SurveyState.question) (texts : list (list N)) :
  qs ≠ [] →
  let run := process_inputs lower texts
               (initialize survey_id employee_id name qs) in
  Forall (λ o, o ≠ IndexError) (snd run)
  ∧ questions (fst run) = qs
  ∧ 0 ≤ current_index (fst run) ≤ Z.of_nat (length qs)
  ∧ (size (get_responses (fst run)) ≤ Z.to_nat (current_index (fst run)))%nat.
Proof.
  intros Hne. apply brain_run; cbn; try done; try lia.
  intros _ _. destruct qs; [done | cbn; lia].
Qed.

End Brain.

Section BrainExamples.

Import SurveyState SurveyBrain BrainSample.

Lemma brain_confirms_by_keyword_witness :
  fst (process_input lower no_sir (brain [q1]))
  = set_phase SurveyPhase.INTRO (set_identity_confirmed true (brain [q1])).
Proof.
  destruct (brain_confirms_by_keyword lower (brain [q1]) no_sir) as [H _];
    [left; reflexivity|].
  apply H. exists (py "جی"). split.
  - apply list_elem_of_In. vm_compute. left. reflexivity.
  - exists [], (py " نہیں"). vm_compute. reflexivity.
Defined.

Lemma brain_interview_witness :
  ∃ st',
    fst (process_inputs lower
           [py "Yes"; py "fine"; py " good "; py "none"] (brain [q1; q2]))
    = st'
    ∧ get_responses st' !! 11 = Some (py "good")
    ∧ get_responses st' !! 1 = Some (py "none")
    ∧ size (get_responses st') = 2%nat.
Proof.
  destruct (brain_interview lower 1 7 (py "احمد") [q1; q2] (py "Yes")
              (py "fine") [py " good "; py "none"])
    as (q & st' & _ & E & _ & _ & _ & Hr & Hs & _).
  - discriminate.
  - apply (bool_decide_unpack _). vm_compute. exact I.
  - vm_compute. reflexivity.
  - reflexivity.
  - exists st'. unfold brain. rewrite E. split; [reflexivity|].
    split; [exact (Hr 0%nat q1 (py " good ") eq_refl eq_refl)|].
    split; [exact (Hr 1%nat q2 (py "none") eq_refl eq_refl) | exact Hs].
Defined.

Lemma brain_refusal_is_final_witness :
  process_inputs lower [py "wrong number"; py "Yes"; no_sir] (brain [q1])
  = (set_phase SurveyPhase.DONE (brain [q1]),
     [Returned (Some PROMPTS.identity_negative);
      Returned (Some PROMPTS.not_understood);
      Returned (Some PROMPTS.not_understood)]).
Proof.
  destruct (brain_refusal_is_final lower (brain [q1]) (py "wrong number")
              [py "Yes"; no_sir]) as [E _].
  - left. reflexivity.
  - vm_compute. reflexivity.
  - exact E.
Defined.

Lemma brain_without_questions_witness :
  snd (process_inputs lower [py "Yes"; py "fine"; py "good"; py "none"]
         (brain []))
  = [Returned (Some (PROMPTS.format_identity_confirmed (py "احمد")
                     ++ nl ++ nl));
     Returned (Some []); IndexError; IndexError].
Proof.
  destruct (brain_without_questions lower 1 7 (py "احمد") (py "Yes")
              (py "fine") [py "good"; py "none"]) as [E _].
  - vm_compute. reflexivity.
  - unfold brain. rewrite E. reflexivity.
Defined.

Lemma brain_never_fails_witness :
  Forall (λ o, o ≠ IndexError)
    (snd (process_inputs lower [py "Yes"; []; []; []; []; no_sir]
            (brain [q1; q2]))).
Proof.
  destruct (brain_never_fails lower 1 7 (py "احمد") [q1; q2]
              [py "Yes"; []; []; []; []; no_sir]) as [H _].
  - discriminate.
  - exact H.
Defined.

End BrainExamples.
